(** * The bulk e-mail dispatcher of [send-email/lambda_function.py]

    A shallow embedding of the Lambda handler that merges a spreadsheet of
    recipients into an HTML template, sends one message per row through SES
    and writes one audit item per row to DynamoDB, together with the
    properties its specification states about it.

    Python strings are modelled as [string]; the only characters the code
    inspects are the braces, the carriage return and the line feed, which are
    single bytes that never occur inside a multi-byte UTF-8 sequence, so
    scanning bytes and scanning code points find the same placeholders.

    Everything outside the file (S3, pandas, SES, DynamoDB, the [json]
    module, [str.format], the clock and the uuid generator) is a field of a
    [World]: the handler is a function of the world and of the event, and
    every call that leaves the process is recorded in a trace. *)

From Stdlib Require Import List String Ascii ZArith Lia Bool Arith Sorted.
From Stdlib Require Import DecimalString.
From Stdlib Require Import Permutation.
From Equations Require Import Equations.
Import ListNotations.
Open Scope string_scope.

Set Warnings "-register-all".

(** ** Strings *)

Definition newline : ascii := "010"%char.
Definition carriage_return : ascii := "013"%char.
Definition open2 : string := "{{".
Definition close2 : string := "}}".

(** [s[n:]] *)
Fixpoint drop (n : nat) (s : string) : string :=
  match n, s with
  | S k, String _ s' => drop k s'
  | _, _ => s
  end.

(** [s.startswith(p)] *)
Fixpoint starts_with (p s : string) : bool :=
  match p, s with
  | EmptyString, _ => true
  | String a p', String b s' => Ascii.eqb a b && starts_with p' s'
  | String _ _, EmptyString => false
  end.

(** [needle in hay], for strings *)
Fixpoint contains (needle hay : string) : bool :=
  starts_with needle hay
  || match hay with
     | EmptyString => false
     | String _ hay' => contains needle hay'
     end.

(** No character of [g] is a line feed: the characters [.] can match. *)
Fixpoint no_newline (g : string) : bool :=
  match g with
  | EmptyString => true
  | String c g' => negb (Ascii.eqb c newline) && no_newline g'
  end.

(** [s.replace("\r", "")] *)
Fixpoint remove_cr (s : string) : string :=
  match s with
  | EmptyString => EmptyString
  | String c s' =>
      if Ascii.eqb c carriage_return then remove_cr s' else String c (remove_cr s')
  end.

(** ** The regular expression [{{(.*?)}}]

    [lazy_group r] is the part of the match after the opening braces: the
    lazy [.*?] first tries to stop, which needs [}}] right here, and
    otherwise consumes one character that is not a line feed.  The result is
    the captured group and the text after the closing braces. *)
Fixpoint lazy_group (r : string) : option (string * string) :=
  if starts_with close2 r then Some (EmptyString, drop 2 r)
  else match r with
       | EmptyString => None
       | String c r' =>
           if Ascii.eqb c newline then None
           else match lazy_group r' with
                | Some (g, rest) => Some (String c g, rest)
                | None => None
                end
       end.

(** A match of the whole pattern anchored at the start of [s]. *)
Definition match_placeholder (s : string) : option (string * string) :=
  if starts_with open2 s then lazy_group (drop 2 s) else None.

(** What the scanner of [re] sees from left to right: characters no match
    covers, and matches (with the offset they start at and their group). *)
Inductive segment : Type :=
| Lit (c : ascii)
| Hole (off : nat) (g : string).

Definition inspect {A : Type} (a : A) : {b : A | a = b} := exist _ a eq_refl.

(** Termination of the scan: a match consumes at least its four braces. *)
Ltac lazy_group_shorter :=
  let r := fresh "r" in
  let a := fresh "a" in
  let b := fresh "b" in
  let r2 := fresh "r" in
  let g := fresh "g" in
  let rest := fresh "rest" in
  let IH := fresh "IH" in
  let H := fresh "H" in
  let E := fresh "E" in
  intros r; induction r as [|a r IH]; intros g rest;
  [ discriminate
  | cbn [lazy_group];
    destruct (starts_with close2 (String a r)) eqn:E;
    [ intros H; injection H as _ <-;
      destruct r as [|b r2];
      [ cbn in E; rewrite andb_false_r in E; discriminate | cbn; lia ]
    | destruct (Ascii.eqb a newline); [discriminate|];
      destruct (lazy_group r) as [[? ?]|]; [|discriminate];
      intros H; injection H as _ <-;
      specialize (IH _ _ eq_refl); simpl; lia ] ].

(** The scan of [re.findall], [re.finditer] and [re.sub]: try the pattern at
    the current position; after a match go on behind it, otherwise step over
    one character.  The pattern cannot match the empty string, so there is no
    empty-match rule to model. *)
Equations? re_scan (off : nat) (s : string) : list segment
  by wf (String.length s) lt :=
  re_scan off EmptyString := [];
  re_scan off (String c s') with inspect (match_placeholder (String c s')) := {
    | exist _ (Some (g, rest)) Heq :=
        Hole off g :: re_scan (off + 4 + String.length g) rest;
    | exist _ None _ := Lit c :: re_scan (S off) s' }.
Proof.
  assert (L : forall r g rest, lazy_group r = Some (g, rest) ->
                               String.length rest < String.length r)
    by lazy_group_shorter.
  unfold match_placeholder in Heq.
  destruct (starts_with open2 (String c s')); [|discriminate].
  apply L in Heq.
  assert (D : String.length (drop 2 (String c s')) <= String.length (String c s')).
  { simpl. destruct s'; simpl; lia. }
  cbn [String.length] in D. lia.
Qed.

Fixpoint holes (l : list segment) : list (nat * string) :=
  match l with
  | [] => []
  | Lit _ :: l' => holes l'
  | Hole off g :: l' => (off, g) :: holes l'
  end.

(** [[(m.start(), m.group(1)) for m in re.finditer(r'{{(.*?)}}', s)]] *)
Definition re_finditer (s : string) : list (nat * string) := holes (re_scan 0 s).

(** [re.findall(r'{{(.*?)}}', s)] *)
Definition re_findall (s : string) : list string := map snd (re_finditer s).

Fixpoint expand (l : list segment) : string :=
  match l with
  | [] => EmptyString
  | Lit c :: l' => String c (expand l')
  | Hole _ g :: l' => "{" ++ g ++ "}" ++ expand l'
  end.

(** [re.sub(r'\{\{(.*?)\}\}', r'{\1}', s)] *)
Definition re_sub (s : string) : string := expand (re_scan 0 s).

(** [p in columns], for a list of column names *)
Definition py_in (p : string) (columns : list string) : bool :=
  existsb (String.eqb p) columns.

(** [validate_template]: the placeholders no column matches.  Nothing in the
    body can raise on a string and a list, so the [try] wrapper of the source
    never fires and the function is modelled as pure. *)
Definition validate_template (template_content : string) (columns : list string)
  : list string :=
  let placeholders := re_findall template_content in
  let missing_columns :=
    filter (fun placeholder => negb (py_in placeholder columns)) placeholders in
  missing_columns.

(** ** Python values

    The values that flow through the handler: what [json.loads] builds from
    the request and what a spreadsheet cell holds (an empty cell is the float
    NaN in pandas). *)
Inductive pyfloat : Type :=
| FNaN
| FInf (negative : bool)
| FFinite (m e : Z).

Inductive pyval : Type :=
| PNone
| PBool (b : bool)
| PInt (z : Z)
| PFloat (f : pyfloat)
| PStr (s : string)
| PList (l : list pyval)
| PDict (d : list (string * pyval)).

(** A [dict] with string keys, in insertion order. *)
Definition dict : Type := list (string * pyval).

Fixpoint dict_lookup (k : string) (d : dict) : option pyval :=
  match d with
  | [] => None
  | (k', v) :: d' => if String.eqb k k' then Some v else dict_lookup k d'
  end.

(** [d.get(k, default)] *)
Definition dict_get_default (k : string) (default : pyval) (d : dict) : pyval :=
  match dict_lookup k d with
  | Some v => v
  | None => default
  end.

(** [d.get(k)] *)
Definition dict_get (k : string) (d : dict) : pyval := dict_get_default k PNone d.

(** [d[k] = v] *)
Fixpoint dict_set (k : string) (v : pyval) (d : dict) : dict :=
  match d with
  | [] => [(k, v)]
  | (k', v') :: d' =>
      if String.eqb k k' then (k', v) :: d' else (k', v') :: dict_set k v d'
  end.

(** [bool(v)]: what [not v] and [if v] test. *)
Definition py_truthy (v : pyval) : bool :=
  match v with
  | PNone => false
  | PBool b => b
  | PInt z => negb (Z.eqb z 0)
  | PFloat (FFinite m _) => negb (Z.eqb m 0)
  | PFloat _ => true
  | PStr EmptyString => false
  | PStr _ => true
  | PList [] => false
  | PList _ => true
  | PDict [] => false
  | PDict _ => true
  end.

(** [type(v).__name__] *)
Definition py_type_name (v : pyval) : string :=
  match v with
  | PNone => "NoneType"
  | PBool _ => "bool"
  | PInt _ => "int"
  | PFloat _ => "float"
  | PStr _ => "str"
  | PList _ => "list"
  | PDict _ => "dict"
  end.

(** ** Exceptions

    Only subclasses of [Exception] are modelled; [except ClientError] looks at
    the class, [str(e)] at the message. *)
Inductive exn_class : Type :=
| ClientError
| ValueError
| AttributeError
| OtherException.

Record exn : Type := Exn { exn_kind : exn_class; exn_str : string }.

Definition is_client_error (e : exn) : bool :=
  match exn_kind e with
  | ClientError => true
  | _ => false
  end.

(** ** The outside world *)

(** What [pd.read_excel] returns: the column labels and one [dict] per row
    ([to_dict(orient='records')]). *)
Record DataFrame : Type := { df_columns : list string; df_records : list dict }.

(** [DataFrame.empty]: one of the two axes has length 0. *)
Definition df_empty (df : DataFrame) : bool :=
  (List.length (df_columns df) =? 0)%nat || (List.length (df_records df) =? 0)%nat.

(** The two shapes of tuple [read_sheet_data_from_s3] returns. *)
Inductive sheet_result : Type :=
| Triple (rows : list dict) (count : Z) (flag : bool)
| Pair (rows : list dict) (columns : list string).

Inductive effect : Type :=
| EPrint (line : string)
| EUuid4
| ENow
| ES3GetObject (bucket : option string) (key : pyval)
| ESesSendEmail (source : string) (to_addresses : list pyval)
                (subject : pyval) (html : string)
| EPutItem (table : option string) (item : dict).

(** Library functions are functions of their arguments; the services, the
    clock and the generator may also answer by what happened before: they get
    the trace so far.  [inl e] and [Some e] mean that the call raises [e]. *)
Record World : Type := {
  environ : string -> option string;
  json_loads : pyval -> exn + pyval;
  json_dumps : pyval -> string;
  py_str : pyval -> string;
  str_format : string -> dict -> exn + string;
  decode_utf8 : string -> exn + string;
  pd_read_excel : string -> exn + DataFrame;
  strftime : string -> Z -> string;
  now : list effect -> Z;
  uuid4_hex : list effect -> string;
  s3_get_object : list effect -> option string -> pyval -> exn + string;
  boto3_client_ses : list effect -> string -> option exn;
  ses_send_email :
    list effect -> string -> list pyval -> pyval -> string -> option exn;
  dynamodb_Table : list effect -> option string -> option exn;
  put_item : list effect -> option string -> dict -> option exn
}.

(** ** Computations: a trace of effects and a result or a raised exception *)
Definition M (A : Type) : Type := list effect -> (exn + A) * list effect.

Definition ret {A : Type} (a : A) : M A := fun t => (inr a, t).

Definition raise {A : Type} (e : exn) : M A := fun t => (inl e, t).

Definition bind {A B : Type} (m : M A) (k : A -> M B) : M B :=
  fun t =>
    match m t with
    | (inr a, t') => k a t'
    | (inl e, t') => (inl e, t')
    end.

Notation "x <- m ;; k" := (bind m (fun x => k))
  (at level 61, m at next level, right associativity).
Notation "m ;; k" := (bind m (fun _ => k))
  (at level 61, right associativity).

(** [try: m  except Exception as e: h e] *)
Definition try_except {A : Type} (m : M A) (h : exn -> M A) : M A :=
  fun t =>
    match m t with
    | (inl e, t') => h e t'
    | r => r
    end.

(** [try: m  except ClientError as e: h e] *)
Definition try_except_ClientError {A : Type} (m : M A) (h : exn -> M A) : M A :=
  fun t =>
    match m t with
    | (inl e, t') => if is_client_error e then h e t' else (inl e, t')
    | r => r
    end.

Definition emit (ev : effect) : M unit := fun t => (inr tt, (t ++ [ev])%list).

Definition lift {A : Type} (r : exn + A) : M A :=
  match r with
  | inl e => raise e
  | inr a => ret a
  end.

Definition print (line : string) : M unit := emit (EPrint line).

Definition TIME_FORMAT : string := "%Y-%m-%dT%H:%M:%S".

Section Handler.

Variable w : World.

(** [uuid.uuid4().hex] *)
Definition uuid4 : M string := fun t => (inr (uuid4_hex w t), (t ++ [EUuid4])%list).

(** [datetime.datetime.now()], in seconds *)
Definition datetime_now : M Z := fun t => (inr (now w t), (t ++ [ENow])%list).

(** [boto3.client("s3").get_object(Bucket=..., Key=key)['Body'].read()] with
    the bucket of the environment. *)
Definition s3_read (key : pyval) : M string :=
  fun t =>
    let bucket_name := environ w "BUCKET_NAME" in
    (s3_get_object w t bucket_name key,
     (t ++ [ES3GetObject bucket_name key])%list).

Definition get_template (template_file_id : pyval) : M string :=
  try_except
    (request_body <- s3_read template_file_id ;;
     template_content <- lift (decode_utf8 w request_body) ;;
     ret template_content)
    (fun e => print ("Error in get_template: " ++ exn_str e) ;; raise e).

Definition read_sheet_data_from_s3 (spreadsheet_file_id : pyval) : M sheet_result :=
  try_except
    (xlsx_content <- s3_read spreadsheet_file_id ;;
     excel_data <- lift (pd_read_excel w xlsx_content) ;;
     let rows := df_records excel_data in
     if df_empty excel_data then ret (Triple [] 0 true)
     else ret (Pair rows (df_columns excel_data)))
    (fun e => print ("Error in read_sheet_data_from_s3: " ++ exn_str e) ;; raise e).

(** [ses_client.send_email(Source=..., Destination=..., Message=...)] *)
Definition ses_send (source : string) (to_addresses : list pyval)
    (subject : pyval) (html : string) : M unit :=
  fun t =>
    let t' := (t ++ [ESesSendEmail source to_addresses subject html])%list in
    match ses_send_email w t source to_addresses subject html with
    | Some e => (inl e, t')
    | None => (inr tt, t')
    end.

Definition send_email (email_title : pyval) (template_content : string)
    (row : dict) (display_name : pyval) : M (string * string) :=
  try_except
    (let template_content := remove_cr template_content in
     let template_content := re_sub template_content in
     let receiver_email := dict_get "Email" row in
     let name := py_str w (dict_get_default "Name" (PStr "Unknown") row) in
     if negb (py_truthy receiver_email) then
       print ("No email address provided for " ++ name ++ ". Skipping...") ;;
       ret ("Failed", "FAILED")
     else
       try_except
         (formatted_content <- lift (str_format w template_content row) ;;
          let source_email := "awseducate.cloudambassador@gmail.com" in
          let formatted_source_email :=
            py_str w display_name ++ " <" ++ source_email ++ ">" in
          ses_send formatted_source_email [receiver_email] email_title
                   formatted_content ;;
          sent_at <- datetime_now ;;
          let formatted_send_time := strftime w TIME_FORMAT (sent_at + 8 * 3600) in
          print ("Email sent to " ++ name ++ " at " ++ formatted_send_time) ;;
          ret (formatted_send_time, "SUCCESS"))
         (fun e =>
            print ("Failed to send email to " ++ name ++ ": " ++ exn_str e) ;;
            ret ("Failed", "FAILED")))
    (fun e => print ("Error in send_email: " ++ exn_str e) ;; raise e).

(** [boto3.resource('dynamodb').Table(os.environ.get('DYNAMODB_TABLE'))] *)
Definition dynamodb_table : M (option string) :=
  fun t =>
    let table_name := environ w "DYNAMODB_TABLE" in
    match dynamodb_Table w t table_name with
    | Some e => (inl e, t)
    | None => (inr table_name, t)
    end.

(** [table.put_item(Item=item)] *)
Definition table_put_item (table : option string) (item : dict) : M unit :=
  fun t =>
    let t' := (t ++ [EPutItem table item])%list in
    match put_item w t table item with
    | Some e => (inl e, t')
    | None => (inr tt, t')
    end.

Definition audit_item (run_id : pyval) (email_id : string) (display_name : pyval)
    (status : string) (recipient_email template_file_id spreadsheet_file_id : pyval)
    (created_at : string) : dict :=
  [ ("run_id", run_id);
    ("email_id", PStr email_id);
    ("display_name", display_name);
    ("status", PStr status);
    ("recipient_email", recipient_email);
    ("template_file_id", template_file_id);
    ("spreadsheet_file_id", spreadsheet_file_id);
    ("created_at", PStr created_at) ].

Definition save_to_dynamodb (run_id : pyval) (email_id : string)
    (display_name : pyval) (status : string)
    (recipient_email template_file_id spreadsheet_file_id : pyval)
    (created_at : string) : M unit :=
  try_except
    (table <- dynamodb_table ;;
     let item := audit_item run_id email_id display_name status recipient_email
                            template_file_id spreadsheet_file_id created_at in
     try_except_ClientError
       (table_put_item table item ;;
        print ("Saved record to DynamoDB: " ++ py_str w (PDict item)))
       (fun e => print ("Error saving to DynamoDB: " ++ exn_str e)))
    (fun e => print ("Error in save_to_dynamodb: " ++ exn_str e) ;; raise e).

(** [body.get(k)] on whatever [json.loads] returned: only a [dict] has a
    [get]. *)
Definition py_get (body : pyval) (k : string) : M pyval :=
  match body with
  | PDict d => ret (dict_get k d)
  | _ => raise (Exn AttributeError
                    ("'" ++ py_type_name body ++ "' object has no attribute 'get'"))
  end.

(** The [ValueError] of unpacking a longer tuple into two names, with the
    wording CPython uses up to 3.13. *)
Definition unpack_error : exn :=
  Exn ValueError "too many values to unpack (expected 2)".

(** [data, columns = r]: a tuple of any other length raises. *)
Definition unpack_pair (r : sheet_result) : M (list dict * list string) :=
  match r with
  | Pair rows columns => ret (rows, columns)
  | Triple _ _ _ => raise unpack_error
  end.

Record response : Type := { statusCode : Z; body : string }.

(** The local variables of [lambda_handler] that are live after line 139. *)
Record run_ctx : Type := {
  ctx_run_id : pyval;
  ctx_template_file_id : pyval;
  ctx_spreadsheet_id : pyval;
  ctx_email_title : pyval;
  ctx_display_name : pyval;
  ctx_template_content : string;
  ctx_data : list dict;
  ctx_columns : list string
}.

Definition missing_fields_message : string :=
  "Missing template_file_id, spreadsheet_id, email_title, or display_name".

(** Lines 123 to 139: read the request, reject it when a field is missing,
    fetch the template and the table.  [inl r] is the early [return r]. *)
Definition handler_setup (event : dict) : M (response + run_ctx) :=
  request <- lift (json_loads w (dict_get_default "body" (PStr "{}") event)) ;;
  template_file_id <- py_get request "template_file_id" ;;
  spreadsheet_id <- py_get request "spreadsheet_file_id" ;;
  email_title <- py_get request "subject" ;;
  display_name <- py_get request "display_name" ;;
  given <- py_get request "run_id" ;;
  run_id <- (if py_truthy given then py_get request "run_id"
             else fresh <- uuid4 ;; ret (PStr fresh)) ;;
  if negb (py_truthy template_file_id) || negb (py_truthy spreadsheet_id)
     || negb (py_truthy email_title) || negb (py_truthy display_name)
  then
    ret (inl {| statusCode := 400;
                body := json_dumps w (PStr missing_fields_message) |})
  else
    template_content <- get_template template_file_id ;;
    sheet <- read_sheet_data_from_s3 spreadsheet_id ;;
    unpacked <- unpack_pair sheet ;;
    ret (inr {| ctx_run_id := run_id;
                ctx_template_file_id := template_file_id;
                ctx_spreadsheet_id := spreadsheet_id;
                ctx_email_title := email_title;
                ctx_display_name := display_name;
                ctx_template_content := template_content;
                ctx_data := fst unpacked;
                ctx_columns := snd unpacked |}).

(** [boto3.client("ses", region_name="ap-northeast-1")] *)
Definition ses_client : M unit :=
  fun t =>
    match boto3_client_ses w t "ap-northeast-1" with
    | Some e => (inl e, t)
    | None => (inr tt, t)
    end.

(** Lines 153 to 165: the body of the loop for one row. *)
Definition dispatch_row (ctx : run_ctx) (row : dict) (failed_recipients : list pyval)
  : M (list pyval) :=
  sent <- send_email (ctx_email_title ctx) (ctx_template_content ctx) row
                     (ctx_display_name ctx) ;;
  let status := snd sent in
  let failed_recipients :=
    if String.eqb status "FAILED"
    then (failed_recipients ++ [dict_get "Email" row])%list
    else failed_recipients in
  email_id <- uuid4 ;;
  created <- datetime_now ;;
  save_to_dynamodb (ctx_run_id ctx) email_id (ctx_display_name ctx) status
                   (dict_get "Email" row) (ctx_template_file_id ctx)
                   (ctx_spreadsheet_id ctx) (strftime w TIME_FORMAT created) ;;
  ret failed_recipients.

(** Lines 152 to 165: [for row in data]. *)
Fixpoint dispatch_loop (ctx : run_ctx) (rows : list dict)
    (failed_recipients : list pyval) : M (list pyval) :=
  match rows with
  | [] => ret failed_recipients
  | row :: rows' =>
      failed_recipients <- dispatch_row ctx row failed_recipients ;;
      dispatch_loop ctx rows' failed_recipients
  end.

(** The [response] dictionary of lines 167 to 173. *)
Definition success_response (run_id : pyval) (timestamp sqs_message_id : string)
  : dict :=
  [ ("status", PStr "success");
    ("message", PStr "Email request has been queued successfully.");
    ("request_id", run_id);
    ("timestamp", PStr timestamp);
    ("sqs_message_id", PStr sqs_message_id) ].

(** Lines 167 to 179: the answer once the loop is over. *)
Definition handler_finish (ctx : run_ctx) (failed_recipients : list pyval)
  : M response :=
  stamp <- datetime_now ;;
  token <- uuid4 ;;
  let response :=
    success_response (ctx_run_id ctx) (strftime w TIME_FORMAT stamp) token in
  match failed_recipients with
  | _ :: _ =>
      let response := dict_set "failed_recipients" (PList failed_recipients) response in
      ret {| statusCode := 207; body := json_dumps w (PDict response) |}
  | [] => ret {| statusCode := 200; body := json_dumps w (PDict response) |}
  end.

Definition missing_columns_message (missing_columns : list string) : string :=
  "Missing columns in Excel for placeholders: " ++ String.concat ", " missing_columns.

(** Lines 141 to 179. *)
Definition handler_dispatch (ctx : run_ctx) : M response :=
  let missing_columns :=
    validate_template (ctx_template_content ctx) (ctx_columns ctx) in
  match missing_columns with
  | _ :: _ =>
      ret {| statusCode := 400;
             body := json_dumps w (PStr (missing_columns_message missing_columns)) |}
  | [] =>
      ses_client ;;
      failed_recipients <- dispatch_loop ctx (ctx_data ctx) [] ;;
      handler_finish ctx failed_recipients
  end.

(** The [try] block of [lambda_handler]. *)
Definition handler_body (event : dict) : M response :=
  setup <- handler_setup event ;;
  match setup with
  | inl early => ret early
  | inr ctx => handler_dispatch ctx
  end.

Definition internal_error_response (e : exn) : response :=
  {| statusCode := 500;
     body := json_dumps w (PStr ("Internal server error: " ++ exn_str e)) |}.

(** [lambda_handler]: whatever is raised inside is answered with a 500. *)
Definition lambda_handler (event : dict) (t : list effect)
  : response * list effect :=
  match handler_body event t with
  | (inr r, t') => (r, t')
  | (inl e, t') =>
      (internal_error_response e,
       (t' ++ [EPrint ("Error in lambda_handler: " ++ exn_str e)])%list)
  end.

(** The list of failed addresses after a row whose delivery status is
    [status]. *)
Definition failed_after (status : string) (row : dict) (failed_recipients : list pyval)
  : list pyval :=
  if String.eqb status "FAILED"
  then (failed_recipients ++ [dict_get "Email" row])%list
  else failed_recipients.

(** The audit item of a row, saved after the events [t1]. *)
Definition row_item (ctx : run_ctx) (row : dict) (status : string) (t1 : list effect)
  : dict :=
  audit_item (ctx_run_id ctx) (uuid4_hex w t1) (ctx_display_name ctx) status
             (dict_get "Email" row) (ctx_template_file_id ctx) (ctx_spreadsheet_id ctx)
             (strftime w TIME_FORMAT (now w (t1 ++ [EUuid4])%list)).

End Handler.

(** ** Reading a trace *)

(** The calls that reach a collaborator: object store, delivery provider,
    audit store. *)
Definition is_collaborator_call (e : effect) : bool :=
  match e with
  | ES3GetObject _ _ | ESesSendEmail _ _ _ _ | EPutItem _ _ => true
  | EPrint _ | EUuid4 | ENow => false
  end.

Definition collaborator_calls (t : list effect) : list effect :=
  filter is_collaborator_call t.

(** The addresses handed to the delivery provider, one entry per call. *)
Fixpoint deliveries (t : list effect) : list (list pyval) :=
  match t with
  | [] => []
  | ESesSendEmail _ to_addresses _ _ :: t' => to_addresses :: deliveries t'
  | _ :: t' => deliveries t'
  end.

(** The audit items handed to the audit store, one entry per call. *)
Fixpoint put_items (t : list effect) : list dict :=
  match t with
  | [] => []
  | EPutItem _ item :: t' => item :: put_items t'
  | _ :: t' => put_items t'
  end.

(** The lines written to the log. *)
Fixpoint printed (t : list effect) : list string :=
  match t with
  | [] => []
  | EPrint line :: t' => line :: printed t'
  | _ :: t' => printed t'
  end.

(** The line [send_email] logs once for every row it is called on: sent,
    failed, or skipped for want of an address. *)
Definition is_row_outcome_line (line : string) : bool :=
  starts_with "Email sent to " line
  || starts_with "Failed to send email to " line
  || starts_with "No email address provided for " line.

Definition row_outcomes (t : list effect) : list string :=
  filter is_row_outcome_line (printed t).

(** The [status] an audit item carries. *)
Definition item_status (item : dict) : option string :=
  match dict_lookup "status" item with
  | Some (PStr s) => Some s
  | _ => None
  end.

Definition is_failed_item (item : dict) : bool :=
  match item_status item with
  | Some s => String.eqb s "FAILED"
  | None => false
  end.

(** The audit items the store took: the [put_item] calls of the trace that
    the store answered without raising.  The store is asked what it was
    asked in the run, after the events that came [before] the call. *)
Fixpoint stored_from (w : World) (before t : list effect) : list dict :=
  match t with
  | [] => []
  | EPutItem table item :: t' =>
      let rest := stored_from w (before ++ [EPutItem table item])%list t' in
      match put_item w before table item with
      | None => item :: rest
      | Some _ => rest
      end
  | e :: t' => stored_from w (before ++ [e])%list t'
  end.

Definition stored_items (w : World) (t : list effect) : list dict :=
  stored_from w [] t.

(** The audit store answers every save of the loop over [rows] that starts
    after the events [t].  Row after row: [send_email] returns [sent] and
    leaves the trace [t1]; when the loop then saves the row's item, after a
    fresh identifier and a reading of the clock, the table handle is built
    and [put_item] stores the item or raises a [ClientError]; and the next
    row starts from the trace that save leaves.  Only the calls the run makes
    are constrained, each at the point of the run where it is made. *)
Inductive saves_answered (w : World) (ctx : run_ctx)
  : list dict -> list effect -> Prop :=
| saves_answered_done t :
    saves_answered w ctx [] t
| saves_answered_row row rows t sent t1 :
    send_email w (ctx_email_title ctx) (ctx_template_content ctx) row
               (ctx_display_name ctx) t = (inr sent, t1) ->
    dynamodb_Table w (t1 ++ [EUuid4; ENow])%list (environ w "DYNAMODB_TABLE") = None ->
    (forall e,
        put_item w (t1 ++ [EUuid4; ENow])%list (environ w "DYNAMODB_TABLE")
                 (row_item w ctx row (snd sent) t1) = Some e ->
        is_client_error e = true) ->
    saves_answered w ctx rows
      (snd (save_to_dynamodb w (ctx_run_id ctx) (uuid4_hex w t1) (ctx_display_name ctx)
              (snd sent) (dict_get "Email" row) (ctx_template_file_id ctx)
              (ctx_spreadsheet_id ctx)
              (strftime w TIME_FORMAT (now w (t1 ++ [EUuid4])%list))
              (t1 ++ [EUuid4; ENow])%list)) ->
    saves_answered w ctx (row :: rows) t.

(** The events of one pass of the loop, for the row [row]: at most one
    message handed to the provider, addressed to the row's [Email] entry, and
    at most one audit item handed to the store, for that same entry. *)
Definition row_segment (row : dict) (seg : list effect) : Prop :=
  (deliveries seg = [] \/ deliveries seg = [[dict_get "Email" row]])
  /\ (put_items seg = []
      \/ exists item, put_items seg = [item]
                      /\ dict_get "recipient_email" item = dict_get "Email" row).

(** ** Placeholders, as the specification describes them

    A placeholder token at the start of [s]: two opening braces, a name
    without line feed, and the nearest two closing braces. *)
Definition placeholder_token (s g rest : string) : Prop :=
  s = open2 ++ g ++ close2 ++ rest
  /\ no_newline g = true
  /\ forall g' rest', s = open2 ++ g' ++ close2 ++ rest' ->
                      String.length g <= String.length g'.

(** [Placeholders off s l]: reading [s] (which starts at offset [off] of the
    template) from left to right, [l] lists the tokens with their offsets; a
    position where no token starts is skipped. *)
Inductive Placeholders : nat -> string -> list (nat * string) -> Prop :=
| Placeholders_end off :
    Placeholders off EmptyString []
| Placeholders_token off s g rest l :
    placeholder_token s g rest ->
    Placeholders (off + 4 + String.length g) rest l ->
    Placeholders off s ((off, g) :: l)
| Placeholders_skip off c s l :
    (forall g rest, ~ placeholder_token (String c s) g rest) ->
    Placeholders (S off) s l ->
    Placeholders off (String c s) l.

(** ** A concrete world, for running the handler

    One template, one spreadsheet, a delivery provider that rejects one
    address, and an audit store whose behaviour is a parameter.  The library
    functions are small stand-ins that agree with the real ones on the
    printable ASCII texts used below. *)
Module Demo.

Definition dq : string := String "034" EmptyString.

Definition decimal (n : nat) : string := NilZero.string_of_uint (Nat.to_uint n).

(** [s.zfill(width)], for [s] no longer than [width] *)
Definition zfill (width : nat) (s : string) : string :=
  String.concat EmptyString (repeat "0" (width - String.length s)) ++ s.

Fixpoint escape (s : string) : string :=
  match s with
  | EmptyString => EmptyString
  | String c s' =>
      (if Ascii.eqb c "034" then "\" ++ dq
       else if Ascii.eqb c "\" then "\\"
       else String c EmptyString) ++ escape s'
  end.

Fixpoint dumps (v : pyval) : string :=
  match v with
  | PNone => "null"
  | PBool true => "true"
  | PBool false => "false"
  | PInt z => NilZero.string_of_int (Z.to_int z)
  | PFloat FNaN => "NaN"
  | PFloat (FInf false) => "Infinity"
  | PFloat (FInf true) => "-Infinity"
  | PFloat (FFinite m e) =>
      NilZero.string_of_int (Z.to_int m) ++ "e" ++ NilZero.string_of_int (Z.to_int e)
  | PStr s => dq ++ escape s ++ dq
  | PList l =>
      "[" ++ (fix items (l : list pyval) : string :=
                match l with
                | [] => EmptyString
                | [x] => dumps x
                | x :: l' => dumps x ++ ", " ++ items l'
                end) l ++ "]"
  | PDict d =>
      "{" ++ (fix items (d : list (string * pyval)) : string :=
                match d with
                | [] => EmptyString
                | [(k, x)] => dq ++ escape k ++ dq ++ ": " ++ dumps x
                | (k, x) :: d' =>
                    dq ++ escape k ++ dq ++ ": " ++ dumps x ++ ", " ++ items d'
                end) d ++ "}"
  end.

Definition str (v : pyval) : string :=
  match v with
  | PStr s => s
  | PNone => "None"
  | PBool true => "True"
  | PBool false => "False"
  | PFloat FNaN => "nan"
  | _ => dumps v
  end.

(** [str.format] with the row as keyword arguments, for templates whose
    braces are all [{name}] fields. *)
Fixpoint format_fields (field : option string) (row : dict) (s : string)
  : exn + string :=
  match s with
  | EmptyString =>
      match field with
      | None => inr EmptyString
      | Some _ => inl (Exn ValueError "expected '}' before end of string")
      end
  | String c s' =>
      match field with
      | None =>
          if Ascii.eqb c "{" then format_fields (Some EmptyString) row s'
          else match format_fields None row s' with
               | inr r => inr (String c r)
               | inl e => inl e
               end
      | Some f =>
          if Ascii.eqb c "}" then
            match dict_lookup f row with
            | Some v =>
                match format_fields None row s' with
                | inr r => inr (str v ++ r)
                | inl e => inl e
                end
            | None => inl (Exn OtherException ("'" ++ f ++ "'"))
            end
          else format_fields (Some (f ++ String c EmptyString)) row s'
      end
  end.

(** The text of a JSON object whose values are all strings. *)
Definition object_text (fields : list (string * string)) : string :=
  "{" ++ String.concat ", "
           (map (fun kv => dq ++ fst kv ++ dq ++ ": " ++ dq ++ snd kv ++ dq) fields)
      ++ "}".

(** [json.loads] on the request texts of the examples. *)
Definition loads (known : list (list (string * string))) (v : pyval) : exn + pyval :=
  match v with
  | PStr s =>
      match find (fun fields => String.eqb s (object_text fields)) known with
      | Some fields => inr (PDict (map (fun kv => (fst kv, PStr (snd kv))) fields))
      | None => inl (Exn ValueError "Expecting value: line 1 column 1 (char 0)")
      end
  | _ => inl (Exn OtherException
                  ("the JSON object must be str, bytes or bytearray, not "
                   ++ py_type_name v))
  end.

Definition two (z : Z) : string := zfill 2 (decimal (Z.to_nat z)).

(** [strftime] for instants counted in seconds from 2024-06-01T00:00:00. *)
Definition format_time (_ : string) (z : Z) : string :=
  ("2024-06-" ++ two (1 + z / 86400) ++ "T" ++ two (z mod 86400 / 3600) ++ ":"
   ++ two (z mod 3600 / 60) ++ ":" ++ two (z mod 60))%Z.

Definition template_key : string := "templates/welcome.html".
Definition sheet_key : string := "sheets/recipients.xlsx".

Definition template_text : string :=
  "<p>Dear {{Name}},</p><p>your seat is {{Seat}}.</p>".

Definition no_such_key : exn :=
  Exn ClientError
      "An error occurred (NoSuchKey) when calling the GetObject operation: The specified key does not exist.".

Definition rejected : exn :=
  Exn ClientError
      "An error occurred (MessageRejected) when calling the SendEmail operation: Email address is not verified.".

Definition throttled : exn :=
  Exn ClientError
      "An error occurred (ProvisionedThroughputExceededException) when calling the PutItem operation: The level of configured provisioned throughput for the table was exceeded.".

Definition unreachable : exn :=
  Exn OtherException
      "Could not connect to the endpoint URL: https://dynamodb.ap-northeast-1.amazonaws.com/".

Definition request_fields : list (string * string) :=
  [ ("template_file_id", template_key);
    ("spreadsheet_file_id", sheet_key);
    ("subject", "Welcome");
    ("display_name", "AWS Educate");
    ("run_id", "run-42") ].

(** The same request without [display_name]. *)
Definition request_without_display_name : list (string * string) :=
  [ ("template_file_id", template_key);
    ("spreadsheet_file_id", sheet_key);
    ("subject", "Welcome") ].

(** The same request for a template that is not in the bucket. *)
Definition request_unknown_template : list (string * string) :=
  [ ("template_file_id", "templates/missing.html");
    ("spreadsheet_file_id", sheet_key);
    ("subject", "Welcome");
    ("display_name", "AWS Educate") ].

Definition event_of (fields : list (string * string)) : dict :=
  [ ("httpMethod", PStr "POST"); ("body", PStr (object_text fields)) ].

Definition world (sheet : DataFrame) (store : dict -> option exn) : World :=
  {| environ := fun name =>
       if String.eqb name "BUCKET_NAME" then Some "tpet-files"
       else if String.eqb name "DYNAMODB_TABLE" then Some "email" else None;
     json_loads :=
       loads [request_fields; request_without_display_name;
              request_unknown_template; []];
     json_dumps := dumps;
     py_str := str;
     str_format := fun template row => format_fields None row template;
     decode_utf8 := fun bytes => inr bytes;
     pd_read_excel := fun _ => inr sheet;
     strftime := format_time;
     now := fun t => (43200 + Z.of_nat (List.length t))%Z;
     uuid4_hex := fun t => zfill 32 (decimal (List.length t));
     s3_get_object := fun _ _ key =>
       match key with
       | PStr k =>
           if String.eqb k template_key then inr template_text
           else if String.eqb k sheet_key then inr "PK" else inl no_such_key
       | _ => inl (Exn OtherException "Parameter validation failed")
       end;
     boto3_client_ses := fun _ _ => None;
     ses_send_email := fun _ _ to_addresses _ _ =>
       match to_addresses with
       | [PStr "bounce@example.com"] => Some rejected
       | _ => None
       end;
     dynamodb_Table := fun _ _ => None;
     put_item := fun _ _ item => store item |}.

Definition row (name email seat : string) : dict :=
  [ ("Name", PStr name); ("Email", PStr email); ("Seat", PStr seat) ].

Definition three_rows : DataFrame :=
  {| df_columns := ["Name"; "Email"; "Seat"];
     df_records := [ row "Ann" "ann@example.com" "A1";
                     row "Bob" "bounce@example.com" "B2";
                     row "Cy" "cy@example.com" "C3" ] |}.

(** The header row only. *)
Definition no_rows : DataFrame :=
  {| df_columns := ["Name"; "Email"; "Seat"]; df_records := [] |}.

(** No [Seat] column. *)
Definition two_columns : DataFrame :=
  {| df_columns := ["Name"; "Email"];
     df_records := [ [("Name", PStr "Ann"); ("Email", PStr "ann@example.com")] ] |}.

(** The handler's variables once the request of [request_fields] has been
    read and the template and the table fetched, and the trace so far. *)
Definition ctx (sheet : DataFrame) : run_ctx :=
  {| ctx_run_id := PStr "run-42";
     ctx_template_file_id := PStr template_key;
     ctx_spreadsheet_id := PStr sheet_key;
     ctx_email_title := PStr "Welcome";
     ctx_display_name := PStr "AWS Educate";
     ctx_template_content := template_text;
     ctx_data := df_records sheet;
     ctx_columns := df_columns sheet |}.

Definition fetched : list effect :=
  [ ES3GetObject (Some "tpet-files") (PStr template_key);
    ES3GetObject (Some "tpet-files") (PStr sheet_key) ].

(** Two rows, both deliverable. *)
Definition two_good_rows : DataFrame :=
  {| df_columns := ["Name"; "Email"; "Seat"];
     df_records := [ row "Ann" "ann@example.com" "A1";
                     row "Cy" "cy@example.com" "C3" ] |}.

Definition store_ok : dict -> option exn := fun _ => None.
Definition store_throttled : dict -> option exn := fun _ => Some throttled.
Definition store_unreachable : dict -> option exn := fun _ => Some unreachable.

End Demo.

(** ** Reading audit items *)

(** An audit item that belongs to the run [ctx]: it carries the run's
    identifier, display name, template key and table key. *)
Definition item_of_run (ctx : run_ctx) (item : dict) : Prop :=
  dict_lookup "run_id" item = Some (ctx_run_id ctx)
  /\ dict_lookup "display_name" item = Some (ctx_display_name ctx)
  /\ dict_lookup "template_file_id" item = Some (ctx_template_file_id ctx)
  /\ dict_lookup "spreadsheet_file_id" item = Some (ctx_spreadsheet_id ctx).

Definition is_delivered_item (item : dict) : bool := negb (is_failed_item item).

(** ** Reading a scan back *)

(** The text a list of segments was scanned from: a match stands for its
    group between doubled braces. *)
Fixpoint rebuild (l : list segment) : string :=
  match l with
  | [] => EmptyString
  | Lit c :: l' => String c (rebuild l')
  | Hole _ g :: l' => open2 ++ g ++ close2 ++ rebuild l'
  end.

(** ** More concrete worlds *)
Module Demo2.

(** The world [w] with a [json.loads] that also reads the text of the empty
    JSON array. *)
Definition reading_arrays (w : World) : World :=
  {| environ := environ w;
     json_loads := fun v =>
       match v with
       | PStr "[]" => inr (PList [])
       | _ => json_loads w v
       end;
     json_dumps := json_dumps w;
     py_str := py_str w;
     str_format := str_format w;
     decode_utf8 := decode_utf8 w;
     pd_read_excel := pd_read_excel w;
     strftime := strftime w;
     now := now w;
     uuid4_hex := uuid4_hex w;
     s3_get_object := s3_get_object w;
     boto3_client_ses := boto3_client_ses w;
     ses_send_email := ses_send_email w;
     dynamodb_Table := dynamodb_Table w;
     put_item := put_item w |}.

(** A table as [pd.read_excel] returns it when Bob's address cell is blank:
    the cell is the float NaN. *)
Definition blank_cell : DataFrame :=
  {| df_columns := ["Name"; "Email"; "Seat"];
     df_records := [ Demo.row "Ann" "ann@example.com" "A1";
                     [ ("Name", PStr "Bob"); ("Email", PFloat FNaN);
                       ("Seat", PStr "B2") ];
                     Demo.row "Cy" "cy@example.com" "C3" ] |}.

(** A table without an [Email] column. *)
Definition no_address_column : DataFrame :=
  {| df_columns := ["Name"; "Seat"];
     df_records := [ [("Name", PStr "Ann"); ("Seat", PStr "A1")];
                     [("Name", PStr "Bob"); ("Seat", PStr "B2")] ] |}.

Definition is_str (v : pyval) : bool :=
  match v with
  | PStr _ => true
  | _ => false
  end.

Definition is_float (v : pyval) : bool :=
  match v with
  | PFloat _ => true
  | _ => false
  end.

(** The [ParamValidationError] of botocore for an address that is not a
    string, and the [TypeError] of the boto3 serializer for a float
    attribute.  Neither is a [ClientError]. *)
Definition invalid_address : exn :=
  Exn OtherException
      ("Parameter validation failed:" ++ String newline
       "Invalid type for parameter Destination.ToAddresses[0], value: nan, type: <class 'float'>, valid types: <class 'str'>").

Definition float_refused : exn :=
  Exn OtherException "Float types are not supported. Use Decimal types instead.".

(** The world [w] with the checks boto3 makes before a request leaves the
    process: SES takes only strings as addresses, and an item with a float
    attribute cannot be serialised for DynamoDB. *)
Definition like_boto3 (w : World) : World :=
  {| environ := environ w;
     json_loads := json_loads w;
     json_dumps := json_dumps w;
     py_str := py_str w;
     str_format := str_format w;
     decode_utf8 := decode_utf8 w;
     pd_read_excel := pd_read_excel w;
     strftime := strftime w;
     now := now w;
     uuid4_hex := uuid4_hex w;
     s3_get_object := s3_get_object w;
     boto3_client_ses := boto3_client_ses w;
     ses_send_email := fun t source to_addresses subject html =>
       if forallb is_str to_addresses
       then ses_send_email w t source to_addresses subject html
       else Some invalid_address;
     dynamodb_Table := dynamodb_Table w;
     put_item := fun t table item =>
       if existsb is_float (map snd item) then Some float_refused
       else put_item w t table item |}.

End Demo2.

(** * The listing service of [file_service/list_files/list_file_function.py]

    One scan of the files table, filtered by extension, started after a
    given key, and sorted in the handler.  The handler has no [try] of its
    own around the whole body: what is raised in it leaves it.  The table,
    the parsing of numbers, [json] and the sorting of keys that are not all
    strings are fields of an [Env]. *)
Module ListFiles.

Inductive error_class : Type :=
| JSONDecodeError
| ValueError
| TypeError
| AttributeError
| IndexError
| OtherError.

Record error : Type := Error { error_kind : error_class; error_str : string }.

Definition is_json_decode_error (e : error) : bool :=
  match error_kind e with
  | JSONDecodeError => true
  | _ => false
  end.

(** The values of an item, as the table resource returns them. *)
Inductive attr : Type :=
| AStr (s : string)
| ANum (mantissa exponent : Z)
| ABin (bytes : string)
| ABool (b : bool)
| ANull
| AList (l : list attr)
| AMap (d : list (string * attr))
| AStrSet (l : list string)
| ANumSet (l : list (Z * Z))
| ABinSet (l : list string).

Definition item : Type := list (string * attr).

Fixpoint item_lookup (k : string) (x : item) : option attr :=
  match x with
  | [] => None
  | (k', v) :: x' => if String.eqb k k' then Some v else item_lookup k x'
  end.

(** [Attr(name).eq(value)] and [a | b] *)
Inductive condition : Type :=
| AttrEq (name : string) (value : string)
| Or (a b : condition).

(** The keyword arguments of [table.scan]; an absent key is [None]. *)
Record scan_kwargs : Type := {
  Limit : Z;
  FilterExpression : option condition;
  ExclusiveStartKey : option pyval
}.

(** The two keys of the scan response the handler reads. *)
Record scan_response : Type := {
  Items : option (list item);
  LastEvaluatedKey : option item
}.

Record response : Type := {
  statusCode : Z;
  headers : list (string * string);
  body : string
}.

Record Env : Type := {
  parse_int : pyval -> error + Z;
  json_loads : pyval -> error + pyval;
  str_upper : string -> string;
  sort_other : list attr -> bool -> list item -> error + list item;
  json_dumps : list item -> option item -> error + string;
  table_scan : scan_kwargs -> error + scan_response
}.

Definition no_attribute (v : pyval) (name : string) : error :=
  Error AttributeError
        ("'" ++ py_type_name v ++ "' object has no attribute '" ++ name ++ "'").

(** [int(v)] *)
Definition py_int (env : Env) (v : pyval) : error + Z :=
  match v with
  | PInt z => inr z
  | _ => parse_int env v
  end.

(** [params.get(k, default)] *)
Definition params_get (params : pyval) (k : string) (default : pyval) : error + pyval :=
  match params with
  | PDict d => inr (dict_get_default k default d)
  | _ => inl (no_attribute params "get")
  end.

(** The five local variables of lines 21 to 35. *)
Record query : Type := {
  limit : Z;
  last_evaluated_key : pyval;
  file_extension : pyval;
  sort_by : pyval;
  sort_order : pyval
}.

Definition default_query : query :=
  {| limit := 10;
     last_evaluated_key := PNone;
     file_extension := PNone;
     sort_by := PStr "created_at";
     sort_order := PStr "DESC" |}.

(** Lines 21 to 35. *)
Definition read_query (env : Env) (event : dict) : error + query :=
  let params := dict_get "queryStringParameters" event in
  if py_truthy params then
    match params_get params "limit" (PInt 10) with
    | inl e => inl e
    | inr raw_limit =>
        match py_int env raw_limit with
        | inl e => inl e
        | inr limit =>
            match params_get params "last_evaluated_key" PNone,
                  params_get params "sort_by" (PStr "created_at"),
                  params_get params "sort_order" (PStr "DESC"),
                  params_get params "file_extension" PNone with
            | inr last_evaluated_key, inr sort_by, inr sort_order, inr file_extension =>
                inr {| limit := limit;
                       last_evaluated_key := last_evaluated_key;
                       file_extension := file_extension;
                       sort_by := sort_by;
                       sort_order := sort_order |}
            | inl e, _, _, _ => inl e
            | _, inl e, _, _ => inl e
            | _, _, inl e, _ => inl e
            | _, _, _, inl e => inl e
            end
        end
    end
  else inr default_query.

(** [s.split(",")] *)
Fixpoint split_comma (s : string) : list string :=
  match s with
  | EmptyString => [EmptyString]
  | String c s' =>
      if Ascii.eqb c "," then EmptyString :: split_comma s'
      else match split_comma s' with
           | piece :: pieces => String c piece :: pieces
           | [] => [String c EmptyString]
           end
  end.

(** Lines 44 to 47: one equality per extension, joined from the left. *)
Definition filter_of (extensions : list string) : error + condition :=
  let filter_expressions := map (AttrEq "file_extension") extensions in
  match filter_expressions with
  | [] => inl (Error IndexError "list index out of range")
  | first :: others => inr (fold_left Or others first)
  end.

(** Lines 41 to 48. *)
Definition filter_stage (file_extension : pyval) : error + option condition :=
  if py_truthy file_extension then
    match file_extension with
    | PStr s =>
        match filter_of (split_comma s) with
        | inl e => inl e
        | inr filter_expression => inr (Some filter_expression)
        end
    | _ => inl (no_attribute file_extension "split")
    end
  else inr None.

(** Lines 50 to 58. *)
Definition start_key (env : Env) (last_evaluated_key : pyval) : error + option pyval :=
  if py_truthy last_evaluated_key then
    match json_loads env last_evaluated_key with
    | inr parsed => inr (Some parsed)
    | inl e =>
        if is_json_decode_error e
        then inr (Some (PDict [("file_id", last_evaluated_key)]))
        else inl e
    end
  else inr None.

(** [sort_order.upper() == "DESC"] *)
Definition reverse_order_of (env : Env) (sort_order : pyval) : error + bool :=
  match sort_order with
  | PStr s => inr (String.eqb (str_upper env s) "DESC")
  | _ => inl (no_attribute sort_order "upper")
  end.

(** [x.get(sort_by, "")]: a key that cannot be hashed raises. *)
Definition sort_key (sort_by : pyval) (x : item) : error + attr :=
  match sort_by with
  | PStr k =>
      inr match item_lookup k x with
          | Some v => v
          | None => AStr EmptyString
          end
  | PList _ => inl (Error TypeError "unhashable type: 'list'")
  | PDict _ => inl (Error TypeError "unhashable type: 'dict'")
  | _ => inr (AStr EmptyString)
  end.

Fixpoint sort_keys (sort_by : pyval) (files : list item) : error + list attr :=
  match files with
  | [] => inr []
  | x :: files' =>
      match sort_key sort_by x with
      | inl e => inl e
      | inr k =>
          match sort_keys sort_by files' with
          | inl e => inl e
          | inr ks => inr (k :: ks)
          end
      end
  end.

(** The keys, when every one of them is a string. *)
Fixpoint all_strings (keys : list attr) : option (list string) :=
  match keys with
  | [] => Some []
  | AStr s :: keys' =>
      match all_strings keys' with
      | Some l => Some (s :: l)
      | None => None
      end
  | _ :: _ => None
  end.

(** The stable ascending sort of keyed elements: an element goes in front of
    the first one whose key is not smaller than its own. *)
Fixpoint insert_keyed (p : string * item) (l : list (string * item))
  : list (string * item) :=
  match l with
  | [] => [p]
  | q :: l' =>
      if String.ltb (fst q) (fst p) then q :: insert_keyed p l' else p :: q :: l'
  end.

Fixpoint sort_keyed (l : list (string * item)) : list (string * item) :=
  match l with
  | [] => []
  | p :: l' => insert_keyed p (sort_keyed l')
  end.

(** [files.sort(key=..., reverse=...)] once the keys are computed.  No two
    elements, nothing to compare.  Keys that are all strings are compared as
    strings; with [reverse] the list is reversed, sorted and reversed again,
    as [list.sort] does.  Any other mix of keys is left to the [Env]. *)
Definition py_sort (env : Env) (keys : list attr) (reverse : bool) (files : list item)
  : error + list item :=
  match files with
  | [] | [_] => inr files
  | _ =>
      match all_strings keys with
      | Some ks =>
          let keyed := combine ks files in
          inr (map snd (if reverse then rev (sort_keyed (rev keyed))
                        else sort_keyed keyed))
      | None => sort_other env keys reverse files
      end
  end.

(** Lines 71: a key that is falsy is reported as [None]. *)
Definition reported_key (last_evaluated_key : option item) : option item :=
  match last_evaluated_key with
  | Some (_ :: _ as k) => Some k
  | _ => None
  end.

(** The handler: the answer or the exception that leaves it, and the scans
    it has issued. *)
Definition lambda_handler (env : Env) (event : dict)
  : (error + response) * list scan_kwargs :=
  match read_query env event with
  | inl e => (inl e, [])
  | inr q =>
      match filter_stage (file_extension q) with
      | inl e => (inl e, [])
      | inr filter_expression =>
          match start_key env (last_evaluated_key q) with
          | inl e => (inl e, [])
          | inr exclusive_start_key =>
              let kwargs := {| Limit := limit q;
                               FilterExpression := filter_expression;
                               ExclusiveStartKey := exclusive_start_key |} in
              match table_scan env kwargs with
              | inl e => (inl e, [kwargs])
              | inr scanned =>
                  let files := match Items scanned with
                               | Some l => l
                               | None => []
                               end in
                  match reverse_order_of env (sort_order q) with
                  | inl e => (inl e, [kwargs])
                  | inr reverse_order =>
                      match sort_keys (sort_by q) files with
                      | inl e => (inl e, [kwargs])
                      | inr keys =>
                          match py_sort env keys reverse_order files with
                          | inl e => (inl e, [kwargs])
                          | inr sorted =>
                              match json_dumps env sorted
                                      (reported_key (LastEvaluatedKey scanned)) with
                              | inl e => (inl e, [kwargs])
                              | inr text =>
                                  (inr {| statusCode := 200;
                                          headers := [("Content-Type", "application/json")];
                                          body := text |},
                                   [kwargs])
                              end
                          end
                      end
                  end
              end
          end
      end
  end.

(** The extensions a filter expression tests, from left to right. *)
Fixpoint disjuncts (c : condition) : list (string * string) :=
  match c with
  | AttrEq name value => [(name, value)]
  | Or a b => (disjuncts a ++ disjuncts b)%list
  end.

(** The meaning DynamoDB gives a filter expression on an item. *)
Fixpoint matches (c : condition) (x : item) : bool :=
  match c with
  | AttrEq name value =>
      match item_lookup name x with
      | Some (AStr s) => String.eqb s value
      | _ => false
      end
  | Or a b => matches a x || matches b x
  end.

(** The item has a string under [k], or nothing, which sorts as the empty
    string. *)
Definition has_string_key (k : string) (x : item) : bool :=
  match item_lookup k x with
  | Some (AStr _) | None => true
  | Some _ => false
  end.

(** That string. *)
Definition str_key (k : string) (x : item) : string :=
  match item_lookup k x with
  | Some (AStr s) => s
  | _ => EmptyString
  end.

(** [a <= b] on strings, as Python compares them: position by position, by
    code point, which for UTF-8 bytes is the order of the bytes. *)
Definition str_le (a b : string) : Prop := String.ltb b a = false.

(** The order the handler asks for. *)
Definition in_order (reverse : bool) (k : string) (x y : item) : Prop :=
  if reverse then str_le (str_key k y) (str_key k x)
  else str_le (str_key k x) (str_key k y).

Definition items_of (scanned : scan_response) : list item :=
  match Items scanned with
  | Some l => l
  | None => []
  end.

(** Keyed elements in ascending order of their keys. *)
Definition keyed_le (p q : string * item) : Prop := str_le (fst p) (fst q).

(** The items with their string keys, and lists that pair every item with
    its own key. *)
Definition keyed_by (k : string) (files : list item) : list (string * item) :=
  map (fun x => (str_key k x, x)) files.

Definition keys_agree (k : string) (l : list (string * item)) : Prop :=
  Forall (fun p => fst p = str_key k (snd p)) l.

(** ** A concrete table *)

Definition file (id extension created : string) : item :=
  [ ("file_id", AStr id); ("file_extension", AStr extension);
    ("created_at", AStr created) ].

Definition stored : list item :=
  [ file "f1" "pdf" "2024-05-02T10:00:00";
    file "f2" "xlsx" "2024-05-03T09:30:00";
    file "f3" "pdf" "2024-05-01T08:15:00";
    file "f4" "html" "2024-05-03T09:30:00" ].

(** ASCII upper case. *)
Definition upper_char (c : ascii) : ascii :=
  let n := nat_of_ascii c in
  if (97 <=? n)%nat && (n <=? 122)%nat then ascii_of_nat (n - 32) else c.

Fixpoint upper (s : string) : string :=
  match s with
  | EmptyString => EmptyString
  | String c s' => String (upper_char c) (upper s')
  end.

(** An environment whose table holds [stored] and returns the items the
    filter matches, all in one page; numbers are the decimal texts below
    1000 of the examples, and the only JSON text it reads is one start
    key. *)
Definition demo_env : Env :=
  {| parse_int := fun v =>
       match v with
       | PStr "2" => inr 2%Z
       | PStr "25" => inr 25%Z
       | PStr s => inl (Error ValueError
                              ("invalid literal for int() with base 10: '" ++ s ++ "'"))
       | _ => inl (Error TypeError
                         "int() argument must be a string, a bytes-like object or a real number")
       end;
     json_loads := fun v =>
       match v with
       | PStr "{}" => inr (PDict [])
       | PStr _ => inl (Error JSONDecodeError "Expecting value: line 1 column 1 (char 0)")
       | _ => inl (Error TypeError "the JSON object must be str, bytes or bytearray")
       end;
     str_upper := upper;
     sort_other := fun _ _ _ =>
       inl (Error TypeError "'<' not supported between instances");
     json_dumps := fun files key =>
       inr (String.concat ","
              (map (fun x => match item_lookup "file_id" x with
                             | Some (AStr s) => s
                             | _ => "?"
                             end) files));
     table_scan := fun kwargs =>
       inr {| Items := Some (match FilterExpression kwargs with
                             | Some f => filter (matches f) stored
                             | None => stored
                             end);
              LastEvaluatedKey := None |} |}.

Definition event_with (params : list (string * string)) : dict :=
  [ ("httpMethod", PStr "GET");
    ("queryStringParameters", PDict (map (fun kv => (fst kv, PStr (snd kv))) params)) ].

End ListFiles.

(** * Properties *)

(** ** Strings and the placeholder pattern *)

Lemma starts_with_spec p s : starts_with p s = true <-> exists r, s = p ++ r.
Proof.
  revert s; induction p as [|a p IH]; intros s; simpl.
  - split; eauto.
  - destruct s as [|b s].
    + split; [discriminate | intros [r H]; discriminate].
    + rewrite andb_true_iff, Ascii.eqb_eq, IH. split.
      * intros [-> [r ->]]. eauto.
      * intros [r H]. injection H as -> ->. eauto.
Qed.

Lemma drop_app p r : drop (String.length p) (p ++ r) = r.
Proof. induction p; simpl; auto. Qed.

Lemma append_assoc (a b c : string) : (a ++ b) ++ c = a ++ b ++ c.
Proof. induction a; simpl; congruence. Qed.

Lemma append_length (a b : string) :
  String.length (a ++ b) = String.length a + String.length b.
Proof. induction a; simpl; auto. Qed.

Lemma append_inj (a a' b b' : string) :
  a ++ b = a' ++ b' -> String.length a = String.length a' -> a = a' /\ b = b'.
Proof.
  revert a'; induction a as [|c a IH]; intros [|c' a']; simpl; try discriminate.
  - auto.
  - intros H L. injection H as -> H. injection L as L.
    destruct (IH _ H L) as [-> ->]. auto.
Qed.

Lemma lazy_group_eq r :
  lazy_group r =
  if starts_with close2 r then Some (EmptyString, drop 2 r)
  else match r with
       | EmptyString => None
       | String c r' =>
           if Ascii.eqb c newline then None
           else match lazy_group r' with
                | Some (g, rest) => Some (String c g, rest)
                | None => None
                end
       end.
Proof. destruct r; reflexivity. Qed.

Lemma lazy_group_sound r g rest :
  lazy_group r = Some (g, rest) -> r = g ++ close2 ++ rest /\ no_newline g = true.
Proof.
  revert g rest. induction r as [|c r IH]; intros g rest; rewrite lazy_group_eq.
  - simpl. discriminate.
  - destruct (starts_with close2 (String c r)) eqn:E.
    + apply starts_with_spec in E. destruct E as [r0 E]. rewrite E.
      change 2 with (String.length close2). rewrite drop_app.
      intros H; injection H as <- <-. auto.
    + destruct (Ascii.eqb c newline) eqn:N; [discriminate|].
      destruct (lazy_group r) as [[g0 rest0]|] eqn:E2; [|discriminate].
      intros H; injection H as <- <-.
      destruct (IH _ _ eq_refl) as [-> Hn]. simpl. rewrite N, Hn. auto.
Qed.

Lemma lazy_group_minimal r g rest :
  lazy_group r = Some (g, rest) ->
  forall g' rest', r = g' ++ close2 ++ rest' -> String.length g <= String.length g'.
Proof.
  revert g rest. induction r as [|c r IH]; intros g rest; rewrite lazy_group_eq.
  - simpl. discriminate.
  - destruct (starts_with close2 (String c r)) eqn:E.
    + intros H; injection H as <- <-. simpl. lia.
    + destruct (Ascii.eqb c newline); [discriminate|].
      destruct (lazy_group r) as [[g0 rest0]|] eqn:E2; [|discriminate].
      intros H; injection H as <- <-. intros [|c' g'] rest' Hr.
      * assert (starts_with close2 (String c r) = true)
          by (apply starts_with_spec; exists rest'; exact Hr).
        congruence.
      * simpl in Hr. injection Hr as _ Hr. simpl.
        specialize (IH _ _ eq_refl _ _ Hr). lia.
Qed.

Lemma lazy_group_complete r :
  lazy_group r = None ->
  forall g rest, r = g ++ close2 ++ rest -> no_newline g = false.
Proof.
  induction r as [|c r IH]; rewrite lazy_group_eq.
  - intros _ [|? ?] rest H; simpl in H; discriminate.
  - destruct (starts_with close2 (String c r)) eqn:E; [discriminate|].
    intros H [|c' g'] rest Hr.
    + assert (starts_with close2 (String c r) = true)
        by (apply starts_with_spec; exists rest; exact Hr).
      congruence.
    + simpl in Hr. injection Hr as <- Hr. simpl.
      destruct (Ascii.eqb c newline); [reflexivity|]. simpl.
      destruct (lazy_group r) as [[g0 rest0]|]; [discriminate|].
      exact (IH eq_refl _ _ Hr).
Qed.

Lemma match_placeholder_token s g rest :
  match_placeholder s = Some (g, rest) -> placeholder_token s g rest.
Proof.
  unfold match_placeholder, placeholder_token.
  destruct (starts_with open2 s) eqn:E; [|discriminate].
  apply starts_with_spec in E. destruct E as [r ->].
  change 2 with (String.length open2). rewrite drop_app. intros H.
  destruct (lazy_group_sound _ _ _ H) as [-> Hn]. repeat split; auto.
  intros g' rest' Heq.
  apply append_inj in Heq; [|reflexivity]. destruct Heq as [_ Heq].
  eapply lazy_group_minimal; eauto.
Qed.

Lemma match_placeholder_none s :
  match_placeholder s = None -> forall g rest, ~ placeholder_token s g rest.
Proof.
  unfold match_placeholder, placeholder_token. intros H g rest (Hs & Hn & _).
  assert (E : starts_with open2 s = true) by (apply starts_with_spec; eauto).
  rewrite E in H. subst s.
  change 2 with (String.length open2) in H. rewrite drop_app in H.
  rewrite (lazy_group_complete _ H g rest eq_refl) in Hn. discriminate.
Qed.

Lemma placeholder_token_unique s g rest g' rest' :
  placeholder_token s g rest -> placeholder_token s g' rest' ->
  g = g' /\ rest = rest'.
Proof.
  intros (Hs & _ & Hmin) (Hs' & _ & Hmin').
  pose proof (Hmin _ _ Hs'). pose proof (Hmin' _ _ Hs).
  rewrite Hs in Hs'.
  apply append_inj in Hs'; [|reflexivity]. destruct Hs' as [_ Hs'].
  apply append_inj in Hs'; [|lia]. destruct Hs' as [-> Hs'].
  apply append_inj in Hs'; [|reflexivity]. tauto.
Qed.

Lemma re_scan_token off c s g rest :
  match_placeholder (String c s) = Some (g, rest) ->
  re_scan off (String c s) = Hole off g :: re_scan (off + 4 + String.length g) rest.
Proof.
  intros H. rewrite re_scan_equation_2.
  destruct (inspect (match_placeholder (String c s))) as [[[g' rest']|] E].
  - assert (Some (g', rest') = Some (g, rest)) as X by congruence.
    injection X as -> ->. reflexivity.
  - congruence.
Qed.

Lemma re_scan_skip off c s :
  match_placeholder (String c s) = None ->
  re_scan off (String c s) = Lit c :: re_scan (S off) s.
Proof.
  intros H. rewrite re_scan_equation_2.
  destruct (inspect (match_placeholder (String c s))) as [[[g' rest']|] E].
  - congruence.
  - reflexivity.
Qed.

Lemma re_scan_Placeholders off s : Placeholders off s (holes (re_scan off s)).
Proof.
  funelim (re_scan off s); simpl.
  - constructor.
  - eapply Placeholders_token; eauto using match_placeholder_token.
  - apply Placeholders_skip; auto using match_placeholder_none.
Qed.

Lemma Placeholders_unique off s l :
  Placeholders off s l -> l = holes (re_scan off s).
Proof.
  induction 1 as [off | off s g rest l Htok _ IH | off c s l Hno _ IH].
  - reflexivity.
  - destruct s as [|c s]; [destruct Htok as (Hs & _); discriminate|].
    destruct (match_placeholder (String c s)) as [[g' rest']|] eqn:E.
    + destruct (placeholder_token_unique _ _ _ _ _ Htok (match_placeholder_token _ _ _ E))
        as [<- <-].
      rewrite (re_scan_token _ _ _ _ _ E). simpl. now rewrite IH.
    + exfalso. eapply match_placeholder_none; eauto.
  - destruct (match_placeholder (String c s)) as [[g' rest']|] eqn:E.
    + exfalso. eapply Hno. eapply match_placeholder_token; eauto.
    + rewrite (re_scan_skip _ _ _ E). simpl. exact IH.
Qed.

Lemma Placeholders_offsets off s l :
  Placeholders off s l ->
  Forall (fun o => off <= fst o) l /\ StronglySorted lt (map fst l).
Proof.
  induction 1 as [off | off s g rest l _ _ [IH1 IH2] | off c s l _ _ [IH1 IH2]].
  - split; constructor.
  - split.
    + constructor; [simpl; lia|]. eapply Forall_impl; [|exact IH1].
      simpl. intros; lia.
    + simpl. constructor; auto. apply Forall_map.
      eapply Forall_impl; [|exact IH1]. simpl. intros; lia.
  - split; auto. eapply Forall_impl; [|exact IH1]. simpl. intros; lia.
Qed.

Lemma Placeholders_occur off s l :
  Placeholders off s l ->
  forall i x, In (i, x) l ->
  exists pre post, s = pre ++ open2 ++ x ++ close2 ++ post
                   /\ off + String.length pre = i /\ no_newline x = true.
Proof.
  induction 1 as [off | off s g rest l Htok _ IH | off c s l _ _ IH];
    intros i x Hin.
  - destruct Hin.
  - destruct Htok as (Hs & Hn & _). destruct Hin as [Heq | Hin].
    + injection Heq as <- <-. exists EmptyString, rest. simpl. auto.
    + destruct (IH _ _ Hin) as (pre & post & -> & Hoff & Hx).
      exists (open2 ++ g ++ close2 ++ pre), post. repeat split; auto.
      * rewrite Hs. rewrite !append_assoc. reflexivity.
      * rewrite !append_length. simpl. rewrite <- Hoff. simpl. lia.
  - destruct (IH _ _ Hin) as (pre & post & -> & Hoff & Hx).
    exists (String c pre), post. simpl. repeat split; auto. lia.
Qed.

Lemma py_in_In p columns : py_in p columns = true <-> In p columns.
Proof.
  unfold py_in. rewrite existsb_exists. split.
  - intros [x [Hin Heq]]. apply String.eqb_eq in Heq. now subst.
  - intros Hin. exists p. split; auto. apply String.eqb_refl.
Qed.

Lemma filter_nil_iff {A : Type} (f : A -> bool) (l : list A) :
  filter f l = [] <-> forall x, In x l -> f x = false.
Proof.
  induction l as [|a l IH]; simpl.
  - split; auto. intros _ x [].
  - destruct (f a) eqn:E; split.
    + discriminate.
    + intros H. specialize (H a (or_introl eq_refl)). congruence.
    + intros H x [<- | Hin]; auto. apply IH; auto.
    + intros H. apply IH. auto.
Qed.

Lemma map_filter_snd {A B : Type} (f : B -> bool) (l : list (A * B)) :
  filter f (map snd l) = map snd (filter (fun o => f (snd o)) l).
Proof.
  induction l as [|[a b] l IH]; simpl; auto.
  destruct (f b); simpl; congruence.
Qed.

Example validate_template_all_matched :
  validate_template "Hi {{Name}}, seat {{Seat}}" ["Name"; "Email"; "Seat"] = [].
Proof. reflexivity. Qed.

Example validate_template_in_order :
  validate_template "{{Zip}} {{Name}} {{Phone}} {{Zip}} {{broken" ["Name"]
  = ["Zip"; "Phone"; "Zip"].
Proof. reflexivity. Qed.

(** C1.  For every template and every list of column names,
    [validate_template] returns the empty list exactly when every
    placeholder token of the template names a column; the names it returns
    are those of the unmatched tokens, in the order in which the tokens occur
    in the template (their offsets increase).  The tokens are the ones the
    specification describes, they are determined by the template, and each
    of them does occur in the template at its offset. *)
Theorem validate_template_reports_unmatched_placeholders
    (template_content : string) (columns : list string) :
  exists tokens : list (nat * string),
    Placeholders 0 template_content tokens
    /\ (forall tokens', Placeholders 0 template_content tokens' -> tokens' = tokens)
    /\ (forall i x, In (i, x) tokens ->
          exists pre post,
            template_content = pre ++ open2 ++ x ++ close2 ++ post
            /\ String.length pre = i)
    /\ StronglySorted lt (map fst tokens)
    /\ validate_template template_content columns
       = map snd (filter (fun o => negb (py_in (snd o) columns)) tokens)
    /\ (validate_template template_content columns = [] <->
        forall i x, In (i, x) tokens -> In x columns).
Proof.
  exists (re_finditer template_content).
  pose proof (re_scan_Placeholders 0 template_content) as HP.
  fold (re_finditer template_content) in HP.
  split; [exact HP|]. split; [|split; [|split; [|split]]].
  - intros tokens' H. apply Placeholders_unique in H. exact H.
  - intros i x Hin.
    destruct (Placeholders_occur _ _ _ HP _ _ Hin) as (pre & post & Hs & Hoff & _).
    exists pre, post. auto.
  - apply (Placeholders_offsets _ _ _ HP).
  - unfold validate_template, re_findall.
    apply (map_filter_snd (fun p => negb (py_in p columns))).
  - unfold validate_template, re_findall. rewrite filter_nil_iff. split.
    + intros H i x Hin. apply py_in_In.
      specialize (H x (in_map snd _ _ Hin)). now apply negb_false_iff in H.
    + intros H x Hin. apply in_map_iff in Hin. destruct Hin as [[i y] [<- Hin]].
      apply negb_false_iff, py_in_In. eauto.
Qed.

(** ** Traces *)

Lemma deliveries_app t1 t2 : deliveries (t1 ++ t2) = (deliveries t1 ++ deliveries t2)%list.
Proof. induction t1 as [|[] t1 IH]; simpl; congruence. Qed.

Lemma put_items_app t1 t2 : put_items (t1 ++ t2) = (put_items t1 ++ put_items t2)%list.
Proof. induction t1 as [|[] t1 IH]; simpl; congruence. Qed.

Lemma printed_app t1 t2 : printed (t1 ++ t2) = (printed t1 ++ printed t2)%list.
Proof. induction t1 as [|[] t1 IH]; simpl; congruence. Qed.

Lemma starts_with_append p r : starts_with p (p ++ r) = true.
Proof. apply starts_with_spec. eauto. Qed.

(** ** The steps of the handler *)

Section Steps.

Variable w : World.

(** [send_email] returns in each of its four ways; nothing it does raises. *)
Lemma send_email_cases email_title template_content row display_name t :
  let receiver_email := dict_get "Email" row in
  let name := py_str w (dict_get_default "Name" (PStr "Unknown") row) in
  let template := re_sub (remove_cr template_content) in
  let source :=
    py_str w display_name ++ " <" ++ "awseducate.cloudambassador@gmail.com" ++ ">" in
  (py_truthy receiver_email = false
   /\ send_email w email_title template_content row display_name t
      = (inr ("Failed", "FAILED"),
         (t ++ [EPrint ("No email address provided for " ++ name ++ ". Skipping...")])%list))
  \/ (py_truthy receiver_email = true
      /\ exists e,
          str_format w template row = inl e
          /\ send_email w email_title template_content row display_name t
             = (inr ("Failed", "FAILED"),
                (t ++ [EPrint ("Failed to send email to " ++ name ++ ": " ++ exn_str e)])%list))
  \/ (py_truthy receiver_email = true
      /\ exists content e,
          str_format w template row = inr content
          /\ ses_send_email w t source [receiver_email] email_title content = Some e
          /\ send_email w email_title template_content row display_name t
             = (inr ("Failed", "FAILED"),
                (t ++ [ESesSendEmail source [receiver_email] email_title content;
                       EPrint ("Failed to send email to " ++ name ++ ": " ++ exn_str e)])%list))
  \/ (py_truthy receiver_email = true
      /\ exists content,
          str_format w template row = inr content
          /\ ses_send_email w t source [receiver_email] email_title content = None
          /\ let sent_at :=
               strftime w TIME_FORMAT
                 (now w (t ++ [ESesSendEmail source [receiver_email] email_title content])%list
                  + 8 * 3600) in
             send_email w email_title template_content row display_name t
             = (inr (sent_at, "SUCCESS"),
                (t ++ [ESesSendEmail source [receiver_email] email_title content;
                       ENow;
                       EPrint ("Email sent to " ++ name ++ " at " ++ sent_at)])%list)).
Proof.
  intros receiver_email name template source.
  unfold send_email, try_except, bind, print, emit, ret, raise.
  fold receiver_email name template source.
  destruct (py_truthy receiver_email) eqn:Htruthy; simpl.
  2:{ left. auto. }
  right.
  unfold lift. destruct (str_format w template row) as [e|content] eqn:Hfmt; simpl.
  { left. split; auto. exists e. auto. }
  right. unfold ses_send.
  destruct (ses_send_email w t source [receiver_email] email_title content)
    as [e|] eqn:Hses; simpl.
  { left. split; auto. exists content, e. rewrite <- app_assoc. auto. }
  right. split; auto. exists content. repeat split; auto.
  unfold datetime_now. simpl. rewrite <- !app_assoc. reflexivity.
Qed.

Lemma row_outcomes_app t1 t2 :
  row_outcomes (t1 ++ t2) = (row_outcomes t1 ++ row_outcomes t2)%list.
Proof. unfold row_outcomes. rewrite printed_app. apply filter_app. Qed.

Lemma send_email_returns email_title template_content row display_name t :
  exists sent evs,
    send_email w email_title template_content row display_name t
    = (inr sent, (t ++ evs)%list)
    /\ (snd sent = "FAILED" \/ snd sent = "SUCCESS")
    /\ put_items evs = []
    /\ List.length (row_outcomes evs) = 1
    /\ (py_truthy (dict_get "Email" row) = false ->
        snd sent = "FAILED" /\ deliveries evs = []).
Proof.
  destruct (send_email_cases email_title template_content row display_name t)
    as [[Hf ->] | [[Ht (e & _ & ->)] | [[Ht (c & e & _ & _ & ->)] | [Ht (c & _ & _ & ->)]]]];
    eexists; eexists; (split; [reflexivity|]); simpl;
    unfold row_outcomes, is_row_outcome_line; simpl;
    rewrite ?starts_with_append, ?orb_true_r; simpl;
    repeat split; auto; intros; congruence.
Qed.

(** [save_to_dynamodb] in each of its four ways. *)
Lemma save_to_dynamodb_cases run_id email_id display_name status recipient_email
    template_file_id spreadsheet_file_id created_at t :
  let table := environ w "DYNAMODB_TABLE" in
  let item := audit_item run_id email_id display_name status recipient_email
                         template_file_id spreadsheet_file_id created_at in
  let result := save_to_dynamodb w run_id email_id display_name status recipient_email
                                 template_file_id spreadsheet_file_id created_at t in
  match dynamodb_Table w t table with
  | Some e =>
      result = (inl e, (t ++ [EPrint ("Error in save_to_dynamodb: " ++ exn_str e)])%list)
  | None =>
      match put_item w t table item with
      | None =>
          result = (inr tt,
                    (t ++ [EPutItem table item;
                           EPrint ("Saved record to DynamoDB: " ++ py_str w (PDict item))])%list)
      | Some e =>
          if is_client_error e then
            result = (inr tt,
                      (t ++ [EPutItem table item;
                             EPrint ("Error saving to DynamoDB: " ++ exn_str e)])%list)
          else
            result = (inl e,
                      (t ++ [EPutItem table item;
                             EPrint ("Error in save_to_dynamodb: " ++ exn_str e)])%list)
      end
  end.
Proof.
  intros table item result. subst result.
  unfold save_to_dynamodb, try_except, try_except_ClientError, bind, dynamodb_table,
    table_put_item, print, emit, raise.
  fold table. fold item.
  destruct (dynamodb_Table w t table) as [e|]; simpl; [reflexivity|].
  destruct (put_item w t table item) as [e|]; simpl.
  - destruct (is_client_error e); simpl; rewrite <- app_assoc; reflexivity.
  - rewrite <- app_assoc; reflexivity.
Qed.

Lemma dispatch_row_unfold ctx row failed_recipients t sent t1 :
  send_email w (ctx_email_title ctx) (ctx_template_content ctx) row
             (ctx_display_name ctx) t = (inr sent, t1) ->
  dispatch_row w ctx row failed_recipients t
  = match save_to_dynamodb w (ctx_run_id ctx) (uuid4_hex w t1) (ctx_display_name ctx)
            (snd sent) (dict_get "Email" row) (ctx_template_file_id ctx)
            (ctx_spreadsheet_id ctx)
            (strftime w TIME_FORMAT (now w (t1 ++ [EUuid4])%list))
            (t1 ++ [EUuid4; ENow])%list with
    | (inr _, t2) => (inr (failed_after (snd sent) row failed_recipients), t2)
    | (inl e, t2) => (inl e, t2)
    end.
Proof.
  intros Hsend. unfold dispatch_row, bind, uuid4, datetime_now, ret. rewrite Hsend.
  rewrite <- app_assoc. simpl.
  destruct (save_to_dynamodb _ _ _ _ _ _ _ _ _ _) as [[e|[]] t2]; reflexivity.
Qed.

Lemma item_status_row_item ctx row status t1 :
  item_status (row_item w ctx row status t1) = Some status.
Proof. reflexivity. Qed.

Lemma recipient_row_item ctx row status t1 :
  dict_get "recipient_email" (row_item w ctx row status t1) = dict_get "Email" row.
Proof. reflexivity. Qed.

Lemma get_template_cases key t :
  match s3_get_object w t (environ w "BUCKET_NAME") key with
  | inl e =>
      get_template w key t
      = (inl e, (t ++ [ES3GetObject (environ w "BUCKET_NAME") key;
                       EPrint ("Error in get_template: " ++ exn_str e)])%list)
  | inr bytes =>
      match decode_utf8 w bytes with
      | inl e =>
          get_template w key t
          = (inl e, (t ++ [ES3GetObject (environ w "BUCKET_NAME") key;
                           EPrint ("Error in get_template: " ++ exn_str e)])%list)
      | inr text =>
          get_template w key t
          = (inr text, (t ++ [ES3GetObject (environ w "BUCKET_NAME") key])%list)
      end
  end.
Proof.
  unfold get_template, try_except, bind, s3_read, lift, print, emit, raise, ret.
  destruct (s3_get_object w t (environ w "BUCKET_NAME") key) as [e|bytes]; simpl.
  - rewrite <- app_assoc. reflexivity.
  - destruct (decode_utf8 w bytes) as [e|text]; simpl.
    + rewrite <- app_assoc. reflexivity.
    + reflexivity.
Qed.

Lemma read_sheet_data_from_s3_cases key t :
  match s3_get_object w t (environ w "BUCKET_NAME") key with
  | inl e =>
      read_sheet_data_from_s3 w key t
      = (inl e, (t ++ [ES3GetObject (environ w "BUCKET_NAME") key;
                       EPrint ("Error in read_sheet_data_from_s3: " ++ exn_str e)])%list)
  | inr bytes =>
      match pd_read_excel w bytes with
      | inl e =>
          read_sheet_data_from_s3 w key t
          = (inl e, (t ++ [ES3GetObject (environ w "BUCKET_NAME") key;
                           EPrint ("Error in read_sheet_data_from_s3: " ++ exn_str e)])%list)
      | inr excel_data =>
          read_sheet_data_from_s3 w key t
          = (inr (if df_empty excel_data then Triple [] 0 true
                  else Pair (df_records excel_data) (df_columns excel_data)),
             (t ++ [ES3GetObject (environ w "BUCKET_NAME") key])%list)
      end
  end.
Proof.
  unfold read_sheet_data_from_s3, try_except, bind, s3_read, lift, print, emit, raise, ret.
  destruct (s3_get_object w t (environ w "BUCKET_NAME") key) as [e|bytes]; simpl.
  - rewrite <- app_assoc. reflexivity.
  - destruct (pd_read_excel w bytes) as [e|df]; simpl.
    + rewrite <- app_assoc. reflexivity.
    + destruct (df_empty df); reflexivity.
Qed.


(** What [handler_setup] does once the request body is a JSON object. *)
Lemma handler_setup_request event t d :
  json_loads w (dict_get_default "body" (PStr "{}") event) = inr (PDict d) ->
  let template_file_id := dict_get "template_file_id" d in
  let spreadsheet_id := dict_get "spreadsheet_file_id" d in
  let email_title := dict_get "subject" d in
  let display_name := dict_get "display_name" d in
  let run_id := if py_truthy (dict_get "run_id" d) then dict_get "run_id" d
                else PStr (uuid4_hex w t) in
  let t0 := if py_truthy (dict_get "run_id" d) then t else (t ++ [EUuid4])%list in
  handler_setup w event t
  = if negb (py_truthy template_file_id) || negb (py_truthy spreadsheet_id)
       || negb (py_truthy email_title) || negb (py_truthy display_name)
    then (inr (inl {| statusCode := 400;
                      body := json_dumps w (PStr missing_fields_message) |}), t0)
    else (template_content <- get_template w template_file_id ;;
          sheet <- read_sheet_data_from_s3 w spreadsheet_id ;;
          unpacked <- unpack_pair sheet ;;
          ret (inr {| ctx_run_id := run_id;
                      ctx_template_file_id := template_file_id;
                      ctx_spreadsheet_id := spreadsheet_id;
                      ctx_email_title := email_title;
                      ctx_display_name := display_name;
                      ctx_template_content := template_content;
                      ctx_data := fst unpacked;
                      ctx_columns := snd unpacked |})) t0.
Proof.
  intros Hbody. cbv zeta.
  unfold handler_setup. unfold bind at 1. rewrite Hbody. cbn [lift ret].
  unfold py_get, bind at 1 2 3 4 5, ret at 1 2 3 4 5.
  destruct (py_truthy (dict_get "run_id" d)) eqn:Hrun.
  - unfold bind at 1, ret at 1.
    destruct (negb _ || negb _ || negb _ || negb _); reflexivity.
  - unfold bind at 1 2, uuid4, ret at 1.
    destruct (negb _ || negb _ || negb _ || negb _); reflexivity.
Qed.


Ltac extend_trace :=
  match goal with
  | |- exists evs, ?t = (?t ++ evs)%list /\ _ =>
      exists []; split; [now rewrite app_nil_r|]
  | |- exists evs, _ = (_ ++ evs)%list /\ _ =>
      eexists; split; [rewrite <- ?app_assoc; reflexivity|]
  end.

(** Whatever [handler_setup] does, it neither delivers nor records, and its
    early return is the 400 answer, given before any collaborator is
    called. *)
Lemma handler_setup_trace event t res t1 :
  handler_setup w event t = (res, t1) ->
  exists evs,
    t1 = (t ++ evs)%list
    /\ (deliveries evs = [] /\ put_items evs = [] /\ row_outcomes evs = [])
    /\ forall r, res = inr (inl r) ->
         r = {| statusCode := 400;
                body := json_dumps w (PStr missing_fields_message) |}
         /\ collaborator_calls evs = [].
Proof.
  destruct (json_loads w (dict_get_default "body" (PStr "{}") event))
    as [e|request] eqn:Hbody.
  { unfold handler_setup. unfold bind at 1. rewrite Hbody. cbn [lift raise].
    intros H; injection H as <- <-. extend_trace.
    split; auto. intros r Hr; discriminate. }
  assert (Hother : (forall d, request <> PDict d) ->
                   handler_setup w event t
                   = (inl (Exn AttributeError
                               ("'" ++ py_type_name request
                                ++ "' object has no attribute 'get'")), t)).
  { intros Hd. unfold handler_setup. unfold bind at 1. rewrite Hbody. cbn [lift ret].
    destruct request; try reflexivity. now destruct (Hd d). }
  destruct request as [| | | | | |d];
    try (rewrite Hother by discriminate; intros H; injection H as <- <-;
         extend_trace; split; auto; intros r Hr; discriminate).
  clear Hother. rewrite (handler_setup_request _ _ _ Hbody).
  set (t0 := if py_truthy (dict_get "run_id" d) then t else (t ++ [EUuid4])%list).
  assert (Ht0 : exists evs0, t0 = (t ++ evs0)%list
                             /\ deliveries evs0 = [] /\ put_items evs0 = []
                             /\ row_outcomes evs0 = [] /\ collaborator_calls evs0 = []).
  { subst t0. destruct (py_truthy (dict_get "run_id" d)).
    - exists []. rewrite app_nil_r. auto.
    - exists [EUuid4]. auto. }
  destruct Ht0 as (evs0 & -> & Hd0 & Hp0 & Hr0 & Hc0).
  destruct (negb _ || negb _ || negb _ || negb _).
  { intros H; injection H as <- <-. exists evs0. split; auto. split; auto.
    intros r Hr. injection Hr as <-. auto. }
  unfold bind at 1.
  pose proof (get_template_cases (dict_get "template_file_id" d) (t ++ evs0)%list) as Hg.
  destruct (s3_get_object w (t ++ evs0)%list _ (dict_get "template_file_id" d))
    as [e|bytes].
  { rewrite Hg. intros H; injection H as <- <-. extend_trace.
    rewrite !deliveries_app, !put_items_app, !row_outcomes_app, Hd0, Hp0, Hr0.
    split; auto. intros r Hr; discriminate. }
  destruct (decode_utf8 w bytes) as [e|text].
  { rewrite Hg. intros H; injection H as <- <-. extend_trace.
    rewrite !deliveries_app, !put_items_app, !row_outcomes_app, Hd0, Hp0, Hr0.
    split; auto. intros r Hr; discriminate. }
  rewrite Hg. unfold bind at 1.
  match goal with
  | |- context [read_sheet_data_from_s3 w ?k ?tr] =>
      pose proof (read_sheet_data_from_s3_cases k tr) as Hs;
      destruct (s3_get_object w tr (environ w "BUCKET_NAME") k) as [e|xlsx]
  end.
  { rewrite Hs. intros H; injection H as <- <-. extend_trace.
    rewrite !deliveries_app, !put_items_app, !row_outcomes_app, Hd0, Hp0, Hr0.
    split; auto. intros r Hr; discriminate. }
  destruct (pd_read_excel w xlsx) as [e|df].
  { rewrite Hs. intros H; injection H as <- <-. extend_trace.
    rewrite !deliveries_app, !put_items_app, !row_outcomes_app, Hd0, Hp0, Hr0.
    split; auto. intros r Hr; discriminate. }
  rewrite Hs. unfold bind, unpack_pair, raise, ret.
  destruct (df_empty df); intros H; injection H as <- <-; extend_trace;
    rewrite !deliveries_app, !put_items_app, !row_outcomes_app, Hd0, Hp0, Hr0;
    (split; auto; intros r Hr; discriminate).
Qed.

End Steps.

Section Answers.

Variable w : World.

Lemma handler_finish_cases ctx failed_recipients t :
  let answer :=
    success_response (ctx_run_id ctx) (strftime w TIME_FORMAT (now w t))
                     (uuid4_hex w (t ++ [ENow])%list) in
  handler_finish w ctx failed_recipients t
  = (inr match failed_recipients with
         | [] => {| statusCode := 200; body := json_dumps w (PDict answer) |}
         | _ :: _ =>
             {| statusCode := 207;
                body := json_dumps w
                          (PDict (answer
                                  ++ [("failed_recipients", PList failed_recipients)])%list) |}
         end,
     (t ++ [ENow; EUuid4])%list).
Proof.
  unfold handler_finish, bind, datetime_now, uuid4, ret. rewrite <- app_assoc.
  destruct failed_recipients; reflexivity.
Qed.

(** Every way [lambda_handler] can answer. *)
Lemma lambda_handler_cases event t r t' :
  lambda_handler w event t = (r, t') ->
  (statusCode r = 500%Z /\ exists e, r = internal_error_response w e)
  \/ (statusCode r = 400%Z /\ exists message, body r = json_dumps w (PStr message))
  \/ (statusCode r = 200%Z
      /\ exists run_id stamp token,
          body r = json_dumps w (PDict (success_response run_id stamp token)))
  \/ (statusCode r = 207%Z
      /\ exists run_id stamp token failed,
          failed <> []
          /\ body r = json_dumps w
                        (PDict (success_response run_id stamp token
                                ++ [("failed_recipients", PList failed)])%list)).
Proof.
  unfold lambda_handler, handler_body. unfold bind at 1.
  destruct (handler_setup w event t) as [[e|[early|ctx]] t1] eqn:Hsetup.
  - intros H; injection H as <- _. left. simpl. eauto.
  - intros H; injection H as <- _. right; left.
    destruct (handler_setup_trace w _ _ _ _ Hsetup) as (evs & _ & _ & H).
    destruct (H early eq_refl) as [-> _]. simpl. eauto.
  - unfold handler_dispatch.
    destruct (validate_template (ctx_template_content ctx) (ctx_columns ctx)).
    2:{ intros H; injection H as <- _. right; left. simpl. eauto. }
    unfold bind at 1, ses_client.
    destruct (boto3_client_ses w t1 "ap-northeast-1") as [e|].
    { intros H; injection H as <- _. left. simpl. eauto. }
    unfold bind.
    destruct (dispatch_loop w ctx (ctx_data ctx) [] t1) as [[e|failed] t2].
    { intros H; injection H as <- _. left. simpl. eauto. }
    rewrite handler_finish_cases. destruct failed as [|a failed];
      intros H; injection H as <- _; simpl.
    + right; right; left. eauto.
    + right; right; right. split; auto. do 3 eexists. exists (a :: failed).
      split; [discriminate|reflexivity].
Qed.

End Answers.

(** ** An empty recipient table *)

(** Reading a table that has no rows gives a tuple of three values, and the
    handler's [data, columns = ...] cannot unpack it. *)
Lemma empty_table_cannot_be_unpacked w key t bytes excel_data :
  s3_get_object w t (environ w "BUCKET_NAME") key = inr bytes ->
  pd_read_excel w bytes = inr excel_data ->
  df_records excel_data = [] ->
  (sheet <- read_sheet_data_from_s3 w key ;; unpack_pair sheet) t
  = (inl unpack_error, (t ++ [ES3GetObject (environ w "BUCKET_NAME") key])%list).
Proof.
  intros Hget Hread Hrows. unfold bind.
  pose proof (read_sheet_data_from_s3_cases w key t) as H.
  rewrite Hget, Hread in H. rewrite H.
  unfold df_empty. rewrite Hrows. simpl. rewrite orb_true_r. reflexivity.
Qed.

(** C2.  The specification wants a run over an empty recipient table to end
    with a success answer.  The code does not do that: for a spreadsheet
    with a header row and no data rows, [read_sheet_data_from_s3] returns
    three values, unpacking them into [data, columns] raises, and the run is
    answered with status 500 and the text of the [ValueError].  No delivery
    is attempted and no audit item is written. *)
Theorem empty_table_is_answered_with_500 :
  let w := Demo.world Demo.no_rows Demo.store_ok in
  let run := lambda_handler w (Demo.event_of Demo.request_fields) [] in
  df_records Demo.no_rows = []
  /\ statusCode (fst run) = 500%Z
  /\ body (fst run)
     = json_dumps w (PStr "Internal server error: too many values to unpack (expected 2)")
  /\ deliveries (snd run) = []
  /\ put_items (snd run) = [].
Proof. vm_compute. repeat split. Qed.

(** ** Rejected requests *)

Lemma absent_is_falsy field d :
  dict_lookup field d = None -> negb (py_truthy (dict_get field d)) = true.
Proof. unfold dict_get, dict_get_default. now intros ->. Qed.

(** C3, as the code has it.  When the request body is a JSON object in which
    one of [template_file_id], [spreadsheet_file_id], [subject],
    [display_name] is absent, the handler answers 400 with one fixed message,
    the same whichever field is missing, and no collaborator has been
    called: all that may have happened is the drawing of a run identifier. *)
Theorem missing_required_field_is_rejected (w : World) (event : dict) (d : dict) :
  json_loads w (dict_get_default "body" (PStr "{}") event) = inr (PDict d) ->
  dict_lookup "template_file_id" d = None
  \/ dict_lookup "spreadsheet_file_id" d = None
  \/ dict_lookup "subject" d = None
  \/ dict_lookup "display_name" d = None ->
  let t := if py_truthy (dict_get "run_id" d) then [] else [EUuid4] in
  lambda_handler w event []
  = ({| statusCode := 400;
        body := json_dumps w
                  (PStr "Missing template_file_id, spreadsheet_id, email_title, or display_name") |},
     t)
  /\ collaborator_calls t = [].
Proof.
  intros Hbody Habsent t. split.
  - unfold lambda_handler, handler_body. unfold bind at 1.
    rewrite (handler_setup_request w _ _ _ Hbody).
    assert (Hcond : negb (py_truthy (dict_get "template_file_id" d))
                    || negb (py_truthy (dict_get "spreadsheet_file_id" d))
                    || negb (py_truthy (dict_get "subject" d))
                    || negb (py_truthy (dict_get "display_name" d)) = true).
    { destruct Habsent as [H | [H | [H | H]]];
        rewrite (absent_is_falsy _ _ H), ?orb_true_r; reflexivity. }
    rewrite Hcond. reflexivity.
  - subst t. destruct (py_truthy (dict_get "run_id" d)); reflexivity.
Qed.

Lemma missing_required_field_is_rejected_witness :
  let w := Demo.world Demo.three_rows Demo.store_ok in
  let event := Demo.event_of Demo.request_without_display_name in
  lambda_handler w event []
  = ({| statusCode := 400;
        body := json_dumps w
                  (PStr "Missing template_file_id, spreadsheet_id, email_title, or display_name") |},
     [EUuid4])
  /\ collaborator_calls [EUuid4] = [].
Proof.
  apply (missing_required_field_is_rejected
           (Demo.world Demo.three_rows Demo.store_ok)
           (Demo.event_of Demo.request_without_display_name)
           (map (fun kv => (fst kv, PStr (snd kv))) Demo.request_without_display_name)).
  - reflexivity.
  - right. right. right. reflexivity.
Defined.

(** C3 as stated fails, in two ways.  A body that is JSON but not an object
    (here the empty array) has none of the four fields, and the answer is
    500, not 400.  And the 400 message does not name the fields that are
    missing: for the empty object, which lacks all four, it holds neither
    [subject] nor [spreadsheet_file_id]. *)
Lemma request_without_fields_is_not_rejected_by_name :
  let w := Demo.world Demo.three_rows Demo.store_ok in
  let array := lambda_handler (Demo2.reading_arrays w) [("body", PStr "[]")] [] in
  let empty := lambda_handler w (Demo.event_of []) [] in
  json_loads (Demo2.reading_arrays w) (PStr "[]") = inr (PList [])
  /\ statusCode (fst array) = 500%Z
  /\ statusCode (fst array) <> 400%Z
  /\ collaborator_calls (snd array) = []
  /\ json_loads w (dict_get_default "body" (PStr "{}") (Demo.event_of [])) = inr (PDict [])
  /\ statusCode (fst empty) = 400%Z
  /\ contains "subject" (body (fst empty)) = false
  /\ contains "spreadsheet_file_id" (body (fst empty)) = false.
Proof. vm_compute. repeat split. discriminate. Qed.

(** C4.  When the template and the table have been fetched and
    [validate_template] reports unmatched placeholders, the handler answers
    400 with their names joined by a comma and a space; up to that point no
    delivery has been attempted and no audit item written, and the run ends
    there. *)
Theorem unmatched_placeholders_are_rejected
    (w : World) (event : dict) (ctx : run_ctx) (t1 : list effect) :
  handler_setup w event [] = (inr (inr ctx), t1) ->
  validate_template (ctx_template_content ctx) (ctx_columns ctx) <> [] ->
  lambda_handler w event []
  = ({| statusCode := 400;
        body := json_dumps w
                  (PStr ("Missing columns in Excel for placeholders: "
                         ++ String.concat ", "
                              (validate_template (ctx_template_content ctx)
                                                 (ctx_columns ctx)))) |},
     t1)
  /\ deliveries t1 = []
  /\ put_items t1 = [].
Proof.
  intros Hsetup Hmissing. split.
  - unfold lambda_handler, handler_body. unfold bind at 1. rewrite Hsetup.
    unfold handler_dispatch.
    destruct (validate_template (ctx_template_content ctx) (ctx_columns ctx));
      [congruence | reflexivity].
  - destruct (handler_setup_trace w _ _ _ _ Hsetup) as (evs & -> & (Hd & Hp & _) & _).
    auto.
Qed.

Lemma unmatched_placeholders_are_rejected_witness :
  let w := Demo.world Demo.two_columns Demo.store_ok in
  let event := Demo.event_of Demo.request_fields in
  validate_template Demo.template_text ["Name"; "Email"] = ["Seat"]
  /\ lambda_handler w event []
     = ({| statusCode := 400;
           body := json_dumps w (PStr "Missing columns in Excel for placeholders: Seat") |},
        Demo.fetched)
  /\ deliveries Demo.fetched = []
  /\ put_items Demo.fetched = [].
Proof.
  split; [reflexivity|].
  apply (unmatched_placeholders_are_rejected
           (Demo.world Demo.two_columns Demo.store_ok)
           (Demo.event_of Demo.request_fields)
           (Demo.ctx Demo.two_columns) Demo.fetched).
  - reflexivity.
  - vm_compute. discriminate.
Defined.

(** ** The dispatch loop *)

(** ** One row *)

Lemma send_email_delivery w email_title template_content row display_name t :
  exists sent evs,
    send_email w email_title template_content row display_name t
    = (inr sent, (t ++ evs)%list)
    /\ put_items evs = []
    /\ List.length (row_outcomes evs) = 1
    /\ ((snd sent = "SUCCESS" /\ deliveries evs = [[dict_get "Email" row]])
        \/ (snd sent = "FAILED"
            /\ (deliveries evs = [] \/ deliveries evs = [[dict_get "Email" row]]))).
Proof.
  destruct (send_email_cases w email_title template_content row display_name t)
    as [[Hf ->] | [[Ht (e & _ & ->)] | [[Ht (c & e & _ & _ & ->)] | [Ht (c & _ & _ & ->)]]]];
    eexists; eexists; (split; [reflexivity|]); simpl;
    unfold row_outcomes, is_row_outcome_line; simpl;
    rewrite ?starts_with_append, ?orb_true_r; simpl; auto 6.
Qed.

(** One pass of the loop body, whatever the world does. *)
Lemma dispatch_row_trace w ctx row failed_recipients t :
  exists status evs,
    snd (dispatch_row w ctx row failed_recipients t) = (t ++ evs)%list
    /\ ((status = "SUCCESS" /\ deliveries evs = [[dict_get "Email" row]])
        \/ (status = "FAILED"
            /\ (deliveries evs = [] \/ deliveries evs = [[dict_get "Email" row]])))
    /\ List.length (row_outcomes evs) = 1
    /\ (put_items evs = []
        \/ exists item, put_items evs = [item]
                        /\ item_of_run ctx item
                        /\ item_status item = Some status
                        /\ dict_get "recipient_email" item = dict_get "Email" row)
    /\ forall l, fst (dispatch_row w ctx row failed_recipients t) = inr l ->
                 l = failed_after status row failed_recipients
                 /\ List.length (put_items evs) = 1.
Proof.
  destruct (send_email_delivery w (ctx_email_title ctx) (ctx_template_content ctx) row
                                (ctx_display_name ctx) t)
    as (sent & evs & Hsend & Hputs & Hout & Hdel).
  rewrite (dispatch_row_unfold w _ _ _ _ _ _ Hsend).
  pose proof (save_to_dynamodb_cases w (ctx_run_id ctx) (uuid4_hex w (t ++ evs))
                (ctx_display_name ctx) (snd sent) (dict_get "Email" row)
                (ctx_template_file_id ctx) (ctx_spreadsheet_id ctx)
                (strftime w TIME_FORMAT (now w ((t ++ evs) ++ [EUuid4])%list))
                ((t ++ evs) ++ [EUuid4; ENow])%list) as Hsave.
  cbv zeta in Hsave. fold (row_item w ctx row (snd sent) (t ++ evs)%list) in Hsave.
  assert (Hitem : item_of_run ctx (row_item w ctx row (snd sent) (t ++ evs)%list)
                  /\ item_status (row_item w ctx row (snd sent) (t ++ evs)%list)
                     = Some (snd sent)
                  /\ dict_get "recipient_email"
                              (row_item w ctx row (snd sent) (t ++ evs)%list)
                     = dict_get "Email" row).
  { repeat split; reflexivity. }
  exists (snd sent).
  destruct (dynamodb_Table w _ _) as [e|].
  { rewrite Hsave. eexists. split; [cbn [snd]; rewrite <- !app_assoc; reflexivity|].
    rewrite !deliveries_app, !row_outcomes_app, !put_items_app, Hputs, length_app, Hout.
    simpl. rewrite ?app_nil_r. split; [exact Hdel|]. split; [reflexivity|].
    split; [left; reflexivity|]. intros l Hl. discriminate. }
  destruct (put_item w _ _ _) as [e|]; [destruct (is_client_error e)|];
    rewrite Hsave; (eexists; split; [cbn [snd]; rewrite <- !app_assoc; reflexivity|]);
    rewrite !deliveries_app, !row_outcomes_app, !put_items_app, Hputs, length_app, Hout;
    simpl; rewrite ?app_nil_r; (split; [exact Hdel|]); (split; [reflexivity|]);
    (split; [right; eexists; split; [reflexivity|exact Hitem]|]);
    intros l Hl; try discriminate; injection Hl as <-; auto.
Qed.

(** ** The loop, whatever the world does *)

Lemma is_failed_item_status item status :
  item_status item = Some status ->
  is_failed_item item = String.eqb status "FAILED".
Proof. unfold is_failed_item. now intros ->. Qed.

Lemma dispatch_loop_trace w ctx rows :
  forall failed_recipients t,
  exists evs,
    snd (dispatch_loop w ctx rows failed_recipients t) = (t ++ evs)%list
    /\ Forall (item_of_run ctx) (put_items evs)
    /\ Forall (fun item => item_status item = Some "SUCCESS"
                           \/ item_status item = Some "FAILED") (put_items evs)
    /\ List.length (put_items evs) <= List.length rows
    /\ List.length (deliveries evs) <= List.length rows
    /\ Forall (fun d => exists row, In row rows /\ d = [dict_get "Email" row])
              (deliveries evs)
    /\ List.length (filter is_delivered_item (put_items evs))
       <= List.length (deliveries evs)
    /\ forall failed',
         fst (dispatch_loop w ctx rows failed_recipients t) = inr failed' ->
         map (dict_get "recipient_email") (put_items evs) = map (dict_get "Email") rows
         /\ List.length (row_outcomes evs) = List.length rows
         /\ failed' = (failed_recipients
                       ++ map (dict_get "recipient_email")
                              (filter is_failed_item (put_items evs)))%list.
Proof.
  induction rows as [|row rows IH]; intros failed_recipients t.
  - exists []. simpl. rewrite !app_nil_r. do 7 (split; [auto|]).
    intros failed' H. injection H as <-. auto.
  - destruct (dispatch_row_trace w ctx row failed_recipients t)
      as (status & evs1 & Htrace & Hdel & Hout & Hput & Hdone).
    cbn [dispatch_loop]. unfold bind.
    destruct (dispatch_row w ctx row failed_recipients t) as [[e|l] t'] eqn:Hrow;
      cbn [fst snd] in Htrace, Hdone; subst t'.
    + exists evs1. cbn [fst snd]. split; [reflexivity|].
      assert (Hd : List.length (deliveries evs1) <= 1
                   /\ Forall (fun d => exists r, In r (row :: rows)
                                                 /\ d = [dict_get "Email" r])
                             (deliveries evs1)).
      { destruct Hdel as [[_ ->] | [_ [-> | ->]]]; simpl; split; auto;
          constructor; auto; exists row; simpl; auto. }
      destruct Hd as [Hd1 Hd2].
      destruct Hput as [-> | (item & -> & Hrun & Hst & _)]; simpl.
      * repeat split; auto; try lia; try discriminate.
      * assert (Hdl : List.length (if is_delivered_item item then [item] else [])
                      <= List.length (deliveries evs1)).
        { unfold is_delivered_item. rewrite (is_failed_item_status _ _ Hst).
          destruct Hdel as [[-> ->] | [-> _]]; simpl; lia. }
        repeat split; auto; try lia; try discriminate.
        constructor; auto. destruct Hdel as [[-> _] | [-> _]]; auto.
    + destruct (Hdone l eq_refl) as [-> Hlen].
      destruct Hput as [Hnil | (item & Hitem & Hrun & Hst & Hrcpt)];
        [rewrite Hnil in Hlen; discriminate|].
      destruct (IH (failed_after status row failed_recipients) (t ++ evs1)%list)
        as (evs2 & Htrace2 & Hrun2 & Hst2 & Hlen2 & Hdl2 & Hto2 & Hok2 & Hdone2).
      exists (evs1 ++ evs2)%list.
      rewrite Htrace2, app_assoc. split; [reflexivity|].
      rewrite !put_items_app, !deliveries_app, !row_outcomes_app, Hitem, !length_app.
      cbn [app filter List.length map].
      assert (Hd : List.length (deliveries evs1) <= 1
                   /\ Forall (fun d => exists r, In r (row :: rows)
                                                 /\ d = [dict_get "Email" r])
                             (deliveries evs1)
                   /\ List.length (if is_delivered_item item then [item] else [])
                      <= List.length (deliveries evs1)).
      { unfold is_delivered_item. rewrite (is_failed_item_status _ _ Hst).
        destruct Hdel as [[-> ->] | [-> [-> | ->]]]; simpl; repeat split; auto;
          constructor; auto; exists row; simpl; auto. }
      destruct Hd as (Hd1 & Hd2 & Hd3).
      split; [constructor; auto|].
      split; [constructor; auto; destruct Hdel as [[-> _] | [-> _]]; auto|].
      split; [lia|]. split; [lia|].
      split.
      { apply Forall_app. split; auto.
        eapply Forall_impl; [|exact Hto2]. intros d (r & Hin & ->).
        exists r. simpl. auto. }
      split.
      { destruct (is_delivered_item item); cbn [List.length] in *; lia. }
      intros failed' Hfailed.
      destruct (Hdone2 failed' Hfailed) as (Hmap & Hout2 & ->).
      rewrite Hmap, Hrcpt, Hout, Hout2. repeat split; auto.
      unfold failed_after. rewrite (is_failed_item_status _ _ Hst).
      destruct (String.eqb status "FAILED"); cbn [map app].
      * rewrite Hrcpt, <- app_assoc. reflexivity.
      * reflexivity.
Qed.

(** C5.  The specification wants a row without a usable address to be
    skipped and recorded as FAILED, and [send_email] means to do that: it
    skips a row whose [Email] entry is falsy.  But the blank address cell of
    a spreadsheet is not falsy: pandas reads it as the float NaN.  On a table
    of three rows whose second address cell is blank, with a provider and a
    store that check their arguments as boto3 does, the blank row is handed
    to the provider, which refuses the address; saving its audit item then
    raises a [TypeError], which is not a [ClientError], so the run ends with
    500.  The store has taken one item, the first row's, and the third row
    is never reached. *)
Theorem blank_address_cell_is_sent_and_not_recorded :
  let w := Demo2.like_boto3 (Demo.world Demo2.blank_cell Demo.store_ok) in
  let run := lambda_handler w (Demo.event_of Demo.request_fields) [] in
  map (dict_get "Email") (df_records Demo2.blank_cell)
  = [PStr "ann@example.com"; PFloat FNaN; PStr "cy@example.com"]
  /\ py_truthy (PFloat FNaN) = true
  /\ deliveries (snd run) = [[PStr "ann@example.com"]; [PFloat FNaN]]
  /\ statusCode (fst run) = 500%Z
  /\ body (fst run)
     = json_dumps w
         (PStr "Internal server error: Float types are not supported. Use Decimal types instead.")
  /\ map (dict_get "recipient_email") (put_items (snd run))
     = [PStr "ann@example.com"; PFloat FNaN]
  /\ map (dict_get "recipient_email") (stored_items w (snd run))
     = [PStr "ann@example.com"]
  /\ map item_status (stored_items w (snd run)) = [Some "SUCCESS"].
Proof. vm_compute. repeat split. Qed.

(** A save that the store answers returns. *)
Lemma answered_save_returns w ctx row status t1 :
  dynamodb_Table w (t1 ++ [EUuid4; ENow])%list (environ w "DYNAMODB_TABLE") = None ->
  (forall e,
      put_item w (t1 ++ [EUuid4; ENow])%list (environ w "DYNAMODB_TABLE")
               (row_item w ctx row status t1) = Some e ->
      is_client_error e = true) ->
  fst (save_to_dynamodb w (ctx_run_id ctx) (uuid4_hex w t1) (ctx_display_name ctx)
         status (dict_get "Email" row) (ctx_template_file_id ctx)
         (ctx_spreadsheet_id ctx)
         (strftime w TIME_FORMAT (now w (t1 ++ [EUuid4])%list))
         (t1 ++ [EUuid4; ENow])%list) = inr tt.
Proof.
  intros Htable Hput.
  pose proof (save_to_dynamodb_cases w (ctx_run_id ctx) (uuid4_hex w t1)
                (ctx_display_name ctx) status (dict_get "Email" row)
                (ctx_template_file_id ctx) (ctx_spreadsheet_id ctx)
                (strftime w TIME_FORMAT (now w (t1 ++ [EUuid4])%list))
                (t1 ++ [EUuid4; ENow])%list) as Hsave.
  cbv zeta in Hsave. fold (row_item w ctx row status t1) in Hsave.
  rewrite Htable in Hsave.
  destruct (put_item w _ _ _) as [e|].
  - rewrite (Hput e eq_refl) in Hsave. now rewrite Hsave.
  - now rewrite Hsave.
Qed.

(** A loop whose audit saves are all answered runs to its end. *)
Lemma dispatch_loop_returns w ctx rows t :
  saves_answered w ctx rows t ->
  forall failed_recipients,
  exists failed', fst (dispatch_loop w ctx rows failed_recipients t) = inr failed'.
Proof.
  induction 1 as [t | row rows t sent t1 Hsend Htable Hput _ IH];
    intros failed_recipients.
  - exists failed_recipients. reflexivity.
  - cbn [dispatch_loop]. unfold bind.
    rewrite (dispatch_row_unfold w _ _ _ _ _ _ Hsend).
    pose proof (answered_save_returns w ctx row (snd sent) t1 Htable Hput) as Hret.
    destruct (save_to_dynamodb _ _ _ _ _ _ _ _ _ _) as [[e|[]] t3];
      [discriminate|]. apply IH.
Qed.

(** C6, as the code has it.  A failure of rendering or delivery never leaves
    [send_email]: it always returns a status.  So when the audit store
    answers every save of the run (for each row in turn the table handle is
    built and [put_item] stores the item or raises a [ClientError]), the
    loop over a table of [n] rows runs to its end whatever rendering and
    delivery do: it attempts every row (one outcome line per row), and hands
    exactly [n] audit items to the store, one per row and in row order. *)
Theorem dispatch_loop_records_every_row
    (w : World) (ctx : run_ctx) (rows : list dict) (t : list effect) :
  saves_answered w ctx rows t ->
  (forall row t0, exists sent t0',
      send_email w (ctx_email_title ctx) (ctx_template_content ctx) row
                 (ctx_display_name ctx) t0 = (inr sent, t0'))
  /\ exists failed_recipients evs,
       dispatch_loop w ctx rows [] t = (inr failed_recipients, (t ++ evs)%list)
       /\ List.length (row_outcomes evs) = List.length rows
       /\ List.length (put_items evs) = List.length rows
       /\ map (dict_get "recipient_email") (put_items evs) = map (dict_get "Email") rows.
Proof.
  intros Hsaves. split.
  { intros row t0.
    destruct (send_email_returns w (ctx_email_title ctx) (ctx_template_content ctx) row
                                 (ctx_display_name ctx) t0) as (sent & evs & H & _).
    eauto. }
  destruct (dispatch_loop_returns w ctx rows t Hsaves []) as [failed' Hret].
  destruct (dispatch_loop_trace w ctx rows [] t)
    as (evs & Htrace & _ & _ & _ & _ & _ & _ & Hdone).
  destruct (Hdone failed' Hret) as (Hmap & Hout & _).
  exists failed', evs. split.
  { rewrite <- Htrace, <- Hret. apply surjective_pairing. }
  split; [exact Hout|]. split; [|exact Hmap].
  rewrite <- (length_map (dict_get "recipient_email")), Hmap. apply length_map.
Qed.

Lemma dispatch_loop_records_every_row_witness :
  let w := Demo2.like_boto3 (Demo.world Demo.three_rows Demo.store_throttled) in
  let ctx := Demo.ctx Demo.three_rows in
  saves_answered w ctx (df_records Demo.three_rows) Demo.fetched
  /\ (forall row t0, exists sent t0',
         send_email w (ctx_email_title ctx) (ctx_template_content ctx) row
                    (ctx_display_name ctx) t0 = (inr sent, t0'))
  /\ exists failed_recipients evs,
       dispatch_loop w ctx (df_records Demo.three_rows) [] Demo.fetched
       = (inr failed_recipients, (Demo.fetched ++ evs)%list)
       /\ List.length (row_outcomes evs) = 3
       /\ List.length (put_items evs) = 3
       /\ map (dict_get "recipient_email") (put_items evs)
          = map (dict_get "Email") (df_records Demo.three_rows).
Proof.
  assert (H : saves_answered
                (Demo2.like_boto3 (Demo.world Demo.three_rows Demo.store_throttled))
                (Demo.ctx Demo.three_rows) (df_records Demo.three_rows) Demo.fetched).
  { repeat (eapply saves_answered_row;
            [ reflexivity
            | reflexivity
            | intros e He; vm_compute in He; injection He as <-; reflexivity
            | ]).
    apply saves_answered_done. }
  split; [exact H|].
  apply (dispatch_loop_records_every_row
           (Demo2.like_boto3 (Demo.world Demo.three_rows Demo.store_throttled))
           (Demo.ctx Demo.three_rows) (df_records Demo.three_rows) Demo.fetched H).
Defined.

(** C6 as stated fails: when saving the first row's item raises something
    other than a [ClientError], the loop over three rows stops after one
    attempt and one audit item. *)
Lemma save_exception_stops_the_loop :
  let w := Demo.world Demo.three_rows Demo.store_unreachable in
  let rows := df_records Demo.three_rows in
  let run := dispatch_loop w (Demo.ctx Demo.three_rows) rows [] Demo.fetched in
  List.length rows = 3
  /\ fst run = inl Demo.unreachable
  /\ List.length (row_outcomes (snd run)) = 1
  /\ List.length (put_items (snd run)) = 1
  /\ List.length (put_items (snd run)) <> List.length rows.
Proof. vm_compute. repeat split. discriminate. Qed.

(** C7, as the code has it.  When the audit store answers a row's
    [put_item] with a [ClientError], [save_to_dynamodb] logs it and returns
    normally: the item it tried to save carries the status [send_email]
    returned, the list of failed addresses is what that status alone makes
    it, and the loop goes on with the remaining rows. *)
Theorem client_error_on_save_is_swallowed
    (w : World) (ctx : run_ctx) (row : dict) (rows : list dict)
    (failed_recipients : list pyval) (t : list effect)
    (sent : string * string) (t1 : list effect) (e : exn) :
  send_email w (ctx_email_title ctx) (ctx_template_content ctx) row
             (ctx_display_name ctx) t = (inr sent, t1) ->
  let t2 := (t1 ++ [EUuid4; ENow])%list in
  let table := environ w "DYNAMODB_TABLE" in
  let item := row_item w ctx row (snd sent) t1 in
  dynamodb_Table w t2 table = None ->
  put_item w t2 table item = Some e ->
  is_client_error e = true ->
  let t3 := (t2 ++ [EPutItem table item;
                    EPrint ("Error saving to DynamoDB: " ++ exn_str e)])%list in
  save_to_dynamodb w (ctx_run_id ctx) (uuid4_hex w t1) (ctx_display_name ctx)
                   (snd sent) (dict_get "Email" row) (ctx_template_file_id ctx)
                   (ctx_spreadsheet_id ctx)
                   (strftime w TIME_FORMAT (now w (t1 ++ [EUuid4])%list)) t2
  = (inr tt, t3)
  /\ item_status item = Some (snd sent)
  /\ dispatch_row w ctx row failed_recipients t
     = (inr (failed_after (snd sent) row failed_recipients), t3)
  /\ dispatch_loop w ctx (row :: rows) failed_recipients t
     = dispatch_loop w ctx rows (failed_after (snd sent) row failed_recipients) t3.
Proof.
  intros Hsend t2 table item Htable Hput Hclient t3.
  pose proof (save_to_dynamodb_cases w (ctx_run_id ctx) (uuid4_hex w t1)
                (ctx_display_name ctx) (snd sent) (dict_get "Email" row)
                (ctx_template_file_id ctx) (ctx_spreadsheet_id ctx)
                (strftime w TIME_FORMAT (now w (t1 ++ [EUuid4])%list)) t2) as Hsave.
  cbv zeta in Hsave. fold table in Hsave. fold (row_item w ctx row (snd sent) t1) in Hsave.
  fold item in Hsave. rewrite Htable, Hput, Hclient in Hsave.
  assert (Hrow : dispatch_row w ctx row failed_recipients t
                 = (inr (failed_after (snd sent) row failed_recipients), t3)).
  { rewrite (dispatch_row_unfold w _ _ _ _ _ _ Hsend). fold t2. now rewrite Hsave. }
  split; [exact Hsave|]. split; [reflexivity|]. split; [exact Hrow|].
  cbn [dispatch_loop]. unfold bind at 1. now rewrite Hrow.
Qed.

Lemma client_error_on_save_is_swallowed_witness :
  let w := Demo.world Demo.three_rows Demo.store_throttled in
  let ctx := Demo.ctx Demo.three_rows in
  let row := Demo.row "Bob" "bounce@example.com" "B2" in
  let rows := [Demo.row "Cy" "cy@example.com" "C3"] in
  let sent := ("Failed", "FAILED") in
  let t1 := snd (send_email w (ctx_email_title ctx) (ctx_template_content ctx) row
                            (ctx_display_name ctx) Demo.fetched) in
  let t2 := (t1 ++ [EUuid4; ENow])%list in
  let item := row_item w ctx row "FAILED" t1 in
  let t3 := (t2 ++ [EPutItem (Some "email") item;
                    EPrint ("Error saving to DynamoDB: " ++ exn_str Demo.throttled)])%list in
  is_client_error Demo.throttled = true
  /\ dispatch_row w ctx row [] Demo.fetched = (inr [PStr "bounce@example.com"], t3)
  /\ dispatch_loop w ctx (row :: rows) [] Demo.fetched
     = dispatch_loop w ctx rows [PStr "bounce@example.com"] t3.
Proof.
  split; [reflexivity|].
  apply (client_error_on_save_is_swallowed
           (Demo.world Demo.three_rows Demo.store_throttled)
           (Demo.ctx Demo.three_rows)
           (Demo.row "Bob" "bounce@example.com" "B2")
           [Demo.row "Cy" "cy@example.com" "C3"] [] Demo.fetched
           ("Failed", "FAILED")
           (snd (send_email (Demo.world Demo.three_rows Demo.store_throttled)
                            (PStr "Welcome") Demo.template_text
                            (Demo.row "Bob" "bounce@example.com" "B2")
                            (PStr "AWS Educate") Demo.fetched))
           Demo.throttled);
    reflexivity.
Defined.

(** C7 as stated fails: a persistence failure that is not a [ClientError]
    (here the store cannot be reached) is logged and raised again; the run
    that would have ended with 207 ends with 500 and the rows after the
    first are never processed. *)
Lemma connection_error_on_save_aborts_the_run :
  let event := Demo.event_of Demo.request_fields in
  let stored := lambda_handler (Demo.world Demo.three_rows Demo.store_ok) event [] in
  let failing := lambda_handler (Demo.world Demo.three_rows Demo.store_unreachable) event [] in
  is_client_error Demo.unreachable = false
  /\ statusCode (fst stored) = 207%Z
  /\ List.length (deliveries (snd stored)) = 3
  /\ statusCode (fst failing) = 500%Z
  /\ List.length (deliveries (snd failing)) = 1
  /\ In ("Error in save_to_dynamodb: " ++ exn_str Demo.unreachable) (printed (snd failing)).
Proof. vm_compute. repeat split. auto. Qed.

(** ** The final answer *)

(** C8, as the code has it.  For a run that reaches the loop and whose loop
    runs to its end with the list [failed_recipients]: the answer is 207
    with the field [failed_recipients] holding that list when the list is
    not empty, and 200 without that field when it is empty; in both cases
    the body holds the run identifier, a timestamp and the synthetic
    [sqs_message_id]. *)
Theorem final_answer_after_the_loop
    (w : World) (event : dict) (ctx : run_ctx) (t1 t2 : list effect)
    (failed_recipients : list pyval) :
  handler_setup w event [] = (inr (inr ctx), t1) ->
  validate_template (ctx_template_content ctx) (ctx_columns ctx) = [] ->
  boto3_client_ses w t1 "ap-northeast-1" = None ->
  dispatch_loop w ctx (ctx_data ctx) [] t1 = (inr failed_recipients, t2) ->
  let stamp := strftime w TIME_FORMAT (now w t2) in
  let token := uuid4_hex w (t2 ++ [ENow])%list in
  let answer := success_response (ctx_run_id ctx) stamp token in
  exists r,
    lambda_handler w event [] = (r, (t2 ++ [ENow; EUuid4])%list)
    /\ (statusCode r = 207%Z <-> failed_recipients <> [])
    /\ (failed_recipients <> [] ->
        statusCode r = 207%Z
        /\ body r = json_dumps w
                      (PDict (answer
                              ++ [("failed_recipients", PList failed_recipients)])%list))
    /\ (failed_recipients = [] ->
        statusCode r = 200%Z /\ body r = json_dumps w (PDict answer))
    /\ dict_lookup "failed_recipients" answer = None
    /\ dict_lookup "request_id" answer = Some (ctx_run_id ctx)
    /\ dict_lookup "timestamp" answer = Some (PStr stamp)
    /\ dict_lookup "sqs_message_id" answer = Some (PStr token).
Proof.
  intros Hsetup Hvalid Hses Hloop stamp token answer.
  assert (Hrun : lambda_handler w event []
                 = (match failed_recipients with
                    | [] => {| statusCode := 200; body := json_dumps w (PDict answer) |}
                    | _ :: _ =>
                        {| statusCode := 207;
                           body := json_dumps w
                                     (PDict (answer
                                             ++ [("failed_recipients",
                                                  PList failed_recipients)])%list) |}
                    end, (t2 ++ [ENow; EUuid4])%list)).
  { unfold lambda_handler, handler_body. unfold bind at 1. rewrite Hsetup.
    unfold handler_dispatch. rewrite Hvalid.
    unfold bind at 1, ses_client. rewrite Hses.
    unfold bind at 1. rewrite Hloop. rewrite handler_finish_cases. reflexivity. }
  eexists. split; [exact Hrun|].
  destruct failed_recipients as [|a l]; simpl.
  - repeat split; auto; try congruence; try discriminate.
  - repeat split; auto; try congruence; try discriminate.
Qed.

Lemma final_answer_after_the_loop_witness :
  let w := Demo.world Demo.three_rows Demo.store_ok in
  let event := Demo.event_of Demo.request_fields in
  let ctx := Demo.ctx Demo.three_rows in
  let t2 := snd (dispatch_loop w ctx (ctx_data ctx) [] Demo.fetched) in
  let failed_recipients := [PStr "bounce@example.com"] in
  let stamp := strftime w TIME_FORMAT (now w t2) in
  let token := uuid4_hex w (t2 ++ [ENow])%list in
  let answer := success_response (ctx_run_id ctx) stamp token in
  exists r,
    lambda_handler w event [] = (r, (t2 ++ [ENow; EUuid4])%list)
    /\ (statusCode r = 207%Z <-> failed_recipients <> [])
    /\ (failed_recipients <> [] ->
        statusCode r = 207%Z
        /\ body r = json_dumps w
                      (PDict (answer
                              ++ [("failed_recipients", PList failed_recipients)])%list))
    /\ (failed_recipients = [] ->
        statusCode r = 200%Z /\ body r = json_dumps w (PDict answer))
    /\ dict_lookup "failed_recipients" answer = None
    /\ dict_lookup "request_id" answer = Some (ctx_run_id ctx)
    /\ dict_lookup "timestamp" answer = Some (PStr stamp)
    /\ dict_lookup "sqs_message_id" answer = Some (PStr token).
Proof.
  apply (final_answer_after_the_loop
           (Demo.world Demo.three_rows Demo.store_ok)
           (Demo.event_of Demo.request_fields)
           (Demo.ctx Demo.three_rows) Demo.fetched
           (snd (dispatch_loop (Demo.world Demo.three_rows Demo.store_ok)
                               (Demo.ctx Demo.three_rows)
                               (ctx_data (Demo.ctx Demo.three_rows)) [] Demo.fetched))
           [PStr "bounce@example.com"]);
    reflexivity.
Defined.

(** C8 as stated fails: a run can reach the loop and be answered with
    neither 200 nor 207, because an exception that escapes an audit save
    ends the loop; the answer is then 500. *)
Lemma run_that_reaches_the_loop_can_end_with_500 :
  let w := Demo.world Demo.three_rows Demo.store_unreachable in
  let event := Demo.event_of Demo.request_fields in
  let ctx := Demo.ctx Demo.three_rows in
  handler_setup w event [] = (inr (inr ctx), Demo.fetched)
  /\ validate_template (ctx_template_content ctx) (ctx_columns ctx) = []
  /\ boto3_client_ses w Demo.fetched "ap-northeast-1" = None
  /\ List.length (deliveries (snd (lambda_handler w event []))) = 1
  /\ statusCode (fst (lambda_handler w event [])) = 500%Z
  /\ statusCode (fst (lambda_handler w event [])) <> 200%Z
  /\ statusCode (fst (lambda_handler w event [])) <> 207%Z.
Proof. vm_compute. repeat split; discriminate. Qed.

(** A template that cannot be fetched: the exception leaves the [try] block
    before the table is asked for. *)
Lemma template_fetch_failure_escapes w event d e :
  json_loads w (dict_get_default "body" (PStr "{}") event) = inr (PDict d) ->
  py_truthy (dict_get "template_file_id" d) = true ->
  py_truthy (dict_get "spreadsheet_file_id" d) = true ->
  py_truthy (dict_get "subject" d) = true ->
  py_truthy (dict_get "display_name" d) = true ->
  let t0 := if py_truthy (dict_get "run_id" d) then [] else [EUuid4] in
  s3_get_object w t0 (environ w "BUCKET_NAME") (dict_get "template_file_id" d) = inl e ->
  handler_body w event []
  = (inl e,
     (t0 ++ [ES3GetObject (environ w "BUCKET_NAME") (dict_get "template_file_id" d);
             EPrint ("Error in get_template: " ++ exn_str e)])%list).
Proof.
  intros Hbody H1 H2 H3 H4 t0 Hget.
  unfold handler_body. unfold bind at 1.
  rewrite (handler_setup_request w _ _ _ Hbody). rewrite H1, H2, H3, H4. cbn [negb orb].
  unfold bind at 1.
  pose proof (get_template_cases w (dict_get "template_file_id" d) t0) as Hg.
  rewrite Hget in Hg. subst t0.
  destruct (py_truthy (dict_get "run_id" d)); cbn [app] in *; rewrite Hg; reflexivity.
Qed.

(** C9, as the code has it.  Whatever exception leaves the [try] block of
    the handler, the answer has status 500 and its body is the text
    [Internal server error: ] followed by the message of that exception
    ([str(e)]); no traceback is added, and the same line is logged. *)
Theorem escaping_exception_is_answered_with_500
    (w : World) (event : dict) (t t' : list effect) (e : exn) :
  handler_body w event t = (inl e, t') ->
  lambda_handler w event t
  = ({| statusCode := 500;
        body := json_dumps w (PStr ("Internal server error: " ++ exn_str e)) |},
     (t' ++ [EPrint ("Error in lambda_handler: " ++ exn_str e)])%list).
Proof. intros H. unfold lambda_handler. rewrite H. reflexivity. Qed.

Lemma escaping_exception_is_answered_with_500_witness :
  let w := Demo.world Demo.three_rows Demo.store_ok in
  let event := Demo.event_of Demo.request_unknown_template in
  let t' := [ EUuid4;
              ES3GetObject (Some "tpet-files") (PStr "templates/missing.html");
              EPrint ("Error in get_template: " ++ exn_str Demo.no_such_key) ] in
  handler_body w event [] = (inl Demo.no_such_key, t')
  /\ lambda_handler w event []
     = ({| statusCode := 500;
           body := json_dumps w
                     (PStr ("Internal server error: " ++ exn_str Demo.no_such_key)) |},
        (t' ++ [EPrint ("Error in lambda_handler: " ++ exn_str Demo.no_such_key)])%list).
Proof.
  split; [reflexivity|].
  apply (escaping_exception_is_answered_with_500
           (Demo.world Demo.three_rows Demo.store_ok)
           (Demo.event_of Demo.request_unknown_template) []).
  reflexivity.
Defined.

(** C9 as stated fails: the body is not one generic message, it repeats the
    message of the exception, which names the failing service call. *)
Lemma internal_error_body_repeats_the_exception :
  contains "GetObject operation: The specified key does not exist"
           (body (fst (lambda_handler (Demo.world Demo.three_rows Demo.store_ok)
                                      (Demo.event_of Demo.request_unknown_template) [])))
  = true
  /\ ~ (exists generic : string,
          forall w event e t',
            handler_body w event [] = (inl e, t') ->
            body (fst (lambda_handler w event [])) = json_dumps w (PStr generic)).
Proof.
  split; [vm_compute; reflexivity|].
  intros [generic H].
  pose proof (H (Demo.world Demo.three_rows Demo.store_ok)
                (Demo.event_of Demo.request_unknown_template)
                Demo.no_such_key _ eq_refl) as H1.
  pose proof (H (Demo.world Demo.no_rows Demo.store_ok)
                (Demo.event_of Demo.request_fields)
                unpack_error _ eq_refl) as H2.
  change (json_dumps (Demo.world Demo.no_rows Demo.store_ok))
    with (json_dumps (Demo.world Demo.three_rows Demo.store_ok)) in H2.
  rewrite <- H2 in H1. vm_compute in H1. discriminate.
Qed.



(** * Further properties of the dispatcher *)

(** ** What reaches the loop *)

(** What is known when [handler_setup] hands over to the rest of the
    handler. *)
Lemma handler_setup_ok (w : World) (event : dict) (t t1 : list effect)
    (ctx : run_ctx) :
  handler_setup w event t = (inr (inr ctx), t1) ->
  exists d excel_data,
    json_loads w (dict_get_default "body" (PStr "{}") event) = inr (PDict d)
    /\ (py_truthy (ctx_template_file_id ctx) = true
        /\ py_truthy (ctx_spreadsheet_id ctx) = true
        /\ py_truthy (ctx_email_title ctx) = true
        /\ py_truthy (ctx_display_name ctx) = true)
    /\ (ctx_template_file_id ctx = dict_get "template_file_id" d
        /\ ctx_spreadsheet_id ctx = dict_get "spreadsheet_file_id" d
        /\ ctx_email_title ctx = dict_get "subject" d
        /\ ctx_display_name ctx = dict_get "display_name" d)
    /\ ctx_run_id ctx
       = (if py_truthy (dict_get "run_id" d) then dict_get "run_id" d
          else PStr (uuid4_hex w t))
    /\ t1 = ((if py_truthy (dict_get "run_id" d) then t else t ++ [EUuid4])
             ++ [ES3GetObject (environ w "BUCKET_NAME") (ctx_template_file_id ctx);
                 ES3GetObject (environ w "BUCKET_NAME") (ctx_spreadsheet_id ctx)])%list
    /\ (ctx_data ctx = df_records excel_data
        /\ ctx_columns ctx = df_columns excel_data
        /\ ctx_data ctx <> [] /\ ctx_columns ctx <> []).
Proof.
  destruct (json_loads w (dict_get_default "body" (PStr "{}") event))
    as [e|request] eqn:Hbody.
  { unfold handler_setup. unfold bind at 1. rewrite Hbody. discriminate. }
  destruct request as [| | | | | |d];
    try (unfold handler_setup; unfold bind at 1; rewrite Hbody; discriminate).
  rewrite (handler_setup_request w _ _ _ Hbody).
  set (t0 := if py_truthy (dict_get "run_id" d) then t else (t ++ [EUuid4])%list).
  destruct (py_truthy (dict_get "template_file_id" d)) eqn:H1; [|discriminate].
  destruct (py_truthy (dict_get "spreadsheet_file_id" d)) eqn:H2; [|discriminate].
  destruct (py_truthy (dict_get "subject" d)) eqn:H3; [|discriminate].
  destruct (py_truthy (dict_get "display_name" d)) eqn:H4; [|discriminate].
  cbn [negb orb]. unfold bind at 1.
  pose proof (get_template_cases w (dict_get "template_file_id" d) t0) as Hg.
  destruct (s3_get_object w t0 _ (dict_get "template_file_id" d)) as [e|bytes];
    [rewrite Hg; discriminate|].
  destruct (decode_utf8 w bytes) as [e|text]; rewrite Hg; [discriminate|].
  unfold bind at 1.
  match goal with
  | |- context [read_sheet_data_from_s3 w ?k ?tr] =>
      pose proof (read_sheet_data_from_s3_cases w k tr) as Hs;
      destruct (s3_get_object w tr (environ w "BUCKET_NAME") k) as [e|xlsx];
      [rewrite Hs; discriminate|]
  end.
  destruct (pd_read_excel w xlsx) as [e|df]; rewrite Hs; [discriminate|].
  unfold bind, unpack_pair, raise, ret.
  destruct (df_empty df) eqn:Hempty; [discriminate|].
  intros H. injection H as <- <-. exists d, df. cbn.
  rewrite H1, H2, H3, H4, <- app_assoc. repeat split; auto.
  - unfold df_empty in Hempty. apply orb_false_iff in Hempty.
    destruct (df_records df); [|discriminate]. destruct Hempty as [_ H]. discriminate.
  - unfold df_empty in Hempty. apply orb_false_iff in Hempty.
    destruct (df_columns df); [|discriminate]. destruct Hempty as [H _]. discriminate.
Qed.

(** X1.  When [handler_setup] hands over to the rest of the handler, the
    request was a JSON object with the four required fields truthy, the run
    identifier is the caller's or a fresh one, the template was read before
    the table and nothing else was called, and the table has at least one
    row and one column: the loop never runs over an empty table. *)
Theorem handler_setup_success (w : World) (event : dict) (t t1 : list effect)
    (ctx : run_ctx) :
  handler_setup w event t = (inr (inr ctx), t1) ->
  exists d excel_data,
    json_loads w (dict_get_default "body" (PStr "{}") event) = inr (PDict d)
    /\ (py_truthy (ctx_template_file_id ctx) = true
        /\ py_truthy (ctx_spreadsheet_id ctx) = true
        /\ py_truthy (ctx_email_title ctx) = true
        /\ py_truthy (ctx_display_name ctx) = true)
    /\ (ctx_template_file_id ctx = dict_get "template_file_id" d
        /\ ctx_spreadsheet_id ctx = dict_get "spreadsheet_file_id" d
        /\ ctx_email_title ctx = dict_get "subject" d
        /\ ctx_display_name ctx = dict_get "display_name" d)
    /\ ctx_run_id ctx
       = (if py_truthy (dict_get "run_id" d) then dict_get "run_id" d
          else PStr (uuid4_hex w t))
    /\ t1 = ((if py_truthy (dict_get "run_id" d) then t else t ++ [EUuid4])
             ++ [ES3GetObject (environ w "BUCKET_NAME") (ctx_template_file_id ctx);
                 ES3GetObject (environ w "BUCKET_NAME") (ctx_spreadsheet_id ctx)])%list
    /\ (ctx_data ctx = df_records excel_data
        /\ ctx_columns ctx = df_columns excel_data
        /\ ctx_data ctx <> [] /\ ctx_columns ctx <> []).
Proof. exact (handler_setup_ok w event t t1 ctx). Qed.

Lemma handler_setup_success_witness :
  let w := Demo.world Demo.three_rows Demo.store_ok in
  let ctx := Demo.ctx Demo.three_rows in
  handler_setup w (Demo.event_of Demo.request_fields) [] = (inr (inr ctx), Demo.fetched)
  /\ ctx_data ctx <> [] /\ ctx_columns ctx <> []
  /\ ctx_run_id ctx = PStr "run-42".
Proof.
  split; [reflexivity|].
  destruct (handler_setup_success
              (Demo.world Demo.three_rows Demo.store_ok)
              (Demo.event_of Demo.request_fields) [] Demo.fetched
              (Demo.ctx Demo.three_rows) eq_refl)
    as (d & excel_data & Hbody & _ & _ & Hid & _ & _ & _ & Hrows & Hcols).
  split; [exact Hrows|]. split; [exact Hcols|]. reflexivity.
Defined.

(** ** A whole run *)

(** The ways a run can go, with the trace each way leaves. *)
Lemma lambda_handler_run w event r t :
  lambda_handler w event [] = (r, t) ->
  ((statusCode r = 400%Z \/ statusCode r = 500%Z)
   /\ deliveries t = [] /\ put_items t = [])
  \/ (exists ctx t1 evs e,
        handler_setup w event [] = (inr (inr ctx), t1)
        /\ dispatch_loop w ctx (ctx_data ctx) [] t1 = (inl e, (t1 ++ evs)%list)
        /\ r = internal_error_response w e
        /\ t = (t1 ++ evs ++ [EPrint ("Error in lambda_handler: " ++ exn_str e)])%list)
  \/ (exists ctx t1 evs failed,
        handler_setup w event [] = (inr (inr ctx), t1)
        /\ dispatch_loop w ctx (ctx_data ctx) [] t1 = (inr failed, (t1 ++ evs)%list)
        /\ handler_finish w ctx failed (t1 ++ evs)%list
           = (inr r, (t1 ++ evs ++ [ENow; EUuid4])%list)
        /\ t = (t1 ++ evs ++ [ENow; EUuid4])%list).
Proof.
  unfold lambda_handler, handler_body. unfold bind at 1.
  destruct (handler_setup w event []) as [[e|[early|ctx]] t1] eqn:Hsetup.
  - destruct (handler_setup_trace w _ _ _ _ Hsetup) as (evs & -> & (Hd & Hp & _) & _).
    intros H; injection H as <- <-. left. simpl.
    rewrite deliveries_app, put_items_app, Hd, Hp. auto.
  - destruct (handler_setup_trace w _ _ _ _ Hsetup) as (evs & -> & (Hd & Hp & _) & H).
    destruct (H early eq_refl) as [-> _].
    intros H'; injection H' as <- <-. left. simpl. auto.
  - destruct (handler_setup_trace w _ _ _ _ Hsetup) as (evs0 & -> & (Hd & Hp & _) & _).
    simpl app in *. unfold handler_dispatch.
    destruct (validate_template (ctx_template_content ctx) (ctx_columns ctx)).
    2:{ intros H; injection H as <- <-. left. simpl. auto. }
    unfold bind at 1, ses_client.
    destruct (boto3_client_ses w evs0 "ap-northeast-1") as [e|].
    { intros H; injection H as <- <-. left. simpl.
      rewrite deliveries_app, put_items_app, Hd, Hp. auto. }
    unfold bind.
    destruct (dispatch_loop_trace w ctx (ctx_data ctx) [] evs0) as (evs & Htrace & _).
    destruct (dispatch_loop w ctx (ctx_data ctx) [] evs0) as [[e|failed] t2] eqn:Hloop;
      cbn [snd] in Htrace; subst t2.
    { intros H; injection H as <- <-. right; left.
      exists ctx, evs0, evs, e. rewrite <- app_assoc. auto. }
    rewrite handler_finish_cases.
    intros H; injection H as <- <-. right; right.
    exists ctx, evs0, evs, failed. rewrite handler_finish_cases, <- !app_assoc. auto.
Qed.

(** X2.  An answer 400, whichever of the two rejections it is, comes with no
    delivery attempted and no audit item handed to the store. *)
Theorem rejection_sends_and_records_nothing
    (w : World) (event : dict) (r : response) (t : list effect) :
  lambda_handler w event [] = (r, t) ->
  statusCode r = 400%Z ->
  deliveries t = [] /\ put_items t = [].
Proof.
  intros Hrun Hcode.
  destruct (lambda_handler_run w _ _ _ Hrun)
    as [(_ & Hd & Hp) | [(ctx & t1 & evs & e & _ & _ & -> & _)
                        | (ctx & t1 & evs & failed & _ & _ & Hfin & _)]].
  - auto.
  - discriminate.
  - rewrite handler_finish_cases in Hfin. injection Hfin as <-.
    destruct failed; discriminate.
Qed.

Lemma rejection_sends_and_records_nothing_witness :
  let w := Demo.world Demo.two_columns Demo.store_ok in
  let run := lambda_handler w (Demo.event_of Demo.request_fields) [] in
  statusCode (fst run) = 400%Z
  /\ deliveries (snd run) = [] /\ put_items (snd run) = [].
Proof.
  split; [reflexivity|].
  apply (rejection_sends_and_records_nothing
           (Demo.world Demo.two_columns Demo.store_ok)
           (Demo.event_of Demo.request_fields)
           (fst (lambda_handler (Demo.world Demo.two_columns Demo.store_ok)
                                (Demo.event_of Demo.request_fields) []))).
  - apply surjective_pairing.
  - reflexivity.
Defined.

(** A loop that ends with the list of failures it started with has delivered
    to every row. *)
Lemma dispatch_loop_no_failure w ctx rows :
  forall failed_recipients t t',
    dispatch_loop w ctx rows failed_recipients t = (inr failed_recipients, t') ->
    exists evs,
      t' = (t ++ evs)%list
      /\ deliveries evs = map (fun row => [dict_get "Email" row]) rows
      /\ map (dict_get "recipient_email") (put_items evs) = map (dict_get "Email") rows
      /\ Forall (fun item => item_status item = Some "SUCCESS") (put_items evs).
Proof.
  induction rows as [|row rows IH]; intros failed_recipients t t'.
  - simpl. intros H. injection H as <-. exists []. rewrite app_nil_r. auto.
  - cbn [dispatch_loop]. unfold bind.
    destruct (dispatch_row_trace w ctx row failed_recipients t)
      as (status & evs1 & Htrace & Hdel & _ & Hput & Hdone).
    destruct (dispatch_row w ctx row failed_recipients t) as [[e|l] t1] eqn:Hrow;
      [discriminate|].
    cbn [fst snd] in Htrace, Hdone. subst t1.
    destruct (Hdone l eq_refl) as [-> Hlen].
    destruct Hput as [Hnil | (item & Hitem & _ & Hst & Hrcpt)];
      [rewrite Hnil in Hlen; discriminate|].
    intros Hloop.
    destruct (dispatch_loop_trace w ctx rows (failed_after status row failed_recipients)
                                  (t ++ evs1)%list) as (evs2 & _ & _ & _ & _ & _ & _ & _ & Hdone2).
    rewrite Hloop in Hdone2. destruct (Hdone2 _ eq_refl) as (_ & _ & Hfailed).
    assert (Hstatus : status = "SUCCESS"
                      /\ failed_after status row failed_recipients = failed_recipients).
    { destruct Hdel as [[-> _] | [-> _]]; [auto|]. exfalso.
      unfold failed_after in Hfailed. simpl in Hfailed.
      apply (f_equal (@List.length pyval)) in Hfailed.
      rewrite !length_app in Hfailed. simpl in Hfailed. lia. }
    destruct Hstatus as [-> Hsame]. rewrite Hsame in Hloop.
    destruct (IH _ _ _ Hloop) as (evs & -> & Hd & Hm & Hall).
    exists (evs1 ++ evs)%list. rewrite app_assoc. split; [reflexivity|].
    rewrite deliveries_app, put_items_app, Hitem, Hd. cbn [app map].
    destruct Hdel as [[_ ->] | [Habs _]]; [|discriminate].
    rewrite Hm, Hrcpt. repeat split; auto.
Qed.

(** X3.  An answer 200 means that every row of the table was handed to SES,
    in table order, and that an audit item with status [SUCCESS] was handed
    to the store for every row. *)
Theorem full_success_means_every_row_was_delivered
    (w : World) (event : dict) (r : response) (t : list effect) :
  lambda_handler w event [] = (r, t) ->
  statusCode r = 200%Z ->
  exists ctx t1,
    handler_setup w event [] = (inr (inr ctx), t1)
    /\ ctx_data ctx <> []
    /\ deliveries t = map (fun row => [dict_get "Email" row]) (ctx_data ctx)
    /\ map (dict_get "recipient_email") (put_items t) = map (dict_get "Email") (ctx_data ctx)
    /\ Forall (fun item => item_status item = Some "SUCCESS") (put_items t).
Proof.
  intros Hrun Hcode.
  destruct (lambda_handler_run w _ _ _ Hrun)
    as [([Hc | Hc] & _) | [(ctx & t1 & evs & e & _ & _ & -> & _)
                          | (ctx & t1 & evs & failed & Hsetup & Hloop & Hfin & ->)]];
    try (rewrite Hc in Hcode; discriminate); try discriminate.
  rewrite handler_finish_cases in Hfin. injection Hfin as <-.
  destruct failed; [|discriminate].
  destruct (dispatch_loop_no_failure w _ _ _ _ _ Hloop) as (evs' & Heq & Hd & Hm & Hall).
  apply app_inv_head in Heq. subst evs'.
  destruct (handler_setup_trace w _ _ _ _ Hsetup) as (evs0 & Ht1 & (Hd0 & Hp0 & _) & _).
  simpl in Ht1. subst t1.
  destruct (handler_setup_ok w _ _ _ _ Hsetup) as (_ & _ & _ & _ & _ & _ & _ & _ & _ & Hne & _).
  exists ctx, evs0. split; [exact Hsetup|]. split; [exact Hne|].
  rewrite !deliveries_app, !put_items_app, Hd0, Hp0. simpl.
  rewrite !app_nil_r, Hd, Hm. auto.
Qed.

Lemma full_success_means_every_row_was_delivered_witness :
  let w := Demo.world Demo.two_good_rows Demo.store_ok in
  let run := lambda_handler w (Demo.event_of Demo.request_fields) [] in
  statusCode (fst run) = 200%Z
  /\ List.length (deliveries (snd run)) = 2
  /\ Forall (fun item => item_status item = Some "SUCCESS") (put_items (snd run)).
Proof.
  split; [reflexivity|].
  destruct (full_success_means_every_row_was_delivered
              (Demo.world Demo.two_good_rows Demo.store_ok)
              (Demo.event_of Demo.request_fields)
              (fst (lambda_handler (Demo.world Demo.two_good_rows Demo.store_ok)
                                   (Demo.event_of Demo.request_fields) []))
              (snd (lambda_handler (Demo.world Demo.two_good_rows Demo.store_ok)
                                   (Demo.event_of Demo.request_fields) []))
              (surjective_pairing _) eq_refl)
    as (ctx & t1 & Hsetup & _ & Hd & _ & Hall).
  split; [|exact Hall].
  rewrite Hd, length_map.
  assert (Hctx : ctx = Demo.ctx Demo.two_good_rows).
  { assert (E : handler_setup (Demo.world Demo.two_good_rows Demo.store_ok)
                              (Demo.event_of Demo.request_fields) []
                = (inr (inr (Demo.ctx Demo.two_good_rows)), Demo.fetched))
      by reflexivity.
    rewrite E in Hsetup. now injection Hsetup as <- _. }
  rewrite Hctx. reflexivity.
Defined.

(** X4.  In an answer 207 the list [failed_recipients] is the list of the
    recipients of the audit items with status [FAILED], in the order in
    which the items were handed to the store, which is the order of the
    rows. *)
Theorem partial_success_lists_the_failed_audit_items
    (w : World) (event : dict) (r : response) (t : list effect) :
  lambda_handler w event [] = (r, t) ->
  statusCode r = 207%Z ->
  exists ctx t1 stamp token,
    handler_setup w event [] = (inr (inr ctx), t1)
    /\ map (dict_get "recipient_email") (put_items t) = map (dict_get "Email") (ctx_data ctx)
    /\ body r
       = json_dumps w
           (PDict (success_response (ctx_run_id ctx) stamp token
                   ++ [("failed_recipients",
                        PList (map (dict_get "recipient_email")
                                   (filter is_failed_item (put_items t))))])%list).
Proof.
  intros Hrun Hcode.
  destruct (lambda_handler_run w _ _ _ Hrun)
    as [([Hc | Hc] & _) | [(ctx & t1 & evs & e & _ & _ & -> & _)
                          | (ctx & t1 & evs & failed & Hsetup & Hloop & Hfin & ->)]];
    try (rewrite Hc in Hcode; discriminate); try discriminate.
  rewrite handler_finish_cases in Hfin. injection Hfin as <-.
  destruct failed as [|a failed]; [discriminate|].
  destruct (dispatch_loop_trace w ctx (ctx_data ctx) [] t1)
    as (evs' & Htrace & _ & _ & _ & _ & _ & _ & Hdone).
  rewrite Hloop in Htrace, Hdone. cbn [fst snd] in Htrace, Hdone.
  apply app_inv_head in Htrace. subst evs'.
  destruct (Hdone _ eq_refl) as (Hmap & _ & Hfailed). simpl in Hfailed.
  destruct (handler_setup_trace w _ _ _ _ Hsetup) as (evs0 & Ht1 & (_ & Hp0 & _) & _).
  simpl in Ht1. subst t1.
  do 4 eexists. split; [exact Hsetup|].
  rewrite !put_items_app, Hp0. simpl. rewrite !app_nil_r.
  split; [exact Hmap|]. rewrite <- Hfailed. reflexivity.
Qed.

Lemma partial_success_lists_the_failed_audit_items_witness :
  let w := Demo.world Demo.three_rows Demo.store_throttled in
  let run := lambda_handler w (Demo.event_of Demo.request_fields) [] in
  statusCode (fst run) = 207%Z
  /\ exists ctx t1 stamp token,
       handler_setup w (Demo.event_of Demo.request_fields) [] = (inr (inr ctx), t1)
       /\ map (dict_get "recipient_email") (put_items (snd run))
          = map (dict_get "Email") (ctx_data ctx)
       /\ body (fst run)
          = json_dumps w
              (PDict (success_response (ctx_run_id ctx) stamp token
                      ++ [("failed_recipients",
                           PList (map (dict_get "recipient_email")
                                      (filter is_failed_item (put_items (snd run)))))])%list).
Proof.
  split; [reflexivity|].
  apply (partial_success_lists_the_failed_audit_items
           (Demo.world Demo.three_rows Demo.store_throttled)
           (Demo.event_of Demo.request_fields)).
  - apply surjective_pairing.
  - reflexivity.
Defined.

(** X5.  Every audit item of a run carries one and the same run identifier:
    the [run_id] of the request when it is truthy, and otherwise the
    identifier generated when the request is read.  An answer 200 or 207
    reports that identifier as [request_id]. *)
Theorem run_identifier_is_shared
    (w : World) (event : dict) (d : dict) (r : response) (t : list effect) :
  json_loads w (dict_get_default "body" (PStr "{}") event) = inr (PDict d) ->
  lambda_handler w event [] = (r, t) ->
  let run_id := if py_truthy (dict_get "run_id" d) then dict_get "run_id" d
                else PStr (uuid4_hex w []) in
  Forall (fun item => dict_lookup "run_id" item = Some run_id) (put_items t)
  /\ (statusCode r = 200%Z \/ statusCode r = 207%Z ->
      exists stamp token rest,
        body r = json_dumps w (PDict (success_response run_id stamp token ++ rest)%list)).
Proof.
  intros Hbody Hrun run_id.
  destruct (lambda_handler_run w _ _ _ Hrun)
    as [(Hc & _ & Hp) | [(ctx & t1 & evs & e & Hsetup & Hloop & -> & ->)
                        | (ctx & t1 & evs & failed & Hsetup & Hloop & Hfin & ->)]].
  - rewrite Hp. split; [constructor|]. intros [H | H]; destruct Hc as [Hc | Hc];
      rewrite Hc in H; discriminate.
  - destruct (handler_setup_ok w _ _ _ _ Hsetup)
      as (d' & _ & Hbody' & _ & _ & Hid & _).
    rewrite Hbody in Hbody'. injection Hbody' as <-. fold run_id in Hid.
    destruct (handler_setup_trace w _ _ _ _ Hsetup) as (evs0 & Ht1 & (_ & Hp0 & _) & _).
    simpl in Ht1. subst t1.
    destruct (dispatch_loop_trace w ctx (ctx_data ctx) [] evs0) as (evs' & Htrace & Hall & _).
    rewrite Hloop in Htrace. cbn [snd] in Htrace. apply app_inv_head in Htrace. subst evs'.
    split.
    + rewrite !put_items_app, Hp0. simpl. rewrite app_nil_r.
      eapply Forall_impl; [|exact Hall]. intros item (H & _). now rewrite <- Hid.
    + simpl. intros [H | H]; discriminate.
  - destruct (handler_setup_ok w _ _ _ _ Hsetup)
      as (d' & _ & Hbody' & _ & _ & Hid & _).
    rewrite Hbody in Hbody'. injection Hbody' as <-. fold run_id in Hid.
    destruct (handler_setup_trace w _ _ _ _ Hsetup) as (evs0 & Ht1 & (_ & Hp0 & _) & _).
    simpl in Ht1. subst t1.
    destruct (dispatch_loop_trace w ctx (ctx_data ctx) [] evs0) as (evs' & Htrace & Hall & _).
    rewrite Hloop in Htrace. cbn [snd] in Htrace. apply app_inv_head in Htrace. subst evs'.
    split.
    + rewrite !put_items_app, Hp0. simpl. rewrite app_nil_r.
      eapply Forall_impl; [|exact Hall]. intros item (H & _). now rewrite <- Hid.
    + intros _. rewrite handler_finish_cases in Hfin. injection Hfin as <-.
      rewrite Hid. destruct failed; simpl.
      * do 2 eexists. exists []. reflexivity.
      * do 3 eexists. reflexivity.
Qed.

Lemma run_identifier_is_shared_witness :
  let w := Demo.world Demo.three_rows Demo.store_ok in
  let run := lambda_handler w (Demo.event_of Demo.request_fields) [] in
  Forall (fun item => dict_lookup "run_id" item = Some (PStr "run-42"))
         (put_items (snd run))
  /\ (statusCode (fst run) = 200%Z \/ statusCode (fst run) = 207%Z ->
      exists stamp token rest,
        body (fst run)
        = json_dumps w (PDict (success_response (PStr "run-42") stamp token ++ rest)%list)).
Proof.
  apply (run_identifier_is_shared
           (Demo.world Demo.three_rows Demo.store_ok)
           (Demo.event_of Demo.request_fields)
           (map (fun kv => (fst kv, PStr (snd kv))) Demo.request_fields)).
  - reflexivity.
  - apply surjective_pairing.
Defined.

(** The trace of a run starts with the trace of its setup. *)
Lemma lambda_handler_extends_setup w event :
  exists evs,
    snd (lambda_handler w event [])
    = (snd (handler_setup w event []) ++ evs)%list
    /\ (forall ctx, fst (handler_setup w event []) = inr (inr ctx) ->
        List.length (deliveries evs) <= List.length (ctx_data ctx)
        /\ List.length (put_items evs) <= List.length (ctx_data ctx)
        /\ Forall (fun d => exists row, In row (ctx_data ctx)
                                        /\ d = [dict_get "Email" row])
                  (deliveries evs)).
Proof.
  unfold lambda_handler, handler_body. unfold bind at 1.
  destruct (handler_setup w event []) as [[e|[early|ctx]] t1] eqn:Hsetup; cbn [fst snd].
  - eexists. split; [reflexivity|]. intros ctx H. discriminate.
  - exists []. rewrite app_nil_r. split; [reflexivity|]. intros ctx H. discriminate.
  - unfold handler_dispatch.
    destruct (validate_template (ctx_template_content ctx) (ctx_columns ctx)).
    2:{ exists []. rewrite app_nil_r. split; [reflexivity|].
        intros c H. injection H as <-. simpl. repeat split; auto; lia. }
    unfold bind at 1, ses_client.
    destruct (boto3_client_ses w t1 "ap-northeast-1") as [e|].
    { eexists. split; [reflexivity|].
      intros c H. injection H as <-. simpl. repeat split; auto; lia. }
    unfold bind.
    destruct (dispatch_loop_trace w ctx (ctx_data ctx) [] t1)
      as (evs & Htrace & _ & _ & Hp & Hd & Hto & _).
    destruct (dispatch_loop w ctx (ctx_data ctx) [] t1) as [[e|failed] t2];
      cbn [snd] in Htrace; subst t2.
    + eexists. split; [cbn [snd]; rewrite <- app_assoc; reflexivity|].
      intros c H. injection H as <-.
      rewrite deliveries_app, put_items_app, !length_app. simpl.
      rewrite !app_nil_r. repeat split; auto; lia.
    + rewrite handler_finish_cases. cbn [snd].
      eexists. split; [rewrite <- app_assoc; reflexivity|].
      intros c H. injection H as <-.
      rewrite deliveries_app, put_items_app, !length_app. simpl.
      rewrite !app_nil_r. repeat split; auto; lia.
Qed.

(** The trace of the loop splits into one segment per row it has started on,
    in row order. *)
Lemma dispatch_loop_segments w ctx rows :
  forall failed_recipients t,
  exists segs,
    snd (dispatch_loop w ctx rows failed_recipients t) = (t ++ List.concat segs)%list
    /\ List.length segs <= List.length rows
    /\ Forall2 row_segment (firstn (List.length segs) rows) segs.
Proof.
  induction rows as [|row rows IH]; intros failed_recipients t.
  - exists []. simpl. rewrite app_nil_r. repeat split; auto.
  - destruct (dispatch_row_trace w ctx row failed_recipients t)
      as (status & evs1 & Htrace & Hdel & _ & Hput & _).
    assert (Hseg : row_segment row evs1).
    { split.
      - destruct Hdel as [[_ H] | [_ [H | H]]]; auto.
      - destruct Hput as [H | (item & H & _ & _ & Hr)]; [left|right; exists item]; auto. }
    cbn [dispatch_loop]. unfold bind.
    destruct (dispatch_row w ctx row failed_recipients t) as [[e|l] t'] eqn:Hrow;
      cbn [snd] in Htrace; subst t'.
    + exists [evs1]. simpl. rewrite app_nil_r. split; [reflexivity|].
      split; [lia|]. constructor; auto.
    + destruct (IH l (t ++ evs1)%list) as (segs & Ht & Hlen & Hall).
      exists (evs1 :: segs). rewrite Ht. simpl. rewrite <- app_assoc.
      split; [reflexivity|]. split; [lia|]. constructor; auto.
Qed.

(** X6.  The events of a run that has fetched its template and table are:
    the events of the setup, which hold no delivery and no audit item; then
    one segment per row the loop has started on, in row order, each holding
    at most one message handed to SES, addressed to that row's [Email]
    entry, and at most one audit item, for that same entry; then events
    that hold neither.  So no row is handed to SES twice, and no row gets
    two audit items. *)
Theorem at_most_one_delivery_per_row
    (w : World) (event : dict) (ctx : run_ctx) (t1 : list effect) :
  handler_setup w event [] = (inr (inr ctx), t1) ->
  exists segs rest,
    snd (lambda_handler w event []) = (t1 ++ List.concat segs ++ rest)%list
    /\ deliveries t1 = [] /\ put_items t1 = []
    /\ deliveries rest = [] /\ put_items rest = []
    /\ List.length segs <= List.length (ctx_data ctx)
    /\ Forall2 row_segment (firstn (List.length segs) (ctx_data ctx)) segs.
Proof.
  intros Hsetup.
  destruct (handler_setup_trace w _ _ _ _ Hsetup) as (evs0 & Ht1 & (Hd0 & Hp0 & _) & _).
  simpl in Ht1. subst t1.
  unfold lambda_handler, handler_body. unfold bind at 1. rewrite Hsetup.
  unfold handler_dispatch.
  destruct (validate_template (ctx_template_content ctx) (ctx_columns ctx)).
  2:{ exists [], []. simpl. rewrite app_nil_r. repeat split; auto; lia. }
  unfold bind at 1, ses_client.
  destruct (boto3_client_ses w evs0 "ap-northeast-1") as [e|].
  { exists []. eexists. cbn [snd List.concat app]. split; [reflexivity|].
    simpl. repeat split; auto; lia. }
  unfold bind.
  destruct (dispatch_loop_segments w ctx (ctx_data ctx) [] evs0)
    as (segs & Htrace & Hlen & Hall).
  destruct (dispatch_loop w ctx (ctx_data ctx) [] evs0) as [[e|failed] t2];
    cbn [snd] in Htrace; subst t2.
  - exists segs. eexists. cbn [snd]. rewrite <- app_assoc. split; [reflexivity|].
    simpl. repeat split; auto.
  - rewrite handler_finish_cases. exists segs. eexists. cbn [snd].
    rewrite <- app_assoc. split; [reflexivity|]. simpl. repeat split; auto.
Qed.

Lemma at_most_one_delivery_per_row_witness :
  let w := Demo.world Demo.three_rows Demo.store_ok in
  exists segs rest,
    snd (lambda_handler w (Demo.event_of Demo.request_fields) [])
    = (Demo.fetched ++ List.concat segs ++ rest)%list
    /\ deliveries Demo.fetched = [] /\ put_items Demo.fetched = []
    /\ deliveries rest = [] /\ put_items rest = []
    /\ List.length segs <= 3
    /\ Forall2 row_segment (firstn (List.length segs) (df_records Demo.three_rows)) segs.
Proof.
  apply (at_most_one_delivery_per_row
           (Demo.world Demo.three_rows Demo.store_ok)
           (Demo.event_of Demo.request_fields)
           (Demo.ctx Demo.three_rows) Demo.fetched).
  reflexivity.
Defined.

(** X21.  A row whose [Email] entry is absent or falsy under Python's truth
    test ([None], the empty string, zero; not NaN) is not handed to the
    delivery provider: [send_email] logs the skip and returns status [FAILED] without
    calling SES; processing the row calls SES at no point, every audit item
    written for the row carries status [FAILED], and one such item is written
    as soon as the table handle can be built. *)
Theorem falsy_address_is_skipped_and_failed
    (w : World) (ctx : run_ctx) (row : dict) (failed_recipients : list pyval)
    (t : list effect) :
  py_truthy (dict_get "Email" row) = false ->
  let line := "No email address provided for "
              ++ py_str w (dict_get_default "Name" (PStr "Unknown") row)
              ++ ". Skipping..." in
  let t1 := (t ++ [EPrint line])%list in
  send_email w (ctx_email_title ctx) (ctx_template_content ctx) row
             (ctx_display_name ctx) t
  = (inr ("Failed", "FAILED"), t1)
  /\ exists evs,
       snd (dispatch_row w ctx row failed_recipients t) = (t ++ evs)%list
       /\ deliveries evs = []
       /\ Forall (fun item => item_status item = Some "FAILED") (put_items evs)
       /\ (dynamodb_Table w (t1 ++ [EUuid4; ENow])%list (environ w "DYNAMODB_TABLE") = None ->
           put_items evs = [row_item w ctx row "FAILED" t1]).
Proof.
  intros Hfalsy line t1.
  assert (Hsend : send_email w (ctx_email_title ctx) (ctx_template_content ctx) row
                             (ctx_display_name ctx) t
                  = (inr ("Failed", "FAILED"), t1)).
  { destruct (send_email_cases w (ctx_email_title ctx) (ctx_template_content ctx) row
                               (ctx_display_name ctx) t)
      as [[_ H] | [[Ht _] | [[Ht _] | [Ht _]]]]; try congruence. exact H. }
  split; [exact Hsend|].
  rewrite (dispatch_row_unfold w _ _ _ _ _ _ Hsend). cbn [snd].
  pose proof (save_to_dynamodb_cases w (ctx_run_id ctx) (uuid4_hex w t1)
                (ctx_display_name ctx) "FAILED" (dict_get "Email" row)
                (ctx_template_file_id ctx) (ctx_spreadsheet_id ctx)
                (strftime w TIME_FORMAT (now w (t1 ++ [EUuid4])%list))
                (t1 ++ [EUuid4; ENow])%list) as Hsave.
  cbv zeta in Hsave. fold (row_item w ctx row "FAILED" t1) in Hsave.
  destruct (dynamodb_Table w (t1 ++ [EUuid4; ENow])%list (environ w "DYNAMODB_TABLE"))
    as [e|].
  { rewrite Hsave. subst t1. eexists. split.
    { simpl. rewrite <- !app_assoc. reflexivity. }
    simpl. repeat split; auto. discriminate. }
  destruct (put_item w _ _ _) as [e|].
  - destruct (is_client_error e); rewrite Hsave; subst t1; eexists;
      (split; [simpl; rewrite <- !app_assoc; reflexivity|]);
      simpl; repeat split; auto.
  - rewrite Hsave; subst t1; eexists;
      (split; [simpl; rewrite <- !app_assoc; reflexivity|]);
      simpl; repeat split; auto.
Qed.

Lemma falsy_address_is_skipped_and_failed_witness :
  let w := Demo.world Demo2.no_address_column Demo.store_ok in
  let ctx := Demo.ctx Demo2.no_address_column in
  let row := [("Name", PStr "Bob"); ("Seat", PStr "B2")] in
  py_truthy (dict_get "Email" row) = false
  /\ send_email w (ctx_email_title ctx) (ctx_template_content ctx) row
                (ctx_display_name ctx) Demo.fetched
     = (inr ("Failed", "FAILED"),
        (Demo.fetched ++ [EPrint "No email address provided for Bob. Skipping..."])%list)
  /\ exists evs,
       snd (dispatch_row w ctx row [] Demo.fetched) = (Demo.fetched ++ evs)%list
       /\ deliveries evs = []
       /\ Forall (fun item => item_status item = Some "FAILED") (put_items evs)
       /\ (dynamodb_Table w
             ((Demo.fetched ++ [EPrint "No email address provided for Bob. Skipping..."])
              ++ [EUuid4; ENow])%list (environ w "DYNAMODB_TABLE") = None ->
           put_items evs
           = [row_item w ctx row "FAILED"
                (Demo.fetched
                 ++ [EPrint "No email address provided for Bob. Skipping..."])%list]).
Proof.
  split; [reflexivity|].
  apply (falsy_address_is_skipped_and_failed
           (Demo.world Demo2.no_address_column Demo.store_ok)
           (Demo.ctx Demo2.no_address_column)
           [("Name", PStr "Bob"); ("Seat", PStr "B2")] [] Demo.fetched).
  reflexivity.
Defined.


(** X7.  A request body that is valid JSON but not an object (a list, a string,
    a number, [null]) is not rejected with 400: reading the first field
    raises [AttributeError], and the run is answered 500 with that message,
    before any collaborator is called. *)
Theorem body_that_is_not_an_object_is_answered_500
    (w : World) (event : dict) (v : pyval) :
  json_loads w (dict_get_default "body" (PStr "{}") event) = inr v ->
  (forall d, v <> PDict d) ->
  let message := "'" ++ py_type_name v ++ "' object has no attribute 'get'" in
  lambda_handler w event []
  = ({| statusCode := 500;
        body := json_dumps w (PStr ("Internal server error: " ++ message)) |},
     [EPrint ("Error in lambda_handler: " ++ message)]).
Proof.
  intros Hbody Hv message.
  unfold lambda_handler, handler_body, handler_setup. unfold bind at 1 2.
  rewrite Hbody. cbn [lift ret].
  destruct v; try reflexivity. now destruct (Hv d).
Qed.

Lemma body_that_is_not_an_object_is_answered_500_witness :
  let w := Demo2.reading_arrays (Demo.world Demo.three_rows Demo.store_ok) in
  let event := [("body", PStr "[]")] in
  lambda_handler w event []
  = ({| statusCode := 500;
        body := json_dumps w
                  (PStr "Internal server error: 'list' object has no attribute 'get'") |},
     [EPrint "Error in lambda_handler: 'list' object has no attribute 'get'"]).
Proof.
  apply (body_that_is_not_an_object_is_answered_500
           (Demo2.reading_arrays (Demo.world Demo.three_rows Demo.store_ok))
           [("body", PStr "[]")] (PList [])).
  - reflexivity.
  - discriminate.
Defined.

(** X8.  What decides the early rejection is truthiness, not presence.  When
    one of the four required fields is falsy (absent, [null], the empty
    string, zero, [false], an empty list or object) the handler answers 400
    without calling a collaborator; when all four are truthy it goes on, and
    the first collaborator it calls is S3, for the template. *)
Theorem request_is_rejected_iff_a_field_is_falsy
    (w : World) (event : dict) (d : dict) :
  json_loads w (dict_get_default "body" (PStr "{}") event) = inr (PDict d) ->
  let falsy := negb (py_truthy (dict_get "template_file_id" d))
               || negb (py_truthy (dict_get "spreadsheet_file_id" d))
               || negb (py_truthy (dict_get "subject" d))
               || negb (py_truthy (dict_get "display_name" d)) in
  let run := lambda_handler w event [] in
  (falsy = true ->
   fst run = {| statusCode := 400; body := json_dumps w (PStr missing_fields_message) |}
   /\ collaborator_calls (snd run) = [])
  /\ (falsy = false ->
      exists rest,
        collaborator_calls (snd run)
        = ES3GetObject (environ w "BUCKET_NAME") (dict_get "template_file_id" d) :: rest).
Proof.
  intros Hbody falsy run. split; intros Hfalsy.
  - assert (E : lambda_handler w event []
                = ({| statusCode := 400;
                      body := json_dumps w (PStr missing_fields_message) |},
                   if py_truthy (dict_get "run_id" d) then [] else [EUuid4])).
    { unfold lambda_handler, handler_body. unfold bind at 1.
      rewrite (handler_setup_request w _ _ _ Hbody). fold falsy. rewrite Hfalsy.
      reflexivity. }
    subst run. rewrite E.
    destruct (py_truthy (dict_get "run_id" d)); split; reflexivity.
  - destruct (lambda_handler_extends_setup w event) as (evs & Ht & _).
    subst run. rewrite Ht. clear Ht.
    rewrite (handler_setup_request w _ _ _ Hbody). fold falsy. rewrite Hfalsy.
    cbv iota. change ([] ++ [EUuid4])%list with [EUuid4].
    set (t0 := if py_truthy (dict_get "run_id" d) then [] else [EUuid4]).
    assert (Ht0 : collaborator_calls t0 = [])
      by (subst t0; destruct (py_truthy (dict_get "run_id" d)); reflexivity).
    unfold bind at 1.
    pose proof (get_template_cases w (dict_get "template_file_id" d) t0) as Hg.
    unfold collaborator_calls in *.
    destruct (s3_get_object w t0 _ (dict_get "template_file_id" d)) as [e|bytes].
    { rewrite Hg. cbn [snd]. rewrite !filter_app, Ht0. simpl. eauto. }
    destruct (decode_utf8 w bytes) as [e|text]; rewrite Hg.
    { cbn [snd]. rewrite !filter_app, Ht0. simpl. eauto. }
    match goal with
    | |- context [bind ?m ?k ?tr] =>
        assert (Hext : exists evs', snd (bind m k tr) = (tr ++ evs')%list)
    end.
    { unfold bind at 1.
      match goal with
      | |- context [read_sheet_data_from_s3 w ?k ?tr] =>
          pose proof (read_sheet_data_from_s3_cases w k tr) as Hs;
          destruct (s3_get_object w tr (environ w "BUCKET_NAME") k) as [e|xlsx]
      end.
      { rewrite Hs. cbn [snd]. eauto. }
      destruct (pd_read_excel w xlsx) as [e|df]; rewrite Hs.
      { cbn [snd]. eauto. }
      unfold bind, unpack_pair, raise, ret. destruct (df_empty df); cbn [snd]; eauto. }
    destruct Hext as (evs' & ->).
    rewrite !filter_app, Ht0. simpl. eauto.
Qed.

Lemma request_is_rejected_iff_a_field_is_falsy_witness :
  let w := Demo.world Demo.three_rows Demo.store_ok in
  let run := lambda_handler w (Demo.event_of Demo.request_fields) [] in
  exists rest,
    collaborator_calls (snd run)
    = ES3GetObject (Some "tpet-files") (PStr Demo.template_key) :: rest.
Proof.
  apply (request_is_rejected_iff_a_field_is_falsy
           (Demo.world Demo.three_rows Demo.store_ok)
           (Demo.event_of Demo.request_fields)
           (map (fun kv => (fst kv, PStr (snd kv))) Demo.request_fields)
           eq_refl).
  reflexivity.
Defined.

(** X9.  For every request with the four fields truthy whose template is
    fetched and decoded and whose table is fetched and parsed, a table
    without rows or without columns ends the run with the answer 500 and the
    message of the failed unpacking; the trace holds the two S3 reads and
    the log line, no delivery and no audit item. *)
Theorem empty_table_is_always_answered_500
    (w : World) (event : dict) (d : dict) (bytes text xlsx : string)
    (excel_data : DataFrame) :
  json_loads w (dict_get_default "body" (PStr "{}") event) = inr (PDict d) ->
  py_truthy (dict_get "template_file_id" d) = true ->
  py_truthy (dict_get "spreadsheet_file_id" d) = true ->
  py_truthy (dict_get "subject" d) = true ->
  py_truthy (dict_get "display_name" d) = true ->
  let bucket := environ w "BUCKET_NAME" in
  let t0 := if py_truthy (dict_get "run_id" d) then [] else [EUuid4] in
  let t1 := (t0 ++ [ES3GetObject bucket (dict_get "template_file_id" d)])%list in
  s3_get_object w t0 bucket (dict_get "template_file_id" d) = inr bytes ->
  decode_utf8 w bytes = inr text ->
  s3_get_object w t1 bucket (dict_get "spreadsheet_file_id" d) = inr xlsx ->
  pd_read_excel w xlsx = inr excel_data ->
  df_records excel_data = [] \/ df_columns excel_data = [] ->
  lambda_handler w event []
  = ({| statusCode := 500;
        body := json_dumps w
                  (PStr "Internal server error: too many values to unpack (expected 2)") |},
     (t1 ++ [ES3GetObject bucket (dict_get "spreadsheet_file_id" d);
             EPrint "Error in lambda_handler: too many values to unpack (expected 2)"])%list).
Proof.
  intros Hbody H1 H2 H3 H4 bucket t0 t1 Hget Hdec Hget2 Hread Hempty.
  unfold lambda_handler, handler_body. unfold bind at 1.
  rewrite (handler_setup_request w _ _ _ Hbody). rewrite H1, H2, H3, H4. cbn [negb orb].
  cbv iota. change ([] ++ [EUuid4])%list with [EUuid4]. fold t0. unfold bind at 1.
  pose proof (get_template_cases w (dict_get "template_file_id" d) t0) as Hg.
  fold bucket in Hg. rewrite Hget, Hdec in Hg. rewrite Hg. fold t1.
  unfold bind at 1.
  pose proof (read_sheet_data_from_s3_cases w (dict_get "spreadsheet_file_id" d) t1) as Hs.
  fold bucket in Hs. rewrite Hget2, Hread in Hs. rewrite Hs.
  assert (He : df_empty excel_data = true).
  { unfold df_empty. destruct Hempty as [-> | ->]; simpl; auto using orb_true_r. }
  rewrite He. unfold bind, unpack_pair, raise. unfold internal_error_response. simpl.
  rewrite <- app_assoc. reflexivity.
Qed.

Lemma empty_table_is_always_answered_500_witness :
  let w := Demo.world Demo.no_rows Demo.store_ok in
  lambda_handler w (Demo.event_of Demo.request_fields) []
  = ({| statusCode := 500;
        body := json_dumps w
                  (PStr "Internal server error: too many values to unpack (expected 2)") |},
     (Demo.fetched
      ++ [EPrint "Error in lambda_handler: too many values to unpack (expected 2)"])%list).
Proof.
  apply (empty_table_is_always_answered_500
           (Demo.world Demo.no_rows Demo.store_ok)
           (Demo.event_of Demo.request_fields)
           (map (fun kv => (fst kv, PStr (snd kv))) Demo.request_fields)
           Demo.template_text Demo.template_text "PK" Demo.no_rows);
    try reflexivity.
  left. reflexivity.
Defined.

(** ** Sending one message *)

(** X10.  [send_email] always returns, with status [SUCCESS] or [FAILED].  The
    status is [SUCCESS] exactly when the row has a truthy [Email], the
    template could be filled in from the row and SES accepted the message;
    SES is called exactly when the first two hold, and then once, for that
    one address. *)
Theorem send_email_succeeds_iff_ses_accepts
    (w : World) (email_title : pyval) (template_content : string) (row : dict)
    (display_name : pyval) (t : list effect) :
  let receiver_email := dict_get "Email" row in
  let template := re_sub (remove_cr template_content) in
  let source := py_str w display_name ++ " <awseducate.cloudambassador@gmail.com>" in
  exists sent evs,
    send_email w email_title template_content row display_name t
    = (inr sent, (t ++ evs)%list)
    /\ (snd sent = "SUCCESS" \/ (sent = ("Failed", "FAILED")))
    /\ (snd sent = "SUCCESS" <->
        py_truthy receiver_email = true
        /\ exists content,
             str_format w template row = inr content
             /\ ses_send_email w t source [receiver_email] email_title content = None)
    /\ (deliveries evs <> [] <->
        py_truthy receiver_email = true
        /\ exists content, str_format w template row = inr content)
    /\ (deliveries evs = [] \/ deliveries evs = [[receiver_email]]).
Proof.
  cbv zeta.
  pose proof (send_email_cases w email_title template_content row display_name t) as H.
  cbv zeta in H.
  change (" <" ++ "awseducate.cloudambassador@gmail.com" ++ ">")
    with " <awseducate.cloudambassador@gmail.com>" in H.
  destruct H
    as [[Hf ->] | [[Ht (e & Hfmt & ->)]
                  | [[Ht (c & e & Hfmt & Hses & ->)] | [Ht (c & Hfmt & Hses & ->)]]]];
    eexists; eexists; (split; [reflexivity|]); cbn [snd deliveries].
  - split; [auto|]. split; [|split; [|auto]].
    + split; [discriminate|]. intros [H _]. congruence.
    + split; [congruence|]. intros [H _]. congruence.
  - split; [auto|]. split; [|split; [|auto]].
    + split; [discriminate|]. intros [_ (c & H & _)]. congruence.
    + split; [congruence|]. intros [_ (c & H)]. congruence.
  - split; [auto|]. split; [|split; [|auto]].
    + split; [discriminate|]. intros [_ (c' & H & H')].
      assert (c' = c) by congruence. subst c'. congruence.
    + split; [eauto|discriminate].
  - split; [auto|]. split; [|split; [|auto]].
    + split; eauto.
    + split; [eauto|discriminate].
Qed.

(** X11.  The handler answers every event, with status 200, 207, 400 or 500 and
    nothing else. *)
Theorem lambda_handler_status_codes (w : World) (event : dict) (t : list effect) :
  let r := fst (lambda_handler w event t) in
  statusCode r = 200%Z \/ statusCode r = 207%Z
  \/ statusCode r = 400%Z \/ statusCode r = 500%Z.
Proof.
  intros r.
  destruct (lambda_handler_cases w event t r (snd (lambda_handler w event t))
              (surjective_pairing _))
    as [[H _] | [[H _] | [[H _] | [H _]]]]; auto.
Qed.

(** ** The scan of the template *)

Lemma re_scan_rebuild off s : rebuild (re_scan off s) = s.
Proof.
  funelim (re_scan off s); simpl.
  - reflexivity.
  - match goal with IH : rebuild _ = _ |- _ => rewrite IH end.
    destruct (match_placeholder_token _ _ _ Heq) as (Hs & _). now rewrite Hs.
  - match goal with IH : rebuild _ = _ |- _ => now rewrite IH end.
Qed.

Lemma expand_length l :
  String.length (expand l) + 2 * List.length (holes l) = String.length (rebuild l).
Proof.
  induction l as [|[c|off g] l IH]; simpl.
  - reflexivity.
  - lia.
  - repeat first [rewrite append_length | progress simpl]. lia.
Qed.

Lemma expand_without_holes l : holes l = [] -> expand l = rebuild l.
Proof.
  induction l as [|[c|off g] l IH]; simpl; intros H.
  - reflexivity.
  - now rewrite IH.
  - discriminate.
Qed.

(** X12.  The scan loses nothing of the template: putting each match back
    between doubled braces gives the template again.  So [re.sub] with
    [{\1}] changes the text only at the placeholders, where it drops one
    brace on each side: the result is two characters shorter for every
    placeholder, and a template without placeholders is returned as it
    is. *)
Theorem re_sub_only_rewrites_placeholders (s : string) :
  rebuild (re_scan 0 s) = s
  /\ String.length (re_sub s) + 2 * List.length (re_findall s) = String.length s
  /\ (re_findall s = [] -> re_sub s = s).
Proof.
  split; [apply re_scan_rebuild|]. split.
  - unfold re_sub, re_findall, re_finditer. rewrite length_map, expand_length.
    now rewrite re_scan_rebuild.
  - unfold re_sub, re_findall, re_finditer. intros H.
    apply map_eq_nil in H. rewrite (expand_without_holes _ H). apply re_scan_rebuild.
Qed.

Lemma contains_spec p s :
  contains p s = true <-> exists a b, s = a ++ p ++ b.
Proof.
  induction s as [|c s IH].
  - simpl. rewrite orb_false_r, starts_with_spec. split.
    + intros [r H]. exists EmptyString, r. exact H.
    + intros ([|c a] & b & H); [|discriminate]. exists b. exact H.
  - cbn [contains]. rewrite orb_true_iff, starts_with_spec, IH. split.
    + intros [[r H] | (a & b & H)].
      * exists EmptyString, r. exact H.
      * exists (String c a), b. simpl. now rewrite H.
    + intros ([|c' a] & b & H).
      * left. exists b. exact H.
      * right. simpl in H. injection H as _ H. eauto.
Qed.

(** X13.  A placeholder name found by the scan holds no line feed and no pair
    of closing braces. *)
Theorem placeholder_names_are_clean (s : string) :
  Forall (fun name => no_newline name = true /\ contains close2 name = false)
         (re_findall s).
Proof.
  apply Forall_forall. intros name Hin.
  unfold re_findall in Hin. apply in_map_iff in Hin. destruct Hin as [[off g] [<- Hin]].
  cbn [snd].
  assert (Htok : exists s' rest, placeholder_token s' g rest).
  { pose proof (re_scan_Placeholders 0 s) as HP. fold (re_finditer s) in HP.
    revert Hin. induction HP as [off0 | off0 s0 g0 rest l Htok _ IH | off0 c s0 l _ _ IH];
      intros Hin.
    - destruct Hin.
    - destruct Hin as [H | H]; [injection H as <- <-; eauto | auto].
    - auto. }
  destruct Htok as (s' & rest & Hs & Hn & Hmin). split; [exact Hn|].
  destruct (contains close2 g) eqn:Hc; [|reflexivity]. exfalso.
  apply contains_spec in Hc. destruct Hc as (a & b & Hg).
  assert (Hlen : String.length g <= String.length a).
  { apply (Hmin a (b ++ close2 ++ rest)). rewrite Hs, Hg.
    rewrite !append_assoc. reflexivity. }
  rewrite Hg in Hlen. rewrite !append_length in Hlen. simpl in Hlen. lia.
Qed.

(** * Properties of the listing service *)
Module ListFilesProofs.
Import ListFiles.

(** ** The order of strings *)

Lemma ascii_compare_refl a : Ascii.compare a a = Eq.
Proof. unfold Ascii.compare. apply N.compare_refl. Qed.

Lemma ascii_compare_trans a b c r :
  Ascii.compare a b = r -> Ascii.compare b c = r -> Ascii.compare a c = r.
Proof.
  unfold Ascii.compare. destruct r; intros H1 H2.
  - apply N.compare_eq_iff in H1, H2. apply N.compare_eq_iff. congruence.
  - apply N.compare_lt_iff in H1, H2. apply N.compare_lt_iff.
    eapply N.lt_trans; eauto.
  - apply N.compare_gt_iff in H1, H2. apply N.compare_gt_iff.
    eapply N.lt_trans; eauto.
Qed.

Lemma compare_refl s : String.compare s s = Eq.
Proof. induction s; simpl; auto. now rewrite ascii_compare_refl. Qed.

Lemma compare_lt_trans a : forall b c,
  String.compare a b = Lt -> String.compare b c = Lt -> String.compare a c = Lt.
Proof.
  induction a as [|x a IH]; intros [|y b] [|z c]; simpl; try discriminate; auto.
  destruct (Ascii.compare x y) eqn:Hxy; try discriminate;
    destruct (Ascii.compare y z) eqn:Hyz; try discriminate; intros H1 H2.
  - rewrite (ascii_compare_trans _ _ _ _ Hxy Hyz). eauto.
  - apply Ascii.compare_eq_iff in Hxy. subst y. now rewrite Hyz.
  - apply Ascii.compare_eq_iff in Hyz. subst z. now rewrite Hxy.
  - now rewrite (ascii_compare_trans _ _ _ _ Hxy Hyz).
Qed.

Lemma str_le_refl a : str_le a a.
Proof. unfold str_le, String.ltb. now rewrite compare_refl. Qed.

Lemma str_le_total a b : str_le a b \/ str_le b a.
Proof.
  unfold str_le, String.ltb. rewrite (String.compare_antisym a b).
  destruct (String.compare b a); simpl; auto.
Qed.

Lemma not_str_le a b : String.ltb a b = true -> str_le a b.
Proof.
  unfold str_le, String.ltb. rewrite (String.compare_antisym a b).
  destruct (String.compare b a); simpl; auto; discriminate.
Qed.

Lemma str_le_trans a b c : str_le a b -> str_le b c -> str_le a c.
Proof.
  unfold str_le, String.ltb. intros H1 H2.
  destruct (String.compare c a) eqn:Hca; auto. exfalso.
  destruct (String.compare b a) eqn:Hba; try discriminate.
  - apply String.compare_eq_iff in Hba. subst b. rewrite Hca in H2. discriminate.
  - destruct (String.compare c b) eqn:Hcb; try discriminate.
    + apply String.compare_eq_iff in Hcb. subst c. congruence.
    + assert (Hab : String.compare a b = Lt).
      { rewrite String.compare_antisym, Hba. reflexivity. }
      assert (Hbc : String.compare b c = Lt).
      { rewrite String.compare_antisym, Hcb. reflexivity. }
      pose proof (compare_lt_trans _ _ _ Hca Hab) as H. congruence.
Qed.

(** ** The stable sort *)

Lemma insert_keyed_perm p l : Permutation (insert_keyed p l) (p :: l).
Proof.
  induction l as [|q l IH]; simpl; auto.
  destruct (String.ltb (fst q) (fst p)); auto.
  rewrite IH. apply perm_swap.
Qed.

Lemma sort_keyed_perm l : Permutation (sort_keyed l) l.
Proof.
  induction l as [|p l IH]; simpl; auto.
  rewrite insert_keyed_perm. now constructor.
Qed.

Lemma insert_keyed_sorted p l :
  StronglySorted keyed_le l -> StronglySorted keyed_le (insert_keyed p l).
Proof.
  induction 1 as [|q l Hs IH Hq]; simpl.
  - repeat constructor.
  - destruct (String.ltb (fst q) (fst p)) eqn:E.
    + constructor; auto.
      eapply Permutation_Forall; [symmetry; apply insert_keyed_perm|].
      constructor; auto. apply not_str_le. exact E.
    + constructor; [constructor; auto|].
      constructor; [exact E|].
      eapply Forall_impl; [|exact Hq]. intros r Hr.
      eapply str_le_trans; [exact E|exact Hr].
Qed.

Lemma sort_keyed_sorted l : StronglySorted keyed_le (sort_keyed l).
Proof.
  induction l; simpl; [constructor | now apply insert_keyed_sorted].
Qed.

Lemma insert_keyed_stable k p l :
  filter (fun q => String.eqb (fst q) k) (insert_keyed p l)
  = filter (fun q => String.eqb (fst q) k) (p :: l).
Proof.
  induction l as [|q l IH]; [reflexivity|].
  cbn [insert_keyed]. destruct (String.ltb (fst q) (fst p)) eqn:E; [|reflexivity].
  cbn [filter] in *. rewrite IH.
  destruct (String.eqb (fst p) k) eqn:Ep; [|reflexivity].
  destruct (String.eqb (fst q) k) eqn:Eq; [|reflexivity].
  apply String.eqb_eq in Ep, Eq. rewrite Ep, Eq in E.
  unfold String.ltb in E. rewrite compare_refl in E. discriminate.
Qed.

Lemma sort_keyed_stable k l :
  filter (fun q => String.eqb (fst q) k) (sort_keyed l)
  = filter (fun q => String.eqb (fst q) k) l.
Proof.
  induction l as [|p l IH]; [reflexivity|].
  cbn [sort_keyed]. rewrite insert_keyed_stable. cbn [filter]. now rewrite IH.
Qed.

Lemma StronglySorted_snoc {A : Type} (R : A -> A -> Prop) l a :
  StronglySorted R l -> Forall (fun x => R x a) l -> StronglySorted R (l ++ [a]).
Proof.
  induction 1 as [|b l Hs IH Hb]; intros Ha; simpl.
  - repeat constructor.
  - inversion Ha; subst. constructor; auto.
    apply Forall_app. split; auto.
Qed.

Lemma StronglySorted_rev {A : Type} (R : A -> A -> Prop) l :
  StronglySorted R l -> StronglySorted (fun x y => R y x) (rev l).
Proof.
  induction 1 as [|a l Hs IH Ha]; simpl; [constructor|].
  apply StronglySorted_snoc; auto. now apply Forall_rev.
Qed.

(** ** Sorting items by a string key *)

Lemma keyed_by_agree k files : keys_agree k (keyed_by k files).
Proof. apply Forall_forall. intros p Hp. apply in_map_iff in Hp.
       destruct Hp as (x & <- & _). reflexivity. Qed.

Lemma map_snd_keyed_by k files : map snd (keyed_by k files) = files.
Proof. unfold keyed_by. rewrite map_map. simpl. apply map_id. Qed.

Lemma keys_agree_sorted k (R : string -> string -> Prop) l :
  keys_agree k l ->
  StronglySorted (fun p q => R (fst p) (fst q)) l ->
  StronglySorted (fun x y => R (str_key k x) (str_key k y)) (map snd l).
Proof.
  intros Hagree. induction 1 as [|p l Hs IH Hp]; simpl; [constructor|].
  inversion Hagree as [|? ? Hpk Hl]; subst. constructor; auto.
  apply Forall_map. rewrite Forall_forall in *. intros q Hq.
  rewrite <- Hpk, <- (Hl q Hq). auto.
Qed.

Lemma keys_agree_filter k s l :
  keys_agree k l ->
  filter (fun x => String.eqb (str_key k x) s) (map snd l)
  = map snd (filter (fun p => String.eqb (fst p) s) l).
Proof.
  induction 1 as [|p l Hp _ IH]; simpl; [reflexivity|].
  rewrite <- Hp. destruct (String.eqb (fst p) s); simpl; congruence.
Qed.

Lemma sort_keys_of_string k files :
  sort_keys (PStr k) files
  = inr (map (fun x => match item_lookup k x with
                       | Some v => v
                       | None => AStr EmptyString
                       end) files).
Proof. induction files as [|x files IH]; simpl; [reflexivity|]. now rewrite IH. Qed.

Lemma all_strings_of_string_keys k files :
  forallb (has_string_key k) files = true ->
  all_strings (map (fun x => match item_lookup k x with
                             | Some v => v
                             | None => AStr EmptyString
                             end) files)
  = Some (map (str_key k) files).
Proof.
  induction files as [|x files IH]; simpl; [reflexivity|].
  rewrite andb_true_iff. intros [Hx Hrest]. rewrite (IH Hrest).
  unfold has_string_key, str_key in *.
  destruct (item_lookup k x) as [[]|]; try discriminate; reflexivity.
Qed.

Lemma combine_keys k files : combine (map (str_key k) files) files = keyed_by k files.
Proof. induction files; simpl; congruence. Qed.

(** [list.sort] on items whose keys are all strings. *)
Lemma py_sort_by_string_keys env k reverse files keys :
  sort_keys (PStr k) files = inr keys ->
  forallb (has_string_key k) files = true ->
  exists sorted,
    py_sort env keys reverse files = inr sorted
    /\ Permutation sorted files
    /\ StronglySorted (in_order reverse k) sorted
    /\ forall s, filter (fun x => String.eqb (str_key k x) s) sorted
                 = filter (fun x => String.eqb (str_key k x) s) files.
Proof.
  intros Hkeys Hall. rewrite sort_keys_of_string in Hkeys. injection Hkeys as <-.
  destruct files as [|x [|y files]].
  - exists []. repeat split; auto. constructor.
  - exists [x]. repeat split; auto. repeat constructor.
  - set (l := x :: y :: files) in *.
    assert (Hsort : py_sort env (map (fun x => match item_lookup k x with
                                               | Some v => v
                                               | None => AStr EmptyString
                                               end) l) reverse l
                    = inr (map snd (if reverse
                                    then rev (sort_keyed (rev (keyed_by k l)))
                                    else sort_keyed (keyed_by k l)))).
    { unfold py_sort. cbv zeta. rewrite (all_strings_of_string_keys _ _ Hall).
      rewrite combine_keys. reflexivity. }
    rewrite Hsort. eexists. split; [reflexivity|].
    pose proof (keyed_by_agree k l) as Hagree.
    destruct reverse.
    + assert (Hperm : Permutation (rev (sort_keyed (rev (keyed_by k l)))) (keyed_by k l)).
      { rewrite <- Permutation_rev, sort_keyed_perm, <- Permutation_rev. reflexivity. }
      assert (Hagree' : keys_agree k (rev (sort_keyed (rev (keyed_by k l))))).
      { eapply Permutation_Forall; [symmetry; exact Hperm|exact Hagree]. }
      split; [|split].
      * rewrite <- (map_snd_keyed_by k l) at 2. now apply Permutation_map.
      * apply (keys_agree_sorted k (fun a b => str_le b a) _ Hagree').
        apply (StronglySorted_rev keyed_le). apply sort_keyed_sorted.
      * intros s. rewrite (keys_agree_filter _ _ _ Hagree').
        rewrite filter_rev, sort_keyed_stable, filter_rev, rev_involutive.
        rewrite <- (keys_agree_filter _ _ _ Hagree), map_snd_keyed_by. reflexivity.
    + assert (Hperm : Permutation (sort_keyed (keyed_by k l)) (keyed_by k l))
        by apply sort_keyed_perm.
      assert (Hagree' : keys_agree k (sort_keyed (keyed_by k l))).
      { eapply Permutation_Forall; [symmetry; exact Hperm|exact Hagree]. }
      split; [|split].
      * rewrite <- (map_snd_keyed_by k l) at 2. now apply Permutation_map.
      * apply (keys_agree_sorted k str_le _ Hagree'). apply sort_keyed_sorted.
      * intros s. rewrite (keys_agree_filter _ _ _ Hagree'), sort_keyed_stable.
        rewrite <- (keys_agree_filter _ _ _ Hagree), map_snd_keyed_by. reflexivity.
Qed.

(** ** Splitting the list of extensions *)

Lemma split_comma_nonempty s : split_comma s <> [].
Proof.
  destruct s as [|c s]; simpl; [discriminate|].
  destruct (Ascii.eqb c ","); [discriminate|].
  destruct (split_comma s); discriminate.
Qed.

(** X14.  [split(",")] in the model of the handler: joining the pieces with
    commas gives the text back, there is always at least one piece (the
    handler's [filter_expressions[0]] exists), no piece holds a comma, and
    there is one piece more than there are commas. *)
Theorem split_comma_round_trip (s : string) :
  String.concat "," (split_comma s) = s
  /\ split_comma s <> []
  /\ Forall (fun piece => contains "," piece = false) (split_comma s).
Proof.
  split; [|split; [apply split_comma_nonempty|]].
  - induction s as [|c s IH]; [reflexivity|].
    cbn [split_comma]. pose proof (split_comma_nonempty s) as Hne.
    destruct (split_comma s) as [|p ps]; [now destruct Hne|].
    destruct (Ascii.eqb c ",") eqn:E.
    + apply Ascii.eqb_eq in E. subst c.
      change (String.concat "," (EmptyString :: p :: ps))
        with ("," ++ String.concat "," (p :: ps)).
      now rewrite IH.
    + destruct ps as [|p' ps].
      * simpl in *. now rewrite IH.
      * change (String.concat "," (String c p :: p' :: ps))
          with (String c (p ++ "," ++ String.concat "," (p' :: ps))).
        change (String.concat "," (p :: p' :: ps))
          with (p ++ "," ++ String.concat "," (p' :: ps)) in IH.
        now rewrite IH.
  - induction s as [|c s IH]; [repeat constructor|].
    cbn [split_comma]. destruct (Ascii.eqb c ",") eqn:E.
    + constructor; auto.
    + pose proof (split_comma_nonempty s) as Hne.
      destruct (split_comma s) as [|p ps]; [now destruct Hne|].
      inversion IH as [|? ? Hp Hps]; subst. constructor; auto.
      cbn [contains starts_with]. rewrite Ascii.eqb_sym in E. rewrite E. simpl.
      exact Hp.
Qed.

(** ** The filter expression *)

Lemma disjuncts_fold_left others : forall first,
  disjuncts (fold_left Or others first)
  = (disjuncts first ++ flat_map disjuncts others)%list.
Proof.
  induction others as [|c others IH]; intros first; simpl.
  - now rewrite app_nil_r.
  - rewrite IH. simpl. now rewrite app_assoc.
Qed.

Lemma matches_disjuncts c x :
  matches c x = existsb (fun nv => matches (AttrEq (fst nv) (snd nv)) x) (disjuncts c).
Proof.
  induction c as [name value|a IHa b IHb].
  - simpl. now rewrite orb_false_r.
  - change (matches (Or a b) x) with (matches a x || matches b x).
    change (disjuncts (Or a b)) with (disjuncts a ++ disjuncts b)%list.
    rewrite existsb_app, <- IHa, <- IHb. reflexivity.
Qed.

(** X15.  For a non-empty text [s] as [file_extension], the filter handed to
    the scan tests the attribute [file_extension] for equality with each
    comma-separated piece of [s], in order, and nothing else: an item passes
    it exactly when its [file_extension] is a string that is one of the
    pieces.  A falsy [file_extension] gives no filter. *)
Theorem filter_tests_the_listed_extensions (s : string) :
  s <> EmptyString ->
  exists f,
    filter_stage (PStr s) = inr (Some f)
    /\ disjuncts f = map (fun ext => ("file_extension", ext)) (split_comma s)
    /\ forall x,
         matches f x = true <->
         exists ext, In ext (split_comma s)
                     /\ item_lookup "file_extension" x = Some (AStr ext).
Proof.
  intros Hs. unfold filter_stage.
  assert (Ht : py_truthy (PStr s) = true) by (destruct s; [now destruct Hs|reflexivity]).
  rewrite Ht. unfold filter_of. cbv zeta.
  pose proof (split_comma_nonempty s) as Hne.
  destruct (split_comma s) as [|p ps] eqn:Hsplit; [now destruct Hne|].
  cbn [map]. eexists. split; [reflexivity|].
  assert (Hd : disjuncts (fold_left Or (map (AttrEq "file_extension") ps)
                                    (AttrEq "file_extension" p))
               = map (fun ext => ("file_extension", ext)) (p :: ps)).
  { rewrite disjuncts_fold_left. simpl. f_equal.
    clear. induction ps; simpl; congruence. }
  split; [exact Hd|].
  intros x. rewrite matches_disjuncts, Hd, existsb_exists. split.
  - intros (nv & Hin & Hm). apply in_map_iff in Hin. destruct Hin as (ext & <- & Hin).
    exists ext. split; auto. simpl in Hm.
    destruct (item_lookup "file_extension" x) as [[]|]; try discriminate.
    apply String.eqb_eq in Hm. now subst.
  - intros (ext & Hin & Hx). exists ("file_extension", ext). split.
    + now apply in_map.
    + simpl. rewrite Hx. apply String.eqb_refl.
Qed.

Lemma filter_tests_the_listed_extensions_witness :
  exists f,
    filter_stage (PStr "pdf,html") = inr (Some f)
    /\ disjuncts f = [("file_extension", "pdf"); ("file_extension", "html")]
    /\ forall x,
         matches f x = true <->
         exists ext, In ext ["pdf"; "html"]
                     /\ item_lookup "file_extension" x = Some (AStr ext).
Proof.
  apply (filter_tests_the_listed_extensions "pdf,html"). discriminate.
Defined.

(** ** A whole call *)

(** What a call that answers has gone through. *)
Lemma lambda_handler_answer env event r scans :
  lambda_handler env event = (inr r, scans) ->
  exists q filter_expression exclusive_start_key scanned reverse keys sorted,
    read_query env event = inr q
    /\ filter_stage (file_extension q) = inr filter_expression
    /\ start_key env (last_evaluated_key q) = inr exclusive_start_key
    /\ scans = [ {| Limit := limit q;
                    FilterExpression := filter_expression;
                    ExclusiveStartKey := exclusive_start_key |} ]
    /\ table_scan env {| Limit := limit q;
                         FilterExpression := filter_expression;
                         ExclusiveStartKey := exclusive_start_key |} = inr scanned
    /\ reverse_order_of env (sort_order q) = inr reverse
    /\ sort_keys (sort_by q) (items_of scanned) = inr keys
    /\ py_sort env keys reverse (items_of scanned) = inr sorted
    /\ json_dumps env sorted (reported_key (LastEvaluatedKey scanned)) = inr (body r)
    /\ statusCode r = 200%Z
    /\ headers r = [("Content-Type", "application/json")].
Proof.
  unfold lambda_handler.
  destruct (read_query env event) as [e|q]; [discriminate|].
  destruct (filter_stage (file_extension q)) as [e|fexp] eqn:Hfilter; [discriminate|].
  destruct (start_key env (last_evaluated_key q)) as [e|sk] eqn:Hstart; [discriminate|].
  cbv zeta.
  destruct (table_scan env _) as [e|scanned] eqn:Hscan; [discriminate|].
  fold (items_of scanned).
  destruct (reverse_order_of env (sort_order q)) as [e|reverse] eqn:Hrev; [discriminate|].
  destruct (sort_keys (sort_by q) (items_of scanned)) as [e|keys] eqn:Hkeys; [discriminate|].
  destruct (py_sort env keys reverse (items_of scanned)) as [e|sorted] eqn:Hsort;
    [discriminate|].
  destruct (json_dumps env sorted _) as [e|text] eqn:Hdumps; [discriminate|].
  intros H. injection H as <- <-.
  exists q, fexp, sk, scanned, reverse, keys, sorted. repeat split; simpl; auto.
Qed.

(** X16.  A call scans the table at most once; a call that answers has
    scanned it exactly once, and its answer has status 200 and the JSON
    content type; an exception raised while the parameters are read leaves
    the handler before any scan. *)
Theorem one_scan_per_call (env : Env) (event : dict) :
  let run := lambda_handler env event in
  List.length (snd run) <= 1
  /\ (forall r, fst run = inr r ->
      List.length (snd run) = 1
      /\ statusCode r = 200%Z
      /\ headers r = [("Content-Type", "application/json")])
  /\ (forall e, read_query env event = inl e -> run = (inl e, [])).
Proof.
  cbv zeta. split; [|split].
  - unfold lambda_handler.
    repeat match goal with
           | |- context [match ?x with inl _ => _ | inr _ => _ end] => destruct x
           end; simpl; lia.
  - intros r Hr.
    destruct (lambda_handler_answer env event r (snd (lambda_handler env event)))
      as (q & f & sk & sc & rv & ks & so & _ & _ & _ & Hs & _ & _ & _ & _ & _ & Hc & Hh).
    { rewrite <- Hr. apply surjective_pairing. }
    rewrite Hs. auto.
  - intros e He. unfold lambda_handler. now rewrite He.
Qed.

(** X17.  Without query string parameters (the key absent, [null] or an
    empty object) the handler works with its defaults.  It scans once, with
    [Limit] 10, no filter and no start key.  When it answers, what it
    serialises is the scanned items sorted by [created_at] with [reverse]
    set, [DESC] being its own upper case: for items whose [created_at] is a
    string or absent, a permutation of the scanned items in descending order
    of that key, items with equal keys in the order of the scan. *)
Theorem defaults_without_parameters (env : Env) (event : dict) :
  py_truthy (dict_get "queryStringParameters" event) = false ->
  str_upper env "DESC" = "DESC" ->
  let kwargs := {| Limit := 10; FilterExpression := None; ExclusiveStartKey := None |} in
  snd (lambda_handler env event) = [kwargs]
  /\ forall r, fst (lambda_handler env event) = inr r ->
       exists scanned keys sorted,
         table_scan env kwargs = inr scanned
         /\ sort_keys (PStr "created_at") (items_of scanned) = inr keys
         /\ py_sort env keys true (items_of scanned) = inr sorted
         /\ json_dumps env sorted (reported_key (LastEvaluatedKey scanned)) = inr (body r)
         /\ (forallb (has_string_key "created_at") (items_of scanned) = true ->
             Permutation sorted (items_of scanned)
             /\ StronglySorted (in_order true "created_at") sorted
             /\ forall s, filter (fun x => String.eqb (str_key "created_at" x) s) sorted
                          = filter (fun x => String.eqb (str_key "created_at" x) s)
                                   (items_of scanned)).
Proof.
  intros Hfalsy Hupper kwargs.
  assert (Hq : read_query env event = inr default_query).
  { unfold read_query. cbv zeta. now rewrite Hfalsy. }
  split.
  - unfold lambda_handler. rewrite Hq. cbn.
    repeat match goal with
           | |- context [match ?x with inl _ => _ | inr _ => _ end] => destruct x
           end; reflexivity.
  - intros r Hr.
    destruct (lambda_handler_answer env event r (snd (lambda_handler env event)))
      as (q & f & sk & scanned & reverse & keys & sorted
          & Hq' & Hf & Hsk & _ & Hscan & Hrev & Hkeys & Hsort & Hdumps & _).
    { rewrite <- Hr. apply surjective_pairing. }
    rewrite Hq in Hq'. injection Hq' as <-.
    cbn in Hf, Hsk, Hscan, Hrev, Hkeys. injection Hf as <-. injection Hsk as <-.
    rewrite Hupper in Hrev. cbn in Hrev. injection Hrev as <-.
    exists scanned, keys, sorted.
    split; [exact Hscan|]. split; [exact Hkeys|]. split; [exact Hsort|].
    split; [exact Hdumps|]. intros Hall.
    destruct (py_sort_by_string_keys env "created_at" true _ _ Hkeys Hall)
      as (sorted' & Hsort' & Hperm & Hsorted & Hstable).
    rewrite Hsort in Hsort'. injection Hsort' as <-. auto.
Qed.

Lemma defaults_without_parameters_witness :
  let kwargs := {| Limit := 10; FilterExpression := None; ExclusiveStartKey := None |} in
  snd (lambda_handler demo_env []) = [kwargs]
  /\ forall r, fst (lambda_handler demo_env []) = inr r ->
       exists scanned keys sorted,
         table_scan demo_env kwargs = inr scanned
         /\ sort_keys (PStr "created_at") (items_of scanned) = inr keys
         /\ py_sort demo_env keys true (items_of scanned) = inr sorted
         /\ json_dumps demo_env sorted (reported_key (LastEvaluatedKey scanned))
            = inr (body r)
         /\ (forallb (has_string_key "created_at") (items_of scanned) = true ->
             Permutation sorted (items_of scanned)
             /\ StronglySorted (in_order true "created_at") sorted
             /\ forall s, filter (fun x => String.eqb (str_key "created_at" x) s) sorted
                          = filter (fun x => String.eqb (str_key "created_at" x) s)
                                   (items_of scanned)).
Proof. apply (defaults_without_parameters demo_env []); reflexivity. Defined.

(** X18.  A truthy [last_evaluated_key] always ends up as the scan's
    [ExclusiveStartKey]: as the value [json.loads] makes of it when it is
    JSON text (whatever that value is), and as the key [{"file_id": text}]
    when [json.loads] raises [JSONDecodeError].  Any other exception of
    [json.loads] leaves the handler before the scan. *)
Theorem start_key_of_the_scan (env : Env) (event : dict) (q : query)
    (filter_expression : option condition) :
  read_query env event = inr q ->
  filter_stage (file_extension q) = inr filter_expression ->
  py_truthy (last_evaluated_key q) = true ->
  match json_loads env (last_evaluated_key q) with
  | inr parsed =>
      snd (lambda_handler env event)
      = [ {| Limit := limit q; FilterExpression := filter_expression;
             ExclusiveStartKey := Some parsed |} ]
  | inl e =>
      if is_json_decode_error e then
        snd (lambda_handler env event)
        = [ {| Limit := limit q; FilterExpression := filter_expression;
               ExclusiveStartKey := Some (PDict [("file_id", last_evaluated_key q)]) |} ]
      else lambda_handler env event = (inl e, [])
  end.
Proof.
  intros Hq Hf Ht. unfold lambda_handler. rewrite Hq, Hf. unfold start_key. rewrite Ht.
  destruct (json_loads env (last_evaluated_key q)) as [e|parsed].
  - destruct (is_json_decode_error e); [|reflexivity]. cbv zeta.
    repeat match goal with
           | |- context [match ?x with inl _ => _ | inr _ => _ end] => destruct x
           end; reflexivity.
  - cbv zeta.
    repeat match goal with
           | |- context [match ?x with inl _ => _ | inr _ => _ end] => destruct x
           end; reflexivity.
Qed.

Lemma start_key_of_the_scan_witness :
  snd (lambda_handler demo_env (event_with [("last_evaluated_key", "f2")]))
  = [ {| Limit := 10; FilterExpression := None;
         ExclusiveStartKey := Some (PDict [("file_id", PStr "f2")]) |} ].
Proof.
  exact (start_key_of_the_scan demo_env (event_with [("last_evaluated_key", "f2")])
           {| limit := 10; last_evaluated_key := PStr "f2"; file_extension := PNone;
              sort_by := PStr "created_at"; sort_order := PStr "DESC" |}
           None eq_refl eq_refl eq_refl).
Defined.

(** X19.  What a call that answers puts into [data]: the items of the scan,
    reordered.  When [sort_by] is a text [k] and every scanned item has a
    string under [k] or nothing at all (which counts as the empty string),
    the list is a permutation of the scanned items, sorted by that key,
    descending when the upper-cased [sort_order] is [DESC] and ascending for
    any other text, and items with equal keys keep the order the scan
    returned them in. *)
Theorem listing_is_sorted (env : Env) (event : dict) (q : query) (k order : string)
    (r : response) (scans : list scan_kwargs) :
  read_query env event = inr q ->
  sort_by q = PStr k ->
  sort_order q = PStr order ->
  lambda_handler env event = (inr r, scans) ->
  exists kwargs scanned sorted,
    scans = [kwargs]
    /\ table_scan env kwargs = inr scanned
    /\ json_dumps env sorted (reported_key (LastEvaluatedKey scanned)) = inr (body r)
    /\ (forallb (has_string_key k) (items_of scanned) = true ->
        Permutation sorted (items_of scanned)
        /\ StronglySorted (in_order (String.eqb (str_upper env order) "DESC") k) sorted
        /\ forall s, filter (fun x => String.eqb (str_key k x) s) sorted
                     = filter (fun x => String.eqb (str_key k x) s) (items_of scanned)).
Proof.
  intros Hq Hk Ho Hrun.
  destruct (lambda_handler_answer env event r scans Hrun)
    as (q' & f & sk & scanned & reverse & keys & sorted
        & Hq' & _ & _ & Hs & Hscan & Hrev & Hkeys & Hsort & Hdumps & _).
  rewrite Hq in Hq'. injection Hq' as <-.
  rewrite Hk in Hkeys. rewrite Ho in Hrev. simpl in Hrev. injection Hrev as <-.
  eexists. exists scanned, sorted. split; [exact Hs|]. split; [exact Hscan|].
  split; [exact Hdumps|]. intros Hall.
  destruct (py_sort_by_string_keys env k (String.eqb (str_upper env order) "DESC")
              _ _ Hkeys Hall) as (sorted' & Hsort' & Hperm & Hsorted & Hstable).
  rewrite Hsort in Hsort'. injection Hsort' as <-. auto.
Qed.

Lemma listing_is_sorted_witness :
  let run := lambda_handler demo_env
               (event_with [("sort_order", "asc"); ("file_extension", "pdf,html")]) in
  exists kwargs scanned sorted,
    snd run = [kwargs]
    /\ table_scan demo_env kwargs = inr scanned
    /\ json_dumps demo_env sorted (reported_key (LastEvaluatedKey scanned))
       = inr "f3,f1,f4"
    /\ (forallb (has_string_key "created_at") (items_of scanned) = true ->
        Permutation sorted (items_of scanned)
        /\ StronglySorted (in_order false "created_at") sorted
        /\ forall s, filter (fun x => String.eqb (str_key "created_at" x) s) sorted
                     = filter (fun x => String.eqb (str_key "created_at" x) s)
                              (items_of scanned)).
Proof.
  apply (listing_is_sorted demo_env
           (event_with [("sort_order", "asc"); ("file_extension", "pdf,html")])
           {| limit := 10; last_evaluated_key := PNone; file_extension := PStr "pdf,html";
              sort_by := PStr "created_at"; sort_order := PStr "asc" |}
           "created_at" "asc"
           {| statusCode := 200; headers := [("Content-Type", "application/json")];
              body := "f3,f1,f4" |});
    reflexivity.
Defined.

(** X20.  A [limit] that [int()] rejects ends the call with that exception
    and without a scan: the handler does not catch it, and nothing is read
    from the table on behalf of the malformed request. *)
Theorem bad_limit_scans_nothing (env : Env) (event : dict) (d : dict) (e : error) :
  dict_get "queryStringParameters" event = PDict d ->
  d <> [] ->
  py_int env (dict_get_default "limit" (PInt 10) d) = inl e ->
  lambda_handler env event = (inl e, []).
Proof.
  intros Hp Hd He. unfold lambda_handler, read_query. cbv zeta. rewrite Hp.
  assert (Ht : py_truthy (PDict d) = true) by (destruct d; [now destruct Hd|reflexivity]).
  rewrite Ht. unfold params_get at 1. now rewrite He.
Qed.

Lemma bad_limit_scans_nothing_witness :
  lambda_handler demo_env (event_with [("limit", "abc")])
  = (inl (Error ValueError "invalid literal for int() with base 10: 'abc'"), []).
Proof.
  apply (bad_limit_scans_nothing demo_env (event_with [("limit", "abc")])
           [("limit", PStr "abc")]).
  - reflexivity.
  - discriminate.
  - reflexivity.
Defined.

End ListFilesProofs.
